(** * codestats-box: a shallow embedding of the formatting, fetch and update core

    The Python sources embedded here are [utils.py], [models.py],
    [config.py], [formatter.py], [api.py] and [gist.py] of the package
    [codestats_box].  Python [str] values are sequences of Unicode code
    points, Python [int] values are unbounded integers ([Z]), Python [float]
    values are IEEE-754 binary64 numbers (the Standard Library's [SpecFloat]
    at precision 53).  A function that may raise returns a [result]; a method
    that talks to a remote service takes the state of that service and
    returns the new one.  Of [httpx], [tenacity] and [PyGithub] only what the
    package calls is described.

    The first part holds the definitions, the second their properties. *)

From Stdlib Require Import Strings.String Strings.Ascii.
From Stdlib Require Import ZArith List Lia Bool.
From Stdlib Require Import Sorting.Sorted Sorting.Permutation.
From Stdlib Require Import Floats.SpecFloat.
From Stdlib Require Import Reals Lra.
From Stdlib Require NArith DecimalN DecimalPos DecimalFacts.
Import ListNotations.

#[local] Set Warnings "-register-all".

Open Scope Z_scope.

(** ** Python strings *)

Module Str.

(** A character is a Unicode code point; [len] counts code points, as
    Python's [len] does. *)
Definition char := N.
Definition str := list char.

(** An ASCII literal of the source. *)
Definition lit (s : String.string) : str :=
  map Ascii.N_of_ascii (String.list_ascii_of_string s).

Definition len (s : str) : Z := Z.of_nat (List.length s).

(** [s * n]: [n] copies of [s], none when [n <= 0]. *)
Definition mul (s : str) (n : Z) : str :=
  concat (repeat s (Z.to_nat n)).

(** [sep.join(parts)]. *)
Fixpoint join (sep : str) (parts : list str) : str :=
  match parts with
  | [] => []
  | [p] => p
  | p :: rest => p ++ sep ++ join sep rest
  end.

(** The line feed, ["\n"]. *)
Definition newline : str := [10%N].

Definition eqb (a b : str) : bool :=
  if list_eq_dec N.eq_dec a b then true else false.

End Str.

Abbreviation str := Str.str.
Abbreviation lit := Str.lit.
Arguments Str.lit s%_string.

(** ** Decimal rendering of integers: [str(n)] and the [,] format option *)

Module Fmt.

Definition space : Str.char := 32%N.
Definition comma : Str.char := 44%N.
Definition minus : Str.char := 45%N.

Fixpoint uint_str (u : Decimal.uint) : str :=
  match u with
  | Decimal.Nil => []
  | Decimal.D0 u => 48%N :: uint_str u
  | Decimal.D1 u => 49%N :: uint_str u
  | Decimal.D2 u => 50%N :: uint_str u
  | Decimal.D3 u => 51%N :: uint_str u
  | Decimal.D4 u => 52%N :: uint_str u
  | Decimal.D5 u => 53%N :: uint_str u
  | Decimal.D6 u => 54%N :: uint_str u
  | Decimal.D7 u => 55%N :: uint_str u
  | Decimal.D8 u => 56%N :: uint_str u
  | Decimal.D9 u => 57%N :: uint_str u
  end.

(** The decimal digits of a natural number, most significant first. *)
Definition digits (n : N) : str := uint_str (N.to_uint n).

Definition sign (n : Z) : str := if n <? 0 then [minus] else [].

(** [str(n)] for an [int]. *)
Definition str_of_int (n : Z) : str := sign n ++ digits (Z.abs_N n).

(** Thousands grouping, on the digits least significant first: a comma
    after every third digit that has a digit after it. *)
Fixpoint group_rev (ds : str) : str :=
  match ds with
  | a :: b :: c :: ((_ :: _) as rest) => a :: b :: c :: comma :: group_rev rest
  | _ => ds
  end.

Definition group (ds : str) : str := rev (group_rev (rev ds)).

(** [format(n, ",")]. *)
Definition int_commas (n : Z) : str := sign n ++ group (digits (Z.abs_N n)).

(** Alignment [>width]: spaces on the left up to [width] characters, the
    text kept whole when it is wider. *)
Definition rjust (s : str) (width : Z) : str :=
  Str.mul [space] (width - Str.len s) ++ s.

End Fmt.

(** ** Exceptions and results *)

Inductive exception :=
  (* httpx *)
  | HTTPStatusError (msg : str) (status_code : Z)
  | TimeoutException (msg : str)
  | NetworkError (msg : str)
  | RequestError (msg : str)            (* any other httpx.RequestError *)
  (* builtins *)
  | KeyError (msg : str)
  | ValueError (msg : str)              (* includes json.JSONDecodeError *)
  | TypeError (msg : str)
  | AttributeError (msg : str)
  | OverflowError (msg : str)
  | Exception (msg : str)               (* any other exception *)
  (* exceptions.py *)
  | ConfigurationError (msg : str)
  | CodeStatsAPIError (msg : str) (cause : exception)
  | GitHubAPIError (msg : str) (cause : option exception)
  | DataValidationError (msg : str).

(** [str(e)]. *)
Definition exception_str (e : exception) : str :=
  match e with
  | HTTPStatusError m _ | TimeoutException m | NetworkError m | RequestError m
  | KeyError m | ValueError m | TypeError m | AttributeError m
  | OverflowError m | Exception m | ConfigurationError m
  | CodeStatsAPIError m _ | GitHubAPIError m _ | DataValidationError m => m
  end.

Definition is_DataValidationError (e : exception) : bool :=
  match e with DataValidationError _ => true | _ => false end.

(** The exceptions of the builtins at work in the construction of the model. *)
Definition is_builtin_error (e : exception) : bool :=
  match e with
  | TypeError _ | ValueError _ | OverflowError _ | AttributeError _ => true
  | _ => false
  end.

Inductive result (A : Type) :=
  | Return (a : A)
  | Raise (e : exception).
Arguments Return {A} a.
Arguments Raise {A} e.

Definition bind {A B} (r : result A) (k : A -> result B) : result B :=
  match r with
  | Return a => k a
  | Raise e => Raise e
  end.

Declare Scope py_scope.
Delimit Scope py_scope with py.
Notation "x <- r ;; k" := (bind r (fun x => k))
  (at level 61, r at next level, right associativity) : py_scope.

(** [[f(x) for x in l]], stopping at the first exception. *)
Fixpoint comprehension {A B} (f : A -> result B) (l : list A) : result (list B) :=
  match l with
  | [] => Return []
  | x :: rest =>
      (y <- f x ;;
       ys <- comprehension f rest ;;
       Return (y :: ys))%py
  end.

(** ** Python objects of a decoded JSON payload *)

Inductive value :=
  | VNone
  | VBool (b : bool)
  | VInt (n : Z)
  | VFloat (f : spec_float)
  | VStr (s : str)
  | VList (l : list value)
  | VDict (d : list (str * value)).

Definition type_name (v : value) : str :=
  match v with
  | VNone => lit "NoneType"
  | VBool _ => lit "bool"
  | VInt _ => lit "int"
  | VFloat _ => lit "float"
  | VStr _ => lit "str"
  | VList _ => lit "list"
  | VDict _ => lit "dict"
  end.

(** A number is an [int], a [bool] (a subclass of [int]) or a [float]. *)
Definition is_numeric (v : value) : bool :=
  match v with
  | VBool _ | VInt _ | VFloat _ => true
  | _ => false
  end.

Fixpoint lookup (key : str) (d : list (str * value)) : option value :=
  match d with
  | [] => None
  | (k, v) :: rest => if Str.eqb k key then Some v else lookup key rest
  end.

Definition no_attribute (v : value) (attr : String.string) : exception :=
  AttributeError (lit "'" ++ type_name v ++ lit "' object has no attribute '"
                  ++ lit attr ++ lit "'").

(** [data.get(key, default)]; only a [dict] has the method. *)
Definition get (data : value) (key : str) (default : value) : result value :=
  match data with
  | VDict d => Return (match lookup key d with Some v => v | None => default end)
  | _ => Raise (no_attribute data "get")
  end.

(** [data.items()], in the order of the mapping. *)
Definition items (data : value) : result (list (str * value)) :=
  match data with
  | VDict d => Return d
  | _ => Raise (no_attribute data "items")
  end.

(** [len(v)]. *)
Definition py_len (v : value) : result Z :=
  match v with
  | VStr s => Return (Str.len s)
  | VList l => Return (Z.of_nat (List.length l))
  | VDict d => Return (Z.of_nat (List.length d))
  | _ => Raise (TypeError (lit "object of type '" ++ type_name v ++ lit "' has no len()"))
  end.

(** ** Python floats: IEEE-754 binary64 *)

Module Float.

Definition prec : Z := 53.
Definition emax : Z := 1024.

Definition zero : spec_float := S754_zero false.

(** [float(n)], correctly rounded; an [int] beyond the range of a double
    raises. *)
Definition of_int (n : Z) : result spec_float :=
  match binary_normalize prec emax n 0 false with
  | S754_infinity _ => Raise (OverflowError (lit "int too large to convert to float"))
  | f => Return f
  end.

(** The literal [0.025], i.e. [0x1.999999999999ap-6]. *)
Definition lit_0_025 : spec_float := S754_finite false 0x1999999999999A (-58).

Definition mul : spec_float -> spec_float -> spec_float := SFmul prec emax.

(** [math.sqrt] of a double. *)
Definition sqrt (f : spec_float) : result spec_float :=
  match f with
  | S754_finite true _ _ | S754_infinity true => Raise (ValueError (lit "math domain error"))
  | _ => Return (SFsqrt prec emax f)
  end.

(** [math.floor] of a double. *)
Definition floor (f : spec_float) : result Z :=
  match f with
  | S754_zero _ => Return 0
  | S754_finite s m e => Return (Z.shiftl (if s then Z.neg m else Z.pos m) e)
  | S754_infinity _ => Raise (OverflowError (lit "cannot convert float infinity to integer"))
  | S754_nan => Raise (ValueError (lit "cannot convert float NaN to integer"))
  end.

Definition ltb : spec_float -> spec_float -> bool := SFltb.

End Float.

(** ** utils.py *)

Definition not_supported_lt (v : value) : exception :=
  TypeError (lit "'<' not supported between instances of '" ++ type_name v
             ++ lit "' and 'int'").

(** [xp < 0] followed by [math.floor(0.025 * math.sqrt(xp))], for an [int]. *)
Definition calculate_level_int (xp : Z) : result Z :=
  if xp <? 0 then Return 0
  else (x <- Float.of_int xp ;;
        r <- Float.sqrt x ;;
        Float.floor (Float.mul Float.lit_0_025 r))%py.

(** [calculate_level(xp)] on whatever object the caller passes. *)
Definition calculate_level (xp : value) : result Z :=
  match xp with
  | VInt n => calculate_level_int n
  | VBool b => calculate_level_int (if b then 1 else 0)
  | VFloat f =>
      if Float.ltb f Float.zero then Return 0
      else (r <- Float.sqrt f ;;
            Float.floor (Float.mul Float.lit_0_025 r))%py
  | _ => Raise (not_supported_lt xp)
  end.

(** [format_xp_value(xp, level, new_xp=None)]. *)
Definition format_xp_value (xp level : Z) (new_xp : option Z) : str :=
  let base := lit "lvl " ++ Fmt.rjust (Fmt.str_of_int level) 3 ++ lit " ("
              ++ Fmt.rjust (Fmt.int_commas xp) 9 ++ lit " XP)" in
  match new_xp with
  | Some n =>
      if 0 <? n
      then base ++ lit " (+" ++ Fmt.rjust (Fmt.int_commas n) 6 ++ lit ")"
      else base
  | None => base
  end.

(** [format_xp_only(xp)]. *)
Definition format_xp_only (xp : Z) : str :=
  Fmt.rjust (Fmt.int_commas xp) 9 ++ lit " XP".

(** ** models.py *)

(** The dataclasses declare [xp], [new_xp] and [total_xp] as [int], and
    Python does not check the declaration: [from_api_response] stores what
    the payload holds.  The records are therefore parameterised by the type
    [num] of these fields: [value] for a freshly constructed record, [Z] for
    the records the formatter is written for. *)

Module LanguageStats.

Record t (num : Type) := make
  { name : str; xp : num; new_xp : num; level : Z }.
Arguments make {num}.
Arguments name {num}.
Arguments xp {num}.
Arguments new_xp {num}.
Arguments level {num}.

(** [LanguageStats.from_api_response(name, data)]. *)
Definition from_api_response (name : str) (data : value) : result (t value) :=
  (xp <- get data (lit "xps") (VInt 0) ;;
   new_xp <- get data (lit "new_xps") (VInt 0) ;;
   level <- calculate_level xp ;;
   Return (make name xp new_xp level))%py.

End LanguageStats.

Module UserStats.

Record t (num : Type) := make
  { username : str; total_xp : num; new_xp : num; level : Z;
    languages : list (LanguageStats.t num) }.
Arguments make {num}.
Arguments username {num}.
Arguments total_xp {num}.
Arguments new_xp {num}.
Arguments level {num}.
Arguments languages {num}.

(** [UserStats.from_api_response(username, data)]. *)
Definition from_api_response (username : str) (data : value) : result (t value) :=
  (total_xp <- get data (lit "total_xp") (VInt 0) ;;
   new_xp <- get data (lit "new_xp") (VInt 0) ;;
   level <- calculate_level total_xp ;;
   languages_data <- get data (lit "languages") (VDict []) ;;
   entries <- items languages_data ;;
   languages <- comprehension
                  (fun '(name, lang_data) =>
                     LanguageStats.from_api_response name lang_data)
                  entries ;;
   Return (make username total_xp new_xp level languages))%py.

End UserStats.

Module FormattedLine.

Record t := make { title : str; value : str }.

(** [FormattedLine.format(separator, width)]. *)
Definition format (self : t) (separator : str) (width : Z) : str :=
  let available_space := width - Str.len (title self) - Str.len (value self) - 2 in
  let sep := lit " " ++ Str.mul separator (Z.max available_space 1) ++ lit " " in
  title self ++ sep ++ value self.

End FormattedLine.

(** ** config.py *)

Inductive StatsType := LEVEL_XP | RECENT_XP | XP.

Record Settings := mkSettings
  { gh_token : str;
    gist_id : str;
    code_stats_username : str;
    stats_type : StatsType;
    top_languages_count : Z;      (* validated: 1 <= n <= 50 *)
    codestats_api_base_url : str;
    max_line_length : Z;          (* validated: 40 <= n <= 100 *)
    max_retries : Z }.            (* validated: 1 <= n <= 10 *)

Definition get_codestats_url (self : Settings) : str :=
  codestats_api_base_url self ++ lit "/" ++ code_stats_username self.

(** ** Builtins used by the formatter: [sorted] and slicing *)

Section Sorted.

Context {A : Type}.
Variable key : A -> Z.
Variable reverse : bool.

(** [precedes x y]: [x] must come before [y], each comparison being
    reversed when [reverse] is set. *)
Definition precedes (x y : A) : bool :=
  if reverse then key y <? key x else key x <? key y.

(** [x] is older than every element of [l]: it goes in front of the first
    element that does not have to precede it. *)
Fixpoint insert (x : A) (l : list A) : list A :=
  match l with
  | [] => [x]
  | y :: rest => if precedes y x then y :: insert x rest else x :: l
  end.

(** [in_order x y]: [y] may stand after [x]. *)
Definition in_order (x y : A) : Prop := precedes y x = false.

(** [sorted(l, key=key, reverse=reverse)]: a stable sort. *)
Fixpoint sorted (l : list A) : list A :=
  match l with
  | [] => []
  | x :: rest => insert x (sorted rest)
  end.

End Sorted.

(** The contract of [sorted(l, key=key, reverse=True)]: the same elements,
    keys non-increasing, equal keys in their original order. *)
Definition stable_descending {A} (key : A -> Z) (l out : list A) : Prop :=
  Permutation out l
  /\ StronglySorted (fun a b => key b <= key a) out
  /\ forall k, filter (fun a => key a =? k) out = filter (fun a => key a =? k) l.

(** [l[:n]]: the first [n] elements, or all but the last [-n] when [n < 0]. *)
Definition slice_to {A} (l : list A) (n : Z) : list A :=
  if 0 <=? n then firstn (Z.to_nat n) l
  else firstn (List.length l - Z.to_nat (- n)) l.

(** ** formatter.py *)

Module GistFormatter.

Definition NO_RECENT_ACTIVITY : list FormattedLine.t :=
  [ FormattedLine.make (lit "Not been coding recently") [0x1F648%N];
    FormattedLine.make (lit "Probably busy with something else") [0x1F5D3%N];
    FormattedLine.make (lit "Or just taking a break") [0x1F334%N];
    FormattedLine.make (lit "But would be back to it soon!") [0x1F913%N] ].

Section Methods.

Variable settings : Settings.

Definition _format_total_line (stats : UserStats.t Z) : FormattedLine.t :=
  let value :=
    match stats_type settings with
    | XP => format_xp_only (UserStats.total_xp stats)
    | RECENT_XP =>
        format_xp_value (UserStats.total_xp stats) (UserStats.level stats)
                        (Some (UserStats.new_xp stats))
    | LEVEL_XP =>
        format_xp_value (UserStats.total_xp stats) (UserStats.level stats) None
    end in
  FormattedLine.make (lit "Total XP") value.

Definition _format_language_line (lang : LanguageStats.t Z) : FormattedLine.t :=
  let value :=
    match stats_type settings with
    | XP => format_xp_only (LanguageStats.xp lang)
    | RECENT_XP =>
        format_xp_value (LanguageStats.xp lang) (LanguageStats.level lang)
                        (Some (LanguageStats.new_xp lang))
    | LEVEL_XP =>
        format_xp_value (LanguageStats.xp lang) (LanguageStats.level lang) None
    end in
  FormattedLine.make (LanguageStats.name lang) value.

Definition _format_language_lines (languages : list (LanguageStats.t Z))
  : list FormattedLine.t :=
  let top_count := top_languages_count settings in
  match stats_type settings with
  | RECENT_XP =>
      let active_languages :=
        filter (fun lang => 0 <? LanguageStats.new_xp lang) languages in
      let sorted_languages :=
        slice_to (sorted LanguageStats.new_xp true active_languages) top_count in
      match sorted_languages with
      | [] => NO_RECENT_ACTIVITY
      | _ => map _format_language_line sorted_languages
      end
  | _ =>
      let sorted_languages :=
        slice_to (sorted LanguageStats.xp true languages) top_count in
      map _format_language_line sorted_languages
  end.

Definition _get_formatted_lines (stats : UserStats.t Z) : list FormattedLine.t :=
  _format_total_line stats :: _format_language_lines (UserStats.languages stats).

Definition format_content (stats : UserStats.t Z) : str :=
  let lines := _get_formatted_lines stats in
  let separator := lit ":" in
  let width := max_line_length settings in
  Str.join Str.newline
           (map (fun line => FormattedLine.format line separator width) lines).

End Methods.

End GistFormatter.

(** ** Calls to a remote service *)

(** A computation over a remote world [W]: it returns or raises, and leaves
    the world in a new state either way. *)
Definition io (W A : Type) : Type := W -> result A * W.

Definition io_ret {W A} (a : A) : io W A := fun w => (Return a, w).
Definition io_raise {W A} (e : exception) : io W A := fun w => (Raise e, w).

Definition io_bind {W A B} (c : io W A) (k : A -> io W B) : io W B :=
  fun w =>
    match c w with
    | (Return a, w') => k a w'
    | (Raise e, w') => (Raise e, w')
    end.

(** A pure step that may raise. *)
Definition io_lift {W A} (r : result A) : io W A := fun w => (r, w).

(** [try: c  except Exception as e: handler(e)]. *)
Definition io_try {W A} (c : io W A) (handler : exception -> io W A) : io W A :=
  fun w =>
    match c w with
    | (Return a, w') => (Return a, w')
    | (Raise e, w') => handler e w'
    end.

Declare Scope io_scope.
Delimit Scope io_scope with io.
Notation "x <- c ;; k" := (io_bind c (fun x => k))
  (at level 61, c at next level, right associativity) : io_scope.

(** ** httpx, as far as the client uses it *)

Module httpx.

(** What one [GET] comes to.  The cases are the failures the [except]
    clauses of the client tell apart, and an answer with its status and
    body.  Failures of other classes are not among them: [httpx.InvalidURL]
    for a URL that cannot be parsed, which is not an [httpx.RequestError],
    and the [RecursionError] of the decoder on a body nested too deep. *)
Inductive reply :=
  | Timeout (msg : str)                 (* raises httpx.TimeoutException *)
  | NetworkFailure (msg : str)          (* raises httpx.NetworkError *)
  | RequestFailure (msg : str)          (* raises another httpx.RequestError *)
  | Response (status_code : Z) (body : option value).
      (* [body] is the decoded JSON document, if the body is one *)

(** The remote side: the reply to the [n]-th request sent to a URL, the
    number of requests sent so far, and the pauses taken between them. *)
Record world := mkWorld
  { server : str -> nat -> reply;
    requests : nat;
    slept : list Z }.

Definition sent (w : world) : world :=
  mkWorld (server w) (S (requests w)) (slept w).

(** [time.sleep(seconds)], between two attempts. *)
Definition sleep (seconds : Z) : io world unit :=
  fun w => (Return tt, mkWorld (server w) (requests w) (slept w ++ [seconds])).

(** [client.get(url)]. *)
Definition client_get (url : str) : io world (Z * option value) :=
  fun w =>
    match server w url (requests w) with
    | Timeout m => (Raise (TimeoutException m), sent w)
    | NetworkFailure m => (Raise (NetworkError m), sent w)
    | RequestFailure m => (Raise (RequestError m), sent w)
    | Response status_code body => (Return (status_code, body), sent w)
    end.

Definition is_success (status_code : Z) : bool :=
  (200 <=? status_code) && (status_code <=? 299).

(** [response.raise_for_status()].  The exception carries the status code,
    which is all the client reads of it; its text stands in for the one of
    [httpx], which also names the reason phrase and the URL. *)
Definition raise_for_status (response : Z * option value) : result unit :=
  if is_success (fst response) then Return tt
  else Raise (HTTPStatusError
                (lit "HTTP status " ++ Fmt.str_of_int (fst response))
                (fst response)).

(** [response.json()].  A body that is not JSON makes the decoder raise
    [json.JSONDecodeError], a [ValueError]; the text is the one for a body
    that does not start a JSON value. *)
Definition json (response : Z * option value) : result value :=
  match snd response with
  | Some data => Return data
  | None => Raise (ValueError (lit "Expecting value: line 1 column 1 (char 0)"))
  end.

End httpx.

(** ** tenacity, as far as the client uses it *)

Module tenacity.

(** [retry_if_exception_type((httpx.TimeoutException, httpx.NetworkError))]:
    the test is on the exception that left the decorated function. *)
Definition retry_if_exception_type (e : exception) : bool :=
  match e with
  | TimeoutException _ | NetworkError _ => true
  | _ => false
  end.

(** [wait_exponential(multiplier, min, max)] after attempt [attempt_number]. *)
Definition wait_exponential (multiplier min max : Z) (attempt_number : nat) : Z :=
  Z.max (Z.max 0 min) (Z.min (multiplier * 2 ^ (Z.of_nat attempt_number - 1)) max).

Section Retrying.

Context {A : Type}.
Variable retry : exception -> bool.
Variable wait : nat -> Z.
Variable fn : io httpx.world A.

(** The attempt loop, with [remaining] attempts left after this one.  An
    outcome the [retry] test rejects is final; with [reraise=True] so is
    the last exception once the attempts are used up. *)
Fixpoint attempt (remaining attempt_number : nat) : io httpx.world A :=
  fun w =>
    match fn w with
    | (Return a, w') => (Return a, w')
    | (Raise e, w') =>
        if retry e then
          match remaining with
          | O => (Raise e, w')
          | S k =>
              let '(_, w'') := httpx.sleep (wait attempt_number) w' in
              attempt k (S attempt_number) w''
          end
        else (Raise e, w')
    end.

(** [@retry(stop=stop_after_attempt(n), wait=..., retry=..., reraise=True)]. *)
Definition retrying (stop_after_attempt : nat) : io httpx.world A :=
  attempt (stop_after_attempt - 1) 1.

End Retrying.

End tenacity.

(** ** api.py *)

Module CodeStatsClient.

Section Methods.

Variable settings : Settings.

(** The [except] clauses of [get_user_stats], in their order:
    [httpx.HTTPStatusError], then [httpx.RequestError] (the transport errors
    and the other request errors), then [(KeyError, ValueError, TypeError)]. *)
Definition handler (username : str) (e : exception)
  : io httpx.world (UserStats.t value) :=
  match e with
  | HTTPStatusError _ status_code =>
      io_raise (CodeStatsAPIError
                  (lit "Failed to fetch Code::Stats data for user '" ++ username
                   ++ lit "': HTTP " ++ Fmt.str_of_int status_code) e)
  | TimeoutException _ | NetworkError _ | RequestError _ =>
      io_raise (CodeStatsAPIError
                  (lit "Network error while fetching Code::Stats data for user '"
                   ++ username ++ lit "': " ++ exception_str e) e)
  | KeyError _ | ValueError _ | TypeError _ =>
      io_raise (CodeStatsAPIError
                  (lit "Failed to parse Code::Stats API response for user '"
                   ++ username ++ lit "': " ++ exception_str e) e)
  | _ => io_raise e
  end.

(** The body of [get_user_stats], under the decorator. *)
Definition get_user_stats_body : io httpx.world (UserStats.t value) :=
  let url := get_codestats_url settings in
  let username := code_stats_username settings in
  io_try
    (response <- httpx.client_get url ;;
     _ <- io_lift (httpx.raise_for_status response) ;;
     data <- io_lift (httpx.json response) ;;
     (* the arguments of the log record *)
     _ <- io_lift (get data (lit "total_xp") (VInt 0)) ;;
     languages <- io_lift (get data (lit "languages") (VDict [])) ;;
     _ <- io_lift (py_len languages) ;;
     io_lift (UserStats.from_api_response username data))%io
    (handler username).

(** [get_user_stats], as decorated:
    [stop_after_attempt(3)], [wait_exponential(multiplier=1, min=2, max=10)],
    [retry_if_exception_type((TimeoutException, NetworkError))], [reraise=True]. *)
Definition get_user_stats : io httpx.world (UserStats.t value) :=
  tenacity.retrying tenacity.retry_if_exception_type
                    (tenacity.wait_exponential 1 2 10)
                    get_user_stats_body 3.

End Methods.

End CodeStatsClient.

(** ** PyGithub, as far as the updater uses it *)

Module github.

(** A gist's files: an ordered mapping from file name to content. *)
Definition files := list (str * str).

(** One [Gist.edit] request: the file it names, and the content and the
    new name it gives. *)
Record edit_request := mkEdit
  { edit_file : str; edit_content : str; edit_new_name : str }.

(** The remote side: the stored gist, the faults of the two calls (the
    exception each raises, if it is to fail), and the edit requests
    received so far. *)
Record remote := mkRemote
  { gist_files : files;
    get_gist_fault : option exception;
    edit_fault : option exception;
    edits : list edit_request }.

(** [github.get_gist(gist_id)]. *)
Definition get_gist (gist_id : str) : io remote files :=
  fun r =>
    match get_gist_fault r with
    | Some e => (Raise e, r)
    | None => (Return (gist_files r), r)
    end.

(** The stored files after an accepted edit: the named file gets the new
    name and content, where it stands. *)
Fixpoint replace_file (q : edit_request) (fs : files) : files :=
  match fs with
  | [] => []
  | (name, content) :: rest =>
      if Str.eqb name (edit_file q)
      then (edit_new_name q, edit_content q) :: rest
      else (name, content) :: replace_file q rest
  end.

(** [gist.edit(files={name: InputFileContent(content, new_name)})]. *)
Definition edit (q : edit_request) : io remote unit :=
  fun r =>
    match edit_fault r with
    | Some e =>
        (Raise e, mkRemote (gist_files r) (get_gist_fault r) (edit_fault r)
                           (edits r ++ [q]))
    | None =>
        (Return tt, mkRemote (replace_file q (gist_files r)) (get_gist_fault r)
                             (edit_fault r) (edits r ++ [q]))
    end.

End github.

(** ** gist.py *)

Module GistUpdater.

Section Methods.

Variable settings : Settings.

(** [update_gist(title, content)]. *)
Definition update_gist (title content : str) : io github.remote bool :=
  let gist_id := gist_id settings in
  (gist_files <-
     io_try (github.get_gist gist_id)
            (fun e => io_raise
                        (GitHubAPIError
                           (lit "Failed to fetch gist " ++ gist_id ++ lit ": "
                            ++ exception_str e) (Some e))) ;;
   match gist_files with
   | [] =>
       io_raise (GitHubAPIError (lit "Gist " ++ gist_id ++ lit " has no files") None)
   | (old_title, current_content) :: _ =>
       if Str.eqb current_content content && Str.eqb old_title title
       then io_ret false
       else
         io_try
           (_ <- github.edit (github.mkEdit old_title content title) ;;
            io_ret true)
           (fun e => io_raise
                       (GitHubAPIError
                          (lit "Failed to update gist " ++ gist_id ++ lit ": "
                           ++ exception_str e) (Some e)))
   end)%io.

End Methods.

End GistUpdater.

(** ** The words of the specification *)

Module Spec.

(** Right-aligned to [width] characters: spaces in front, nothing cut. *)
Definition right_aligned (width : nat) (s : str) : str :=
  repeat Fmt.space (width - List.length s) ++ s.

(** Thousands grouping read from the left: a comma after each digit that
    has a positive multiple of three digits to its right. *)
Fixpoint grouped (ds : str) : str :=
  match ds with
  | [] => []
  | d :: rest =>
    d :: (if (0 <? List.length rest)%nat && (List.length rest mod 3 =? 0)%nat
          then Fmt.comma :: grouped rest
          else grouped rest)
  end.

Definition comma_grouped (n : Z) : str :=
  Fmt.sign n ++ grouped (Fmt.digits (Z.abs_N n)).

(** [is_level xp L]: [L] is [floor(0.025 * sqrt(xp))] over the reals, that
    is [L <= sqrt(xp) / 40 < L + 1], written with both sides squared. *)
Definition is_level (xp L : Z) : Prop :=
  0 <= L /\ (40 * L) * (40 * L) <= xp < (40 * (L + 1)) * (40 * (L + 1)).

Definition level_and_total (xp level : Z) : str :=
  lit "lvl " ++ right_aligned 3 (Fmt.str_of_int level) ++ lit " ("
  ++ right_aligned 9 (comma_grouped xp) ++ lit " XP)".

Definition value_rendering (mode : StatsType) (xp level newXp : Z) : str :=
  match mode with
  | XP => right_aligned 9 (comma_grouped xp) ++ lit " XP"
  | LEVEL_XP => level_and_total xp level
  | RECENT_XP =>
    level_and_total xp level
    ++ (if 0 <? newXp
        then lit " (+" ++ right_aligned 6 (comma_grouped newXp) ++ lit ")"
        else [])
  end.

End Spec.

(** ** The payload field whose level computation comes first to fail *)

(** [level_source d v]: in the payload [d], [v] is the value of [total_xp],
    or the [xps] of a language before which the total and every earlier
    language are constructed without an exception. *)
Inductive level_source (d : list (str * value)) (v : value) : Prop :=
  | total_xp_field :
      lookup (lit "total_xp") d = Some v ->
      level_source d v
  | language_xps_field (total : Z) (good rest : list (str * value))
                       (name : str) (fields : list (str * value)) :
      calculate_level (match lookup (lit "total_xp") d with
                       | Some x => x
                       | None => VInt 0
                       end) = Return total ->
      lookup (lit "languages") d = Some (VDict (good ++ (name, VDict fields) :: rest)) ->
      Forall (fun entry => exists r,
                  LanguageStats.from_api_response (fst entry) (snd entry) = Return r)
             good ->
      lookup (lit "xps") fields = Some v ->
      level_source d v.

(** ** Concrete inputs *)

Module Sample.

Definition settings (mode : StatsType) (top : Z) : Settings :=
  mkSettings (lit "token") (lit "0123abcd") (lit "alice") mode top
           (lit "https://codestats.net/api/users") 54 3.

Definition A : LanguageStats.t Z := LanguageStats.make (lit "A") 500 0 0.
Definition B : LanguageStats.t Z := LanguageStats.make (lit "B") 1500 0 0.
Definition C : LanguageStats.t Z := LanguageStats.make (lit "C") 1000 0 0.

Definition stats : UserStats.t Z :=
  UserStats.make (lit "alice") 1104152 0 26 [A; B; C].

(** A service on which every request times out. *)
Definition always_timeout : httpx.world :=
  httpx.mkWorld (fun _ _ => httpx.Timeout (lit "timed out")) 0 [].

(** A service that answers every request with the given status and body. *)
Definition always_responds (status_code : Z) (body : option value) : httpx.world :=
  httpx.mkWorld (fun _ _ => httpx.Response status_code body) 0 [].

(** A store holding one gist with the given files, and no faults. *)
Definition store (fs : github.files) : github.remote :=
  github.mkRemote fs None None [].

(** A gist of two files, the first one out of date. *)
Definition stale_store : github.remote :=
  store [(lit "stats.txt", lit "old"); (lit "notes.md", lit "n")].

(** Languages with recent activity: D and F tie, E is ahead, G has none. *)
Definition D : LanguageStats.t Z := LanguageStats.make (lit "D") 9000 30 2.
Definition E : LanguageStats.t Z := LanguageStats.make (lit "E") 100 70 0.
Definition F : LanguageStats.t Z := LanguageStats.make (lit "F") 2500 30 1.
Definition G : LanguageStats.t Z := LanguageStats.make (lit "G") 640000 0 20.

Definition active_stats : UserStats.t Z :=
  UserStats.make (lit "alice") 651600 130 20 [D; E; F; G].

(** A payload whose total is a string. *)
Definition string_total : value :=
  VDict [(lit "total_xp", VStr (lit "many"))].

(** A payload whose second language has a list for its [xps]. *)
Definition list_xps : list (str * value) :=
  [ (lit "total_xp", VInt 8000);
    (lit "languages",
     VDict [ (lit "Python", VDict [(lit "xps", VInt 6400); (lit "new_xps", VInt 12)]);
             (lit "Rust", VDict [(lit "xps", VList [VInt 1600])]) ]) ].

End Sample.

(** ** Notions the further properties are stated with *)

(** A decimal digit character. *)
Definition is_digit (c : Str.char) : Prop := (48 <= c <= 57)%N.

(** The text with its commas taken out. *)
Definition without_commas (s : str) : str :=
  filter (fun c => negb (c =? Fmt.comma)%N) s.

(** A text that starts with a character other than the space. *)
Definition unpadded (s : str) : Prop :=
  match s with
  | c :: _ => c <> Fmt.space
  | [] => False
  end.

(** The number of line feeds in a text. *)
Definition line_feeds (s : str) : nat := count_occ N.eq_dec s 10%N.

(** The number a digit sequence stands for, most significant digit first,
    after the digits that gave [acc]. *)
Fixpoint digits_value (u : Decimal.uint) (acc : N) : N :=
  match u with
  | Decimal.Nil => acc
  | Decimal.D0 l => digits_value l (10 * acc)
  | Decimal.D1 l => digits_value l (1 + 10 * acc)
  | Decimal.D2 l => digits_value l (2 + 10 * acc)
  | Decimal.D3 l => digits_value l (3 + 10 * acc)
  | Decimal.D4 l => digits_value l (4 + 10 * acc)
  | Decimal.D5 l => digits_value l (5 + 10 * acc)
  | Decimal.D6 l => digits_value l (6 + 10 * acc)
  | Decimal.D7 l => digits_value l (7 + 10 * acc)
  | Decimal.D8 l => digits_value l (8 + 10 * acc)
  | Decimal.D9 l => digits_value l (9 + 10 * acc)
  end%N.

(** [fits settings lang]: an XP below ten millions, a level below a
    thousand, and a name that leaves room for the value and one separator. *)
Definition fits (settings : Settings) (lang : LanguageStats.t Z) : Prop :=
  0 <= LanguageStats.xp lang < 10000000
  /\ 0 <= LanguageStats.level lang < 1000
  /\ Str.len (LanguageStats.name lang) + 25 <= max_line_length settings.


Module Payload.

(** An [int] the level calculator is exact on. *)
Definition in_range (v : value) : bool :=
  match v with
  | VInt n => (0 <=? n) && (n <? 2 ^ 50)
  | _ => false
  end.

(** The field is absent, or holds an [int] in range. *)
Definition field_ok (key : str) (d : list (str * value)) : bool :=
  match lookup key d with
  | Some v => in_range v
  | None => true
  end.

Definition language_ok (entry : str * value) : bool :=
  match snd entry with
  | VDict fields => field_ok (lit "xps") fields
  | _ => false
  end.

(** A document of the shape the service documents: an object whose
    [total_xp], and the [xps] of each entry of whose [languages] object,
    is absent or an [int] in range. *)
Definition well_formed (data : value) : bool :=
  match data with
  | VDict d =>
      field_ok (lit "total_xp") d
      && match lookup (lit "languages") d with
         | None => true
         | Some (VDict entries) => forallb language_ok entries
         | Some _ => false
         end
  | _ => false
  end.

End Payload.

(** ** More concrete inputs *)

Module Case.

(** A document as the service sends it. *)
Definition payload : value :=
  VDict [ (lit "user", VStr (lit "alice"));
          (lit "total_xp", VInt 1104152);
          (lit "new_xp", VInt 130);
          (lit "languages",
           VDict [ (lit "Python", VDict [(lit "xps", VInt 640000); (lit "new_xps", VInt 100)]);
                   (lit "Rust", VDict [(lit "xps", VInt 9000)]) ]) ].

(** A document whose total is beyond the range of a double. *)
Definition huge_total : value := VDict [(lit "total_xp", VInt (2 ^ 1024))].

(** A payload whose total is a string and whose [languages] are a number. *)
Definition unsized_languages : list (str * value) :=
  [ (lit "total_xp", VStr (lit "many")); (lit "languages", VInt 7) ].

(** A store whose gist cannot be fetched. *)
Definition unreachable_store : github.remote :=
  github.mkRemote [(lit "stats.txt", lit "old")]
                  (Some (Exception (lit "404 Not Found"))) None [].

(** A store that refuses every edit. *)
Definition read_only_store : github.remote :=
  github.mkRemote [(lit "stats.txt", lit "old")]
                  None (Some (Exception (lit "403 Forbidden"))) [].

End Case.

(** * Properties *)

Section StrFacts.

Lemma len_app (a b : str) : Str.len (a ++ b) = Str.len a + Str.len b.
Proof. unfold Str.len. rewrite length_app. lia. Qed.

Lemma len_nonneg (a : str) : 0 <= Str.len a.
Proof. unfold Str.len. lia. Qed.

Lemma mul_single (c : Str.char) (n : Z) :
  Str.mul [c] n = repeat c (Z.to_nat n).
Proof.
  unfold Str.mul. induction (Z.to_nat n) as [|k IH]; simpl; congruence.
Qed.

Lemma len_repeat (c : Str.char) (k : nat) :
  Str.len (repeat c k) = Z.of_nat k.
Proof. unfold Str.len. now rewrite repeat_length. Qed.

End StrFacts.

(** C8. Rendering a line gives the label, one space, the separator character
    repeated [N = max (width - len label - len value - 2) 1] times, one
    space, and the value; the separator run is never empty. *)
Theorem format_shape (label value : str) (c : Str.char) (width : Z) :
  let N := Z.max (width - Str.len label - Str.len value - 2) 1 in
  FormattedLine.format (FormattedLine.make label value) [c] width
    = label ++ lit " " ++ repeat c (Z.to_nat N) ++ lit " " ++ value
  /\ Str.len (repeat c (Z.to_nat N)) = N
  /\ 1 <= N.
Proof.
  intros N. unfold FormattedLine.format.
  cbn [FormattedLine.title FormattedLine.value].
  fold N. rewrite mul_single, len_repeat.
  repeat split; try lia.
  now rewrite <- !app_assoc.
Qed.

(** C10. With a one-character separator the rendered line is exactly
    [max width (len label + len value + 3)] characters long. *)
Theorem format_length (label value : str) (c : Str.char) (width : Z) :
  Str.len (FormattedLine.format (FormattedLine.make label value) [c] width)
    = Z.max width (Str.len label + Str.len value + 3).
Proof.
  unfold FormattedLine.format.
  cbn [FormattedLine.title FormattedLine.value].
  rewrite mul_single, !len_app, len_repeat.
  change (Str.len (lit " ")) with 1.
  pose proof (len_nonneg label). pose proof (len_nonneg value). lia.
Qed.

(** The line of the specification: 54 - 8 - 22 - 2 = 22 separators. *)
Example format_total_line_54 :
  FormattedLine.format
      (FormattedLine.make (lit "Total XP") (lit "lvl  26 (1,104,152 XP)")) (lit ":") 54
    = lit "Total XP :::::::::::::::::::::: lvl  26 (1,104,152 XP)".
Proof. reflexivity. Qed.

(** A line too long for the width keeps one separator. *)
Example format_overlong :
  FormattedLine.format (FormattedLine.make (lit "Objective-C++") (lit "12 XP")) (lit ":") 10
    = lit "Objective-C++ : 12 XP".
Proof. reflexivity. Qed.

(** ** [sorted] is a stable sort *)

Section SortedFacts.

Context {A : Type}.
Variable key : A -> Z.
Variable reverse : bool.

Lemma insert_perm (x : A) (l : list A) :
  Permutation (insert key reverse x l) (x :: l).
Proof.
  induction l as [|y rest IH]; simpl.
  - apply Permutation_refl.
  - destruct (precedes key reverse y x).
    + eapply perm_trans; [apply perm_skip, IH | apply perm_swap].
    + apply Permutation_refl.
Qed.

Lemma sorted_perm (l : list A) : Permutation (sorted key reverse l) l.
Proof.
  induction l as [|x rest IH]; simpl.
  - constructor.
  - eapply perm_trans; [apply insert_perm | now apply perm_skip].
Qed.

Lemma in_order_total (x y : A) :
  in_order key reverse x y \/ in_order key reverse y x.
Proof.
  unfold in_order, precedes. destruct reverse.
  - destruct (Z.ltb_spec (key x) (key y)), (Z.ltb_spec (key y) (key x));
      auto; lia.
  - destruct (Z.ltb_spec (key x) (key y)), (Z.ltb_spec (key y) (key x));
      auto; lia.
Qed.

Lemma in_order_trans (x y z : A) :
  in_order key reverse x y -> in_order key reverse y z -> in_order key reverse x z.
Proof.
  unfold in_order, precedes. destruct reverse; rewrite !Z.ltb_ge; lia.
Qed.

Lemma insert_in_order (x : A) (l : list A) :
  StronglySorted (in_order key reverse) l ->
  StronglySorted (in_order key reverse) (insert key reverse x l).
Proof.
  induction 1 as [|y rest Hs IH Hy]; simpl.
  - repeat constructor.
  - destruct (precedes key reverse y x) eqn:E.
    + constructor; [exact IH|].
      apply (Permutation_Forall (Permutation_sym (insert_perm x rest))).
      constructor; [|exact Hy].
      destruct (in_order_total y x) as [H|H]; [exact H|].
      unfold in_order in H. congruence.
    + constructor.
      * now constructor.
      * constructor; [exact E|].
        eapply Forall_impl; [|exact Hy].
        intros z Hz. eapply in_order_trans; [exact E | exact Hz].
Qed.

Lemma sorted_in_order (l : list A) :
  StronglySorted (in_order key reverse) (sorted key reverse l).
Proof.
  induction l as [|x rest IH]; simpl.
  - constructor.
  - now apply insert_in_order.
Qed.

(** Elements with equal keys never pass one another. *)
Lemma insert_stable (k : Z) (x : A) (l : list A) :
  filter (fun a => key a =? k) (insert key reverse x l)
    = filter (fun a => key a =? k) (x :: l).
Proof.
  induction l as [|y rest IH]; [reflexivity|].
  cbn [insert]. destruct (precedes key reverse y x) eqn:E; [|reflexivity].
  cbn [filter] in *. rewrite IH.
  destruct (Z.eqb_spec (key y) k) as [Hy|Hy], (Z.eqb_spec (key x) k) as [Hx|Hx];
    try reflexivity.
  exfalso. unfold precedes in E.
  destruct reverse; apply Z.ltb_lt in E; lia.
Qed.

Lemma sorted_stable (k : Z) (l : list A) :
  filter (fun a => key a =? k) (sorted key reverse l)
    = filter (fun a => key a =? k) l.
Proof.
  induction l as [|x rest IH]; [reflexivity|].
  cbn [sorted]. rewrite insert_stable. cbn [filter]. now rewrite IH.
Qed.

End SortedFacts.

Lemma sorted_reverse_spec {A} (key : A -> Z) (l : list A) :
  stable_descending key l (sorted key true l).
Proof.
  split; [apply sorted_perm|]. split; [|intro k; apply sorted_stable].
  pose proof (sorted_in_order key true l) as H.
  induction H as [|x rest Hs IH Hx]; constructor; trivial.
  eapply Forall_impl; [|exact Hx].
  intros b. unfold in_order, precedes. now rewrite Z.ltb_ge.
Qed.

Lemma filter_key_head {A} (key : A -> Z) (h : A) (t : list A) :
  filter (fun a => key a =? key h) (h :: t)
    = h :: filter (fun a => key a =? key h) t.
Proof. cbn [filter]. now rewrite Z.eqb_refl. Qed.

Lemma filter_key_in {A} (key : A -> Z) (x : A) (k : Z) (l : list A) :
  In x (filter (fun a => key a =? k) l) -> In x l /\ key x = k.
Proof. rewrite filter_In, Z.eqb_eq. trivial. Qed.

(** Two descending lists with the same elements of every key, in the same
    order, are the same list. *)
Lemma descending_determined {A} (key : A -> Z) (l1 : list A) :
  forall l2,
    StronglySorted (fun a b => key b <= key a) l1 ->
    StronglySorted (fun a b => key b <= key a) l2 ->
    (forall k, filter (fun a => key a =? k) l1 = filter (fun a => key a =? k) l2) ->
    l1 = l2.
Proof.
  induction l1 as [|h1 t1 IH]; intros [|h2 t2] S1 S2 F.
  - reflexivity.
  - specialize (F (key h2)). rewrite filter_key_head in F. discriminate.
  - specialize (F (key h1)). rewrite filter_key_head in F. discriminate.
  - inversion S1 as [|? ? S1' H1]; inversion S2 as [|? ? S2' H2]; subst.
    assert (Hle : forall (a b : A) (ta tb : list A),
               Forall (fun c => key c <= key b) tb ->
               filter (fun c => key c =? key a) (a :: ta)
                 = filter (fun c => key c =? key a) (b :: tb) ->
               key a <= key b).
    { intros a b ta tb Hb E. rewrite filter_key_head in E.
      assert (Hin : In a (filter (fun c => key c =? key a) (b :: tb)))
        by (rewrite <- E; now left).
      apply filter_key_in in Hin. destruct Hin as [[->|Hin] _]; [lia|].
      rewrite Forall_forall in Hb. now apply Hb. }
    assert (K : key h1 = key h2).
    { apply Z.le_antisymm.
      - apply (Hle h1 h2 t1 t2 H2). apply F.
      - apply (Hle h2 h1 t2 t1 H1). symmetry. apply F. }
    pose proof (F (key h1)) as F1. cbn [filter] in F1.
    rewrite <- K, Z.eqb_refl in F1.
    injection F1 as -> F1.
    f_equal. apply IH; trivial.
    intro k. specialize (F k). cbn [filter] in F.
    destruct (key h2 =? k); [now injection F | exact F].
Qed.

(** The contract determines the result: a stable sort has one outcome. *)
Lemma stable_descending_unique {A} (key : A -> Z) (l out1 out2 : list A) :
  stable_descending key l out1 -> stable_descending key l out2 -> out1 = out2.
Proof.
  intros (_ & S1 & F1) (_ & S2 & F2).
  apply (descending_determined key); trivial.
  intro k. now rewrite F1, F2.
Qed.

Lemma slice_to_firstn {A} (l : list A) (n : Z) :
  0 <= n -> slice_to l n = firstn (Z.to_nat n) l.
Proof.
  intro H. unfold slice_to. destruct (Z.leb_spec 0 n); [reflexivity | lia].
Qed.

(** ** The content formatter *)

Section FormatterFacts.

Variable settings : Settings.

Let render (line : FormattedLine.t) : str :=
  FormattedLine.format line (lit ":") (max_line_length settings).

(** The content is the total line followed by the language lines, one
    rendered line each, joined by line feeds. *)
Lemma format_content_lines (stats : UserStats.t Z) :
  GistFormatter.format_content settings stats
    = Str.join Str.newline
        (render (GistFormatter._format_total_line settings stats)
         :: map render (GistFormatter._format_language_lines
                          settings (UserStats.languages stats))).
Proof. reflexivity. Qed.

Lemma language_lines_by_xp (languages : list (LanguageStats.t Z)) :
  stats_type settings <> RECENT_XP ->
  GistFormatter._format_language_lines settings languages
    = map (GistFormatter._format_language_line settings)
          (slice_to (sorted LanguageStats.xp true languages)
                    (top_languages_count settings)).
Proof.
  intro H. unfold GistFormatter._format_language_lines.
  destruct (stats_type settings); [reflexivity | contradiction | reflexivity].
Qed.

Lemma language_lines_recent (languages : list (LanguageStats.t Z)) :
  stats_type settings = RECENT_XP ->
  GistFormatter._format_language_lines settings languages
    = match slice_to (sorted LanguageStats.new_xp true
                        (filter (fun lang => 0 <? LanguageStats.new_xp lang) languages))
                     (top_languages_count settings) with
      | [] => GistFormatter.NO_RECENT_ACTIVITY
      | chosen => map (GistFormatter._format_language_line settings) chosen
      end.
Proof.
  intro H. unfold GistFormatter._format_language_lines. rewrite H.
  destruct (slice_to _ _); reflexivity.
Qed.

Lemma filter_none_active (languages : list (LanguageStats.t Z)) :
  Forall (fun lang => LanguageStats.new_xp lang = 0) languages ->
  filter (fun lang => 0 <? LanguageStats.new_xp lang) languages = [].
Proof.
  induction 1 as [|lang rest H _ IH]; [reflexivity|].
  cbn [filter]. now rewrite H, IH.
Qed.

Lemma slice_to_nil {A} (n : Z) : slice_to (@nil A) n = [].
Proof. unfold slice_to. destruct (0 <=? n); apply firstn_nil. Qed.

End FormatterFacts.

(** C5. In the modes [LEVEL_XP] and [XP] the language lines are the
    languages in descending order of [xp], equal values in payload order
    (any list meeting that contract is the one used), cut to the first
    [top_languages_count], one rendered line each after the total line. *)
Theorem top_languages_by_xp (settings : Settings) (stats : UserStats.t Z)
    (ranked : list (LanguageStats.t Z)) :
  stats_type settings <> RECENT_XP ->
  0 <= top_languages_count settings ->
  stable_descending LanguageStats.xp (UserStats.languages stats) ranked ->
  let chosen := firstn (Z.to_nat (top_languages_count settings)) ranked in
  GistFormatter._format_language_lines settings (UserStats.languages stats)
    = map (GistFormatter._format_language_line settings) chosen
  /\ GistFormatter.format_content settings stats
     = Str.join Str.newline
         (map (fun line => FormattedLine.format line (lit ":") (max_line_length settings))
              (GistFormatter._format_total_line settings stats
               :: map (GistFormatter._format_language_line settings) chosen)).
Proof.
  intros Hmode Hn Hranked chosen.
  assert (E : GistFormatter._format_language_lines settings (UserStats.languages stats)
              = map (GistFormatter._format_language_line settings) chosen).
  { rewrite language_lines_by_xp, slice_to_firstn by assumption.
    unfold chosen. do 2 f_equal.
    eapply stable_descending_unique; [apply sorted_reverse_spec | exact Hranked]. }
  split; [exact E|].
  rewrite format_content_lines, E. reflexivity.
Qed.

(** C6. In the mode [RECENT_XP] the languages shown are those with
    [new_xp > 0], in descending order of [new_xp], equal values in payload
    order, cut to the first [top_languages_count]; when none is left the
    four placeholder lines stand in their place, and that is the case
    whenever every language has [new_xp = 0], whatever the total. *)
Theorem recent_languages (settings : Settings) (stats : UserStats.t Z) :
  stats_type settings = RECENT_XP ->
  (forall ranked,
      0 <= top_languages_count settings ->
      stable_descending LanguageStats.new_xp
        (filter (fun lang => 0 <? LanguageStats.new_xp lang) (UserStats.languages stats))
        ranked ->
      GistFormatter._format_language_lines settings (UserStats.languages stats)
        = match firstn (Z.to_nat (top_languages_count settings)) ranked with
          | [] => GistFormatter.NO_RECENT_ACTIVITY
          | chosen => map (GistFormatter._format_language_line settings) chosen
          end)
  /\ (Forall (fun lang => LanguageStats.new_xp lang = 0) (UserStats.languages stats) ->
      GistFormatter._format_language_lines settings (UserStats.languages stats)
        = [ FormattedLine.make (lit "Not been coding recently") [0x1F648%N];
            FormattedLine.make (lit "Probably busy with something else") [0x1F5D3%N];
            FormattedLine.make (lit "Or just taking a break") [0x1F334%N];
            FormattedLine.make (lit "But would be back to it soon!") [0x1F913%N] ]
      /\ GistFormatter.format_content settings stats
         = Str.join Str.newline
             (map (fun line => FormattedLine.format line (lit ":") (max_line_length settings))
                  (GistFormatter._format_total_line settings stats
                   :: GistFormatter.NO_RECENT_ACTIVITY))).
Proof.
  intro Hmode. split.
  - intros ranked Hn Hranked.
    rewrite language_lines_recent, slice_to_firstn by assumption.
    replace ranked with
      (sorted LanguageStats.new_xp true
         (filter (fun lang => 0 <? LanguageStats.new_xp lang) (UserStats.languages stats)))
      by (eapply stable_descending_unique; [apply sorted_reverse_spec | exact Hranked]).
    reflexivity.
  - intro Hzero.
    assert (E : GistFormatter._format_language_lines settings (UserStats.languages stats)
                = GistFormatter.NO_RECENT_ACTIVITY).
    { rewrite language_lines_recent by assumption.
      rewrite filter_none_active by assumption.
      cbn [sorted]. now rewrite slice_to_nil. }
    split; [exact E|].
    rewrite format_content_lines, E. reflexivity.
Qed.

(** C5 at the example of the specification: of A (500), B (1500) and
    C (1000) with a count of two, the lines are those of B and C. *)
Lemma top_languages_by_xp_witness :
  GistFormatter._format_language_lines (Sample.settings LEVEL_XP 2) [Sample.A; Sample.B; Sample.C]
    = [ FormattedLine.make (lit "B") (lit "lvl   0 (    1,500 XP)");
        FormattedLine.make (lit "C") (lit "lvl   0 (    1,000 XP)") ].
Proof.
  refine (proj1 (top_languages_by_xp (Sample.settings LEVEL_XP 2) Sample.stats
                   [Sample.B; Sample.C; Sample.A] _ _ _)).
  - discriminate.
  - simpl. lia.
  - exact (sorted_reverse_spec LanguageStats.xp [Sample.A; Sample.B; Sample.C]).
Defined.

(** C6 at concrete inputs: with a count of two, E (70) and then D (30, and
    before F in the payload) are shown; and the sample without recent
    activity gets the placeholder. *)
Lemma recent_languages_witness :
  GistFormatter._format_language_lines (Sample.settings RECENT_XP 2)
      [Sample.D; Sample.E; Sample.F; Sample.G]
    = [ FormattedLine.make (lit "E") (lit "lvl   0 (      100 XP) (+    70)");
        FormattedLine.make (lit "D") (lit "lvl   2 (    9,000 XP) (+    30)") ]
  /\ GistFormatter._format_language_lines (Sample.settings RECENT_XP 2)
       [Sample.A; Sample.B; Sample.C]
     = GistFormatter.NO_RECENT_ACTIVITY.
Proof.
  split.
  - refine (proj1 (recent_languages (Sample.settings RECENT_XP 2) Sample.active_stats _)
                  [Sample.E; Sample.D; Sample.F] _ _).
    + reflexivity.
    + simpl. lia.
    + exact (sorted_reverse_spec LanguageStats.new_xp [Sample.D; Sample.E; Sample.F]).
  - refine (proj1 (proj2 (recent_languages (Sample.settings RECENT_XP 2) Sample.stats _) _)).
    + reflexivity.
    + repeat constructor.
Defined.

(** ** Number formatting *)

Lemma rjust_right_aligned (s : str) (width : nat) :
  Fmt.rjust s (Z.of_nat width) = Spec.right_aligned width s.
Proof.
  unfold Fmt.rjust, Spec.right_aligned, Str.len.
  rewrite mul_single. do 2 f_equal. lia.
Qed.

(** The length of a right-aligned text: the width, or its own when wider. *)
Lemma rjust_length (s : str) (width : Z) :
  Str.len (Fmt.rjust s width) = Z.max width (Str.len s).
Proof.
  unfold Fmt.rjust. rewrite mul_single, len_app, len_repeat.
  pose proof (len_nonneg s). lia.
Qed.

(** Grouping from the right, one more digit on the left: the digit brings
    a comma when a positive multiple of three digits is already there. *)
Lemma group_rev_snoc (d : Str.char) (r : str) :
  Fmt.group_rev (r ++ [d])
    = Fmt.group_rev r
      ++ (if (0 <? List.length r)%nat && (List.length r mod 3 =? 0)%nat
          then [Fmt.comma; d] else [d]).
Proof.
  remember (List.length r) as n eqn:Hn.
  revert r Hn. induction n as [n IH] using lt_wf_ind. intros r Hn.
  destruct r as [|a [|b [|c [|x rest]]]]; subst n; try reflexivity.
  change (Fmt.group_rev ((a :: b :: c :: x :: rest) ++ [d]))
    with (a :: b :: c :: Fmt.comma :: Fmt.group_rev ((x :: rest) ++ [d])).
  change (Fmt.group_rev (a :: b :: c :: x :: rest))
    with (a :: b :: c :: Fmt.comma :: Fmt.group_rev (x :: rest)).
  rewrite (IH (List.length (x :: rest))) by (simpl; lia || reflexivity).
  cbn [app]. do 4 f_equal. f_equal.
  change (List.length (a :: b :: c :: x :: rest)) with (3 + List.length (x :: rest))%nat.
  replace ((3 + List.length (x :: rest)) mod 3)%nat
    with (List.length (x :: rest) mod 3)%nat
    by (rewrite (Nat.add_comm 3); symmetry;
        exact (Nat.Div0.mod_add (List.length (x :: rest)) 1 3)).
  reflexivity.
Qed.

(** The grouping of the [,] option puts the commas where the thousands are. *)
Lemma group_grouped (ds : str) : Fmt.group ds = Spec.grouped ds.
Proof.
  unfold Fmt.group. induction ds as [|d rest IH]; [reflexivity|].
  cbn [rev Spec.grouped]. rewrite group_rev_snoc, rev_app_distr, IH, length_rev.
  destruct ((0 <? List.length rest)%nat && (List.length rest mod 3 =? 0)%nat);
    reflexivity.
Qed.

Lemma int_commas_comma_grouped (n : Z) : Fmt.int_commas n = Spec.comma_grouped n.
Proof. unfold Fmt.int_commas, Spec.comma_grouped. now rewrite group_grouped. Qed.

(** The renderings of the docstrings of [utils.py]. *)
Example format_xp_value_level : format_xp_value 1104152 26 None = lit "lvl  26 (1,104,152 XP)".
Proof. reflexivity. Qed.

Example format_xp_value_recent :
  format_xp_value 1104152 26 (Some 1234) = lit "lvl  26 (1,104,152 XP) (+ 1,234)".
Proof. reflexivity. Qed.

Example format_xp_only_wide : format_xp_only 1234567890 = lit "1,234,567,890 XP".
Proof. reflexivity. Qed.

(** C7. The value of the total line and of every language line is the
    rendering the specification gives for the mode, on the line's own
    [xp], [level] and [new_xp]. *)
Theorem value_rendering_per_mode (settings : Settings) (stats : UserStats.t Z)
    (lang : LanguageStats.t Z) :
  GistFormatter._format_total_line settings stats
    = FormattedLine.make (lit "Total XP")
        (Spec.value_rendering (stats_type settings) (UserStats.total_xp stats)
           (UserStats.level stats) (UserStats.new_xp stats))
  /\ GistFormatter._format_language_line settings lang
     = FormattedLine.make (LanguageStats.name lang)
         (Spec.value_rendering (stats_type settings) (LanguageStats.xp lang)
            (LanguageStats.level lang) (LanguageStats.new_xp lang)).
Proof.
  unfold GistFormatter._format_total_line, GistFormatter._format_language_line,
    Spec.value_rendering, Spec.level_and_total, format_xp_value, format_xp_only.
  change 9 with (Z.of_nat 9). change 6 with (Z.of_nat 6). change 3 with (Z.of_nat 3).
  rewrite !rjust_right_aligned, !int_commas_comma_grouped.
  split; f_equal; destruct (stats_type settings); try reflexivity.
  - destruct (0 <? UserStats.new_xp stats);
      [now rewrite <- !app_assoc | now rewrite app_nil_r].
  - destruct (0 <? LanguageStats.new_xp lang);
      [now rewrite <- !app_assoc | now rewrite app_nil_r].
Qed.

(** ** The fetch client *)

Section ClientFacts.

Variable settings : Settings.

(** Whatever the handler is given, what it raises is not an exception the
    decorator retries on: a transport error leaves as [CodeStatsAPIError]. *)
Lemma handler_final (username : str) (e : exception) (w : httpx.world) :
  exists e', CodeStatsClient.handler username e w = (Raise e', w)
             /\ tenacity.retry_if_exception_type e' = false.
Proof. destruct e; eexists; split; reflexivity. Qed.

Lemma body_final (w w' : httpx.world) (e : exception) :
  CodeStatsClient.get_user_stats_body settings w = (Raise e, w') ->
  tenacity.retry_if_exception_type e = false.
Proof.
  unfold CodeStatsClient.get_user_stats_body, io_try.
  destruct (io_bind _ _ w) as [[a|e0] w0]; [discriminate|].
  destruct (handler_final (code_stats_username settings) e0 w0) as (e' & -> & He').
  intro H. now injection H as -> _.
Qed.

(** The decorator never gets to retry: a decorated call is one run of the body. *)
Lemma get_user_stats_once (w : httpx.world) :
  CodeStatsClient.get_user_stats settings w
    = CodeStatsClient.get_user_stats_body settings w.
Proof.
  unfold CodeStatsClient.get_user_stats, tenacity.retrying. cbn [tenacity.attempt Nat.sub].
  destruct (CodeStatsClient.get_user_stats_body settings w) as [[a|e] w'] eqn:E;
    [reflexivity|].
  now rewrite (body_final _ _ _ E).
Qed.

(** The body with a reply in hand. *)
Lemma body_on_response (w : httpx.world) (status_code : Z) (body : option value) :
  httpx.server w (get_codestats_url settings) (httpx.requests w)
    = httpx.Response status_code body ->
  CodeStatsClient.get_user_stats_body settings w
    = match
        (_ <- httpx.raise_for_status (status_code, body) ;;
         data <- httpx.json (status_code, body) ;;
         _ <- get data (lit "total_xp") (VInt 0) ;;
         languages <- get data (lit "languages") (VDict []) ;;
         _ <- py_len languages ;;
         UserStats.from_api_response (code_stats_username settings) data)%py
      with
      | Return stats => (Return stats, httpx.sent w)
      | Raise e => CodeStatsClient.handler (code_stats_username settings) e (httpx.sent w)
      end.
Proof.
  intro H.
  unfold CodeStatsClient.get_user_stats_body, io_try, io_bind, httpx.client_get, io_lift.
  rewrite H.
  destruct (httpx.raise_for_status (status_code, body)) as [[]|e]; [|reflexivity].
  cbn [bind].
  destruct (httpx.json (status_code, body)) as [data|e]; [|reflexivity].
  cbn [bind].
  destruct (get data (lit "total_xp") (VInt 0)) as [x|e]; [|reflexivity].
  cbn [bind].
  destruct (get data (lit "languages") (VDict [])) as [languages|e]; [|reflexivity].
  cbn [bind].
  destruct (py_len languages) as [n|e]; [|reflexivity].
  cbn [bind].
  destruct (UserStats.from_api_response (code_stats_username settings) data);
    reflexivity.
Qed.

(** X20. Every call sends exactly one request and takes no pause, whatever
    the service answers. *)
Lemma get_user_stats_one_request (w : httpx.world) :
  snd (CodeStatsClient.get_user_stats settings w)
    = httpx.mkWorld (httpx.server w) (S (httpx.requests w)) (httpx.slept w).
Proof.
  rewrite get_user_stats_once.
  destruct (httpx.server w (get_codestats_url settings) (httpx.requests w))
    as [m|m|m|status_code body] eqn:Hreply.
  - unfold CodeStatsClient.get_user_stats_body, io_try, io_bind, httpx.client_get.
    now rewrite Hreply.
  - unfold CodeStatsClient.get_user_stats_body, io_try, io_bind, httpx.client_get.
    now rewrite Hreply.
  - unfold CodeStatsClient.get_user_stats_body, io_try, io_bind, httpx.client_get.
    now rewrite Hreply.
  - rewrite (body_on_response w status_code body Hreply).
    destruct (bind _ _) as [stats|e]; [reflexivity|].
    destruct (handler_final (code_stats_username settings) e (httpx.sent w))
      as (e' & -> & _).
    reflexivity.
Qed.

End ClientFacts.

(** The decorator itself does what it is set up for: when the timeout
    reaches it, it makes three attempts, pausing in between. *)
Lemma retrying_raw_timeouts (url : str) :
  tenacity.retrying tenacity.retry_if_exception_type
                    (tenacity.wait_exponential 1 2 10)
                    (httpx.client_get url) 3 Sample.always_timeout
    = (Raise (TimeoutException (lit "timed out")),
       httpx.mkWorld (httpx.server Sample.always_timeout) 3 [2; 2]).
Proof. reflexivity. Qed.

(** C1, on the code: a fetch whose request times out, or fails to connect,
    is not tried again. The body has turned the transport error into
    [CodeStatsAPIError] by the time the decorator sees it, so one request is
    sent, no pause is taken, and [CodeStatsAPIError] is raised; what the
    service would answer to a second request is never asked. *)
Theorem get_user_stats_transport_error_single_attempt (settings : Settings)
    (w : httpx.world) (msg : str) :
  httpx.server w (get_codestats_url settings) (httpx.requests w) = httpx.Timeout msg
  \/ httpx.server w (get_codestats_url settings) (httpx.requests w)
     = httpx.NetworkFailure msg ->
  exists cause,
    (cause = TimeoutException msg \/ cause = NetworkError msg)
    /\ CodeStatsClient.get_user_stats settings w
       = (Raise (CodeStatsAPIError
                   (lit "Network error while fetching Code::Stats data for user '"
                    ++ code_stats_username settings ++ lit "': " ++ msg)
                   cause),
          httpx.mkWorld (httpx.server w) (S (httpx.requests w)) (httpx.slept w)).
Proof.
  intros Hreply. rewrite get_user_stats_once.
  unfold CodeStatsClient.get_user_stats_body, io_try, io_bind, httpx.client_get.
  destruct Hreply as [-> | ->].
  - exists (TimeoutException msg). split; [now left | reflexivity].
  - exists (NetworkError msg). split; [now right | reflexivity].
Qed.

(** C1 at the service on which every request times out, with the three
    attempts of the decorator: one request is sent. *)
Lemma get_user_stats_transport_error_single_attempt_witness :
  exists cause,
    (cause = TimeoutException (lit "timed out")
     \/ cause = NetworkError (lit "timed out"))
    /\ CodeStatsClient.get_user_stats (Sample.settings LEVEL_XP 10) Sample.always_timeout
       = (Raise (CodeStatsAPIError
                   (lit "Network error while fetching Code::Stats data for user 'alice': timed out")
                   cause),
          httpx.mkWorld (httpx.server Sample.always_timeout) 1 []).
Proof.
  apply (get_user_stats_transport_error_single_attempt
           (Sample.settings LEVEL_XP 10) Sample.always_timeout (lit "timed out")).
  left. reflexivity.
Defined.

(** C4. A response whose status is not 2xx makes [get_user_stats] raise
    [CodeStatsAPIError] with the status code in its message, after exactly
    one request and no pause. *)
Theorem get_user_stats_http_error (settings : Settings) (w : httpx.world)
    (status_code : Z) (body : option value) :
  httpx.server w (get_codestats_url settings) (httpx.requests w)
    = httpx.Response status_code body ->
  httpx.is_success status_code = false ->
  exists cause,
    CodeStatsClient.get_user_stats settings w
      = (Raise (CodeStatsAPIError
                  (lit "Failed to fetch Code::Stats data for user '"
                   ++ code_stats_username settings ++ lit "': HTTP "
                   ++ Fmt.str_of_int status_code)
                  (HTTPStatusError cause status_code)),
         httpx.mkWorld (httpx.server w) (S (httpx.requests w)) (httpx.slept w)).
Proof.
  intros Hreply Hstatus.
  rewrite get_user_stats_once, (body_on_response _ _ _ _ Hreply).
  unfold httpx.raise_for_status. cbn [fst]. rewrite Hstatus. cbn [bind].
  eexists. reflexivity.
Qed.

(** C4 at a concrete service, which answers 404. *)
Lemma get_user_stats_http_error_witness :
  exists cause,
    CodeStatsClient.get_user_stats (Sample.settings LEVEL_XP 10)
                                   (Sample.always_responds 404 None)
      = (Raise (CodeStatsAPIError
                  (lit "Failed to fetch Code::Stats data for user 'alice': HTTP 404")
                  (HTTPStatusError cause 404)),
         httpx.mkWorld (httpx.server (Sample.always_responds 404 None)) 1 []).
Proof.
  apply (get_user_stats_http_error (Sample.settings LEVEL_XP 10)
           (Sample.always_responds 404 None) 404 None); reflexivity.
Defined.

(** ** Construction of the statistics from a payload *)

Lemma calculate_level_non_numeric (v : value) :
  is_numeric v = false -> calculate_level v = Raise (not_supported_lt v).
Proof. destruct v; (discriminate || reflexivity). Qed.

Lemma comprehension_first_failure {A B} (f : A -> result B) (good rest : list A)
    (x : A) (e : exception) :
  Forall (fun y => exists r, f y = Return r) good ->
  f x = Raise e ->
  comprehension f (good ++ x :: rest) = Raise e.
Proof.
  intros Hgood Hx. induction Hgood as [|y good (r & Hy) _ IH]; cbn [app comprehension].
  - now rewrite Hx.
  - rewrite Hy. cbn [bind]. now rewrite IH.
Qed.

Lemma language_non_numeric_xps (name : str) (fields : list (str * value)) (v : value) :
  lookup (lit "xps") fields = Some v ->
  is_numeric v = false ->
  LanguageStats.from_api_response name (VDict fields) = Raise (not_supported_lt v).
Proof.
  intros Hv Hnum. unfold LanguageStats.from_api_response, get.
  rewrite Hv. cbn [bind]. now rewrite (calculate_level_non_numeric v Hnum).
Qed.

Lemma construction_type_error (username : str) (d : list (str * value)) (v : value) :
  level_source d v ->
  is_numeric v = false ->
  UserStats.from_api_response username (VDict d) = Raise (not_supported_lt v).
Proof.
  intros Hsrc Hnum. unfold UserStats.from_api_response, get, items.
  destruct Hsrc as [Hv | total good rest name fields Htotal Hlangs Hgood Hv].
  - rewrite Hv. cbn [bind]. now rewrite (calculate_level_non_numeric v Hnum).
  - cbn [bind]. rewrite Htotal, Hlangs. cbn [bind].
    rewrite (comprehension_first_failure _ good rest (name, VDict fields)
               (not_supported_lt v)); [reflexivity | | ].
    + eapply Forall_impl; [|exact Hgood]. intros [n x]. trivial.
    + now apply language_non_numeric_xps.
Qed.

Ltac raised H := inversion H; subst; reflexivity.

Lemma of_int_raises (n : Z) (e : exception) :
  Float.of_int n = Raise e -> is_builtin_error e = true.
Proof.
  unfold Float.of_int.
  destruct (binary_normalize Float.prec Float.emax n 0 false);
    intro H; (discriminate || raised H).
Qed.

Lemma sqrt_raises (f : spec_float) (e : exception) :
  Float.sqrt f = Raise e -> is_builtin_error e = true.
Proof. destruct f as [| [] | | [] ? ?]; intro H; (discriminate || raised H). Qed.

Lemma floor_raises (f : spec_float) (e : exception) :
  Float.floor f = Raise e -> is_builtin_error e = true.
Proof. destruct f; intro H; (discriminate || raised H). Qed.

Lemma calculate_level_int_raises (n : Z) (e : exception) :
  calculate_level_int n = Raise e -> is_builtin_error e = true.
Proof.
  unfold calculate_level_int. destruct (n <? 0); [discriminate|].
  destruct (Float.of_int n) as [x|e1] eqn:E1; cbn [bind];
    [|intro H; injection H as <-; eapply of_int_raises; eassumption].
  destruct (Float.sqrt x) as [r|e2] eqn:E2; cbn [bind];
    [|intro H; injection H as <-; eapply sqrt_raises; eassumption].
  apply floor_raises.
Qed.

Lemma calculate_level_raises (v : value) (e : exception) :
  calculate_level v = Raise e -> is_builtin_error e = true.
Proof.
  destruct v; cbn [calculate_level]; try apply calculate_level_int_raises;
    try (intro H; raised H).
  destruct (Float.ltb f Float.zero); [discriminate|].
  destruct (Float.sqrt f) as [r|e2] eqn:E2; cbn [bind];
    [|intro H; injection H as <-; eapply sqrt_raises; eassumption].
  apply floor_raises.
Qed.

Lemma get_raises (data : value) (key : str) (default : value) (e : exception) :
  get data key default = Raise e -> is_builtin_error e = true.
Proof. destruct data; intro H; (discriminate || raised H). Qed.

Lemma items_raises (data : value) (e : exception) :
  items data = Raise e -> is_builtin_error e = true.
Proof. destruct data; intro H; (discriminate || raised H). Qed.

Lemma language_raises (name : str) (data : value) (e : exception) :
  LanguageStats.from_api_response name data = Raise e -> is_builtin_error e = true.
Proof.
  unfold LanguageStats.from_api_response.
  destruct (get data (lit "xps") (VInt 0)) as [xp|e1] eqn:E1; cbn [bind];
    [|intro H; injection H as <-; eapply get_raises; eassumption].
  destruct (get data (lit "new_xps") (VInt 0)) as [nx|e2] eqn:E2; cbn [bind];
    [|intro H; injection H as <-; eapply get_raises; eassumption].
  destruct (calculate_level xp) as [lv|e3] eqn:E3; cbn [bind];
    [discriminate|intro H; injection H as <-; eapply calculate_level_raises; eassumption].
Qed.

Lemma comprehension_raises {A B} (f : A -> result B) (l : list A) (e : exception) :
  (forall x e', f x = Raise e' -> is_builtin_error e' = true) ->
  comprehension f l = Raise e -> is_builtin_error e = true.
Proof.
  intro Hf. induction l as [|x rest IH]; cbn [comprehension]; [discriminate|].
  destruct (f x) as [y|e1] eqn:E1; cbn [bind];
    [|intro H; injection H as <-; eapply Hf; eassumption].
  destruct (comprehension f rest) as [ys|e2]; cbn [bind]; [discriminate|].
  intro H; injection H as <-. now apply IH.
Qed.

(** No path of the construction raises [DataValidationError], or anything
    but the exceptions of the builtins. *)
Lemma construction_raises (username : str) (data : value) (e : exception) :
  UserStats.from_api_response username data = Raise e -> is_builtin_error e = true.
Proof.
  unfold UserStats.from_api_response.
  destruct (get data (lit "total_xp") (VInt 0)) as [xp|e1] eqn:E1; cbn [bind];
    [|intro H; injection H as <-; eapply get_raises; eassumption].
  destruct (get data (lit "new_xp") (VInt 0)) as [nx|e2] eqn:E2; cbn [bind];
    [|intro H; injection H as <-; eapply get_raises; eassumption].
  destruct (calculate_level xp) as [lv|e3] eqn:E3; cbn [bind];
    [|intro H; injection H as <-; eapply calculate_level_raises; eassumption].
  destruct (get data (lit "languages") (VDict [])) as [ld|e4] eqn:E4; cbn [bind];
    [|intro H; injection H as <-; eapply get_raises; eassumption].
  destruct (items ld) as [entries|e5] eqn:E5; cbn [bind];
    [|intro H; injection H as <-; eapply items_raises; eassumption].
  destruct (comprehension _ entries) as [ls|e6] eqn:E6; cbn [bind]; [discriminate|].
  intro H; injection H as <-.
  eapply comprehension_raises; [|exact E6].
  intros [n x] e'. apply language_raises.
Qed.

Lemma builtin_not_validation_error (e : exception) :
  is_builtin_error e = true -> is_DataValidationError e = false.
Proof. destruct e; (discriminate || reflexivity). Qed.

(** [DataValidationError] is declared and never raised: not by the
    construction, and not by the fetch. *)
Lemma construction_never_validation_error (username : str) (data : value)
    (e : exception) :
  UserStats.from_api_response username data = Raise e ->
  is_DataValidationError e = false.
Proof. intro H. eapply builtin_not_validation_error, construction_raises, H. Qed.

Lemma handler_never_validation_error (username : str) (e e' : exception)
    (w w' : httpx.world) :
  is_DataValidationError e = false ->
  CodeStatsClient.handler username e w = (Raise e', w') ->
  is_DataValidationError e' = false.
Proof.
  intros He H. destruct e; try discriminate He; cbn in H;
    injection H as <- _; reflexivity.
Qed.

Lemma fetch_never_validation_error (settings : Settings) (w w' : httpx.world)
    (e : exception) :
  CodeStatsClient.get_user_stats settings w = (Raise e, w') ->
  is_DataValidationError e = false.
Proof.
  rewrite get_user_stats_once.
  unfold CodeStatsClient.get_user_stats_body, io_try, io_bind, httpx.client_get, io_lift.
  destruct (httpx.server w _ _) as [m|m|m|status_code body];
    try (cbn; intro H; injection H as <- _; reflexivity).
  unfold httpx.raise_for_status, httpx.json. cbn [fst snd].
  destruct (httpx.is_success status_code);
    [|cbn; intro H; injection H as <- _; reflexivity].
  destruct body as [data|]; [|cbn; intro H; injection H as <- _; reflexivity].
  cbn [bind].
  destruct (get data (lit "total_xp") (VInt 0)) as [x|e1] eqn:E1;
    [|apply handler_never_validation_error;
      eapply builtin_not_validation_error, get_raises, E1].
  destruct (get data (lit "languages") (VDict [])) as [languages|e2] eqn:E2;
    [|apply handler_never_validation_error;
      eapply builtin_not_validation_error, get_raises, E2].
  destruct (py_len languages) as [n|e3] eqn:E3.
  - destruct (UserStats.from_api_response _ data) as [stats|e4] eqn:E4;
      [discriminate|].
    apply handler_never_validation_error.
    eapply construction_never_validation_error, E4.
  - apply handler_never_validation_error.
    destruct languages; try discriminate E3; injection E3 as <-; reflexivity.
Qed.

(** C2, as the code has it. When [total_xp], or the [xps] of a language
    reached without an earlier failure, holds a value that is not a number,
    the construction raises a plain [TypeError].  On a 2xx answer with such
    a payload [get_user_stats] raises [CodeStatsAPIError], after one request,
    with a [TypeError] as its cause and the text of that cause in its
    message: the [TypeError] of the construction when the [languages] of the
    payload have a length, and otherwise the [TypeError] of the [len] in the
    log call, which comes before the construction.  [DataValidationError] is
    raised by neither. *)
Theorem non_numeric_xp_is_type_error (settings : Settings) (w : httpx.world)
    (status_code : Z) (d : list (str * value)) (v : value) :
  level_source d v ->
  is_numeric v = false ->
  httpx.server w (get_codestats_url settings) (httpx.requests w)
    = httpx.Response status_code (Some (VDict d)) ->
  httpx.is_success status_code = true ->
  let languages :=
    match lookup (lit "languages") d with Some x => x | None => VDict [] end in
  let construction_error :=
    TypeError (lit "'<' not supported between instances of '"
               ++ type_name v ++ lit "' and 'int'") in
  let cause :=
    match py_len languages with
    | Return _ => construction_error
    | Raise _ => TypeError (lit "object of type '" ++ type_name languages
                            ++ lit "' has no len()")
    end in
  UserStats.from_api_response (code_stats_username settings) (VDict d)
    = Raise construction_error
  /\ CodeStatsClient.get_user_stats settings w
     = (Raise (CodeStatsAPIError
                 (lit "Failed to parse Code::Stats API response for user '"
                  ++ code_stats_username settings ++ lit "': "
                  ++ exception_str cause)
                 cause),
        httpx.mkWorld (httpx.server w) (S (httpx.requests w)) (httpx.slept w)).
Proof.
  intros Hsrc Hnum Hreply Hstatus languages construction_error cause.
  pose proof (construction_type_error (code_stats_username settings) d v Hsrc Hnum) as E.
  split; [exact E|].
  rewrite get_user_stats_once, (body_on_response _ _ _ _ Hreply).
  unfold httpx.raise_for_status, httpx.json. cbn [fst snd]. rewrite Hstatus.
  cbn [bind get]. fold languages. unfold cause.
  destruct (py_len languages) as [n|e] eqn:Elen; cbn [bind].
  - rewrite E. reflexivity.
  - destruct languages; try discriminate Elen; injection Elen as <-; reflexivity.
Qed.

(** C2 at three concrete payloads: a total that is a string, a second
    language whose [xps] is a list, and a total that is a string beside
    [languages] that are a number, where the [len] of the log call fails
    first. *)
Lemma non_numeric_xp_is_type_error_witness :
  (UserStats.from_api_response (lit "alice") Sample.string_total
     = Raise (TypeError (lit "'<' not supported between instances of 'str' and 'int'"))
   /\ CodeStatsClient.get_user_stats
         (Sample.settings LEVEL_XP 10)
         (Sample.always_responds 200 (Some Sample.string_total))
       = (Raise (CodeStatsAPIError
                   (lit "Failed to parse Code::Stats API response for user 'alice': '<' not supported between instances of 'str' and 'int'")
                   (TypeError
                      (lit "'<' not supported between instances of 'str' and 'int'"))),
          httpx.mkWorld
            (httpx.server (Sample.always_responds 200 (Some Sample.string_total)))
            1 []))
  /\ UserStats.from_api_response (lit "alice") (VDict Sample.list_xps)
     = Raise (TypeError (lit "'<' not supported between instances of 'list' and 'int'"))
  /\ CodeStatsClient.get_user_stats
        (Sample.settings LEVEL_XP 10)
        (Sample.always_responds 200 (Some (VDict Case.unsized_languages)))
     = (Raise (CodeStatsAPIError
                 (lit "Failed to parse Code::Stats API response for user 'alice': object of type 'int' has no len()")
                 (TypeError (lit "object of type 'int' has no len()"))),
        httpx.mkWorld
          (httpx.server
             (Sample.always_responds 200 (Some (VDict Case.unsized_languages))))
          1 []).
Proof.
  split; [|split].
  - apply (non_numeric_xp_is_type_error
             (Sample.settings LEVEL_XP 10)
             (Sample.always_responds 200 (Some Sample.string_total))
             200 [(lit "total_xp", VStr (lit "many"))] (VStr (lit "many"))).
    + apply total_xp_field. reflexivity.
    + reflexivity.
    + reflexivity.
    + reflexivity.
  - apply (non_numeric_xp_is_type_error
             (Sample.settings LEVEL_XP 10)
             (Sample.always_responds 200 (Some (VDict Sample.list_xps)))
             200 Sample.list_xps (VList [VInt 1600])).
    + apply (language_xps_field Sample.list_xps (VList [VInt 1600]) 2
               [(lit "Python", VDict [(lit "xps", VInt 6400); (lit "new_xps", VInt 12)])]
               [] (lit "Rust") [(lit "xps", VList [VInt 1600])]).
      * vm_compute. reflexivity.
      * reflexivity.
      * constructor; [|constructor]. eexists. vm_compute. reflexivity.
      * reflexivity.
    + reflexivity.
    + reflexivity.
    + reflexivity.
  - apply (non_numeric_xp_is_type_error
             (Sample.settings LEVEL_XP 10)
             (Sample.always_responds 200 (Some (VDict Case.unsized_languages)))
             200 Case.unsized_languages (VStr (lit "many"))).
    + apply total_xp_field. reflexivity.
    + reflexivity.
    + reflexivity.
    + reflexivity.
Defined.

(** C2 as stated fails: on a payload whose total is a string the
    construction raises [TypeError], and the fetch [CodeStatsAPIError]; neither
    is a [DataValidationError]. *)
Lemma non_numeric_xp_not_validation_error :
  is_numeric (VStr (lit "many")) = false
  /\ UserStats.from_api_response (lit "alice") Sample.string_total
     = Raise (TypeError (lit "'<' not supported between instances of 'str' and 'int'"))
  /\ ~ (exists m, UserStats.from_api_response (lit "alice") Sample.string_total
                  = Raise (DataValidationError m))
  /\ ~ (exists m w,
          CodeStatsClient.get_user_stats (Sample.settings LEVEL_XP 10)
            (Sample.always_responds 200 (Some Sample.string_total))
          = (Raise (DataValidationError m), w)).
Proof.
  split; [reflexivity|]. split; [reflexivity|]. split.
  - intros (m & H). discriminate H.
  - intros (m & w & H). vm_compute in H. discriminate H.
Qed.

(** A non-numeric [new_xp] or [new_xps] is not looked at when the record is
    built: it is stored as it came. *)
Remark new_xp_unchecked (username : str) (v : value) :
  UserStats.from_api_response username
      (VDict [(lit "new_xp", v);
              (lit "languages", VDict [(lit "Python", VDict [(lit "new_xps", v)])])])
    = Return (UserStats.make username (VInt 0) v 0
                [LanguageStats.make (lit "Python") (VInt 0) v 0]).
Proof. reflexivity. Qed.

(** ** The update client *)

Lemma str_eqb_eq (a b : str) : Str.eqb a b = true <-> a = b.
Proof.
  unfold Str.eqb. destruct (list_eq_dec N.eq_dec a b); split; intro H;
    (trivial || discriminate || contradiction).
Qed.

Lemma str_eqb_refl (a : str) : Str.eqb a a = true.
Proof. now apply str_eqb_eq. Qed.

Lemma same_section_eqb (current content old_title title : str) :
  Str.eqb current content && Str.eqb old_title title = true
  <-> current = content /\ old_title = title.
Proof. now rewrite andb_true_iff, !str_eqb_eq. Qed.

Section UpdaterFacts.

Variable settings : Settings.
Variables title content : str.

(** What [update_gist] does on a record that is fetched and has a first file. *)
Lemma update_gist_cases (r : github.remote) (old_title current : str)
    (rest : github.files) :
  github.get_gist_fault r = None ->
  github.gist_files r = (old_title, current) :: rest ->
  GistUpdater.update_gist settings title content r
    = if Str.eqb current content && Str.eqb old_title title
      then (Return false, r)
      else
        let q := github.mkEdit old_title content title in
        match github.edit_fault r with
        | Some e =>
            (Raise (GitHubAPIError
                      (lit "Failed to update gist " ++ gist_id settings ++ lit ": "
                       ++ exception_str e) (Some e)),
             github.mkRemote (github.gist_files r) None (github.edit_fault r)
                             (github.edits r ++ [q]))
        | None =>
            (Return true,
             github.mkRemote ((title, content) :: rest) None None
                             (github.edits r ++ [q]))
        end.
Proof.
  intros Hget Hfiles.
  unfold GistUpdater.update_gist, io_bind, io_try, github.get_gist.
  rewrite Hget, Hfiles.
  destruct (Str.eqb current content && Str.eqb old_title title); [reflexivity|].
  unfold github.edit, io_ret, io_raise. rewrite Hget, Hfiles.
  destruct (github.edit_fault r) as [e|] eqn:He; [reflexivity|].
  cbn [github.replace_file github.edit_file github.edit_new_name github.edit_content].
  now rewrite str_eqb_refl.
Qed.

(** A call that returns leaves a record whose first file is the new one. *)
Lemma update_gist_returns (r r' : github.remote) (b : bool) :
  GistUpdater.update_gist settings title content r = (Return b, r') ->
  github.get_gist_fault r' = None
  /\ exists rest, github.gist_files r' = (title, content) :: rest.
Proof.
  intro H.
  destruct (github.get_gist_fault r) as [e|] eqn:Hget.
  { unfold GistUpdater.update_gist, io_bind, io_try, github.get_gist in H.
    rewrite Hget in H. discriminate. }
  destruct (github.gist_files r) as [|[old_title current] rest] eqn:Hfiles.
  { unfold GistUpdater.update_gist, io_bind, io_try, github.get_gist in H.
    rewrite Hget, Hfiles in H. discriminate. }
  rewrite (update_gist_cases r old_title current rest Hget Hfiles) in H.
  destruct (Str.eqb current content && Str.eqb old_title title) eqn:Esame;
    rewrite ?Esame in H.
  - injection H as <- <-. apply same_section_eqb in Esame as [-> ->].
    split; [exact Hget | now exists rest].
  - cbv zeta in H. destruct (github.edit_fault r); [discriminate|].
    injection H as <- <-. split; [reflexivity | now exists rest].
Qed.

End UpdaterFacts.

(** C3. On a fetched record whose first file has the new title and the
    new content, [update_gist] returns false and leaves the store as it is,
    no edit sent. Otherwise it sends exactly one edit, which gives that file
    the new title and content, and returns true once the store accepts it.
    A second call after one that returned, with the same title and content,
    returns false and sends nothing. *)
Theorem update_gist_idempotent (settings : Settings) (title content : str)
    (r : github.remote) (old_title current : str) (rest : github.files) :
  github.get_gist_fault r = None ->
  github.gist_files r = (old_title, current) :: rest ->
  let outcome := GistUpdater.update_gist settings title content r in
  ((current = content /\ old_title = title) -> outcome = (Return false, r))
  /\ (~ (current = content /\ old_title = title) ->
      github.edits (snd outcome)
        = github.edits r ++ [github.mkEdit old_title content title]
      /\ (github.edit_fault r = None ->
          fst outcome = Return true
          /\ github.gist_files (snd outcome) = (title, content) :: rest))
  /\ (forall b r1,
        outcome = (Return b, r1) ->
        GistUpdater.update_gist settings title content r1 = (Return false, r1)).
Proof.
  intros Hget Hfiles outcome.
  pose proof (update_gist_cases settings title content r old_title current rest
                Hget Hfiles) as E.
  fold outcome in E. split; [|split].
  - intro Hsame. apply same_section_eqb in Hsame. now rewrite Hsame in E.
  - intro Hdiff.
    destruct (Str.eqb current content && Str.eqb old_title title) eqn:Esame.
    { apply same_section_eqb in Esame. contradiction. }
    cbv zeta in E. rewrite E.
    destruct (github.edit_fault r); split; try reflexivity; try discriminate.
    intros _. split; reflexivity.
  - intros b r1 H1.
    destruct (update_gist_returns settings title content r r1 b H1)
      as (Hget1 & rest1 & Hfiles1).
    rewrite (update_gist_cases settings title content r1 title content rest1
               Hget1 Hfiles1).
    now rewrite !str_eqb_refl.
Qed.

(** C3 at a concrete store: a first call that writes, a second that does not. *)
Lemma update_gist_idempotent_witness :
  fst (GistUpdater.update_gist (Sample.settings LEVEL_XP 10) (lit "title") (lit "new")
         Sample.stale_store)
    = Return true
  /\ github.edits
       (snd (GistUpdater.update_gist (Sample.settings LEVEL_XP 10) (lit "title") (lit "new")
               Sample.stale_store))
     = [github.mkEdit (lit "stats.txt") (lit "new") (lit "title")]
  /\ GistUpdater.update_gist (Sample.settings LEVEL_XP 10) (lit "title") (lit "new")
       (snd (GistUpdater.update_gist (Sample.settings LEVEL_XP 10) (lit "title") (lit "new")
               Sample.stale_store))
     = (Return false,
        snd (GistUpdater.update_gist (Sample.settings LEVEL_XP 10) (lit "title") (lit "new")
               Sample.stale_store)).
Proof.
  destruct (update_gist_idempotent (Sample.settings LEVEL_XP 10) (lit "title") (lit "new")
              Sample.stale_store
              (lit "stats.txt") (lit "old") [(lit "notes.md", lit "n")]
              eq_refl eq_refl) as (_ & Hwrite & Hagain).
  destruct Hwrite as (Hedits & Hok).
  - intros [H _]. discriminate H.
  - destruct (Hok eq_refl) as (Htrue & _).
    split; [exact Htrue|]. split; [exact Hedits|].
    apply (Hagain true). reflexivity.
Defined.

(** ** The level calculator *)

(** *** The exact level

    [Spec.is_level] compares squares of integers; over the reals it says
    that [L] is the floor of [0.025 * sqrt xp]. *)

Lemma sqrt_ge_iff (a x : R) :
  (0 <= a -> 0 <= x -> (a <= sqrt x <-> a * a <= x))%R.
Proof.
  intros Ha Hx. split; intro H.
  - rewrite <- (sqrt_sqrt x Hx). apply Rmult_le_compat; assumption.
  - rewrite <- (sqrt_square a Ha). apply sqrt_le_1_alt. exact H.
Qed.

Lemma sqrt_lt_iff (a x : R) :
  (0 <= a -> 0 <= x -> (sqrt x < a <-> x < a * a))%R.
Proof.
  intros Ha Hx. split; intro H.
  - rewrite <- (sqrt_sqrt x Hx). pose proof (sqrt_pos x).
    apply Rmult_le_0_lt_compat; assumption.
  - rewrite <- (sqrt_square a Ha). apply sqrt_lt_1_alt. lra.
Qed.

Lemma is_level_floor (xp L : Z) :
  0 <= xp ->
  Spec.is_level xp L
  <-> 0 <= L /\ (IZR L <= 0.025 * sqrt (IZR xp) < IZR L + 1)%R.
Proof.
  intros Hxp. unfold Spec.is_level.
  split; intros [HL H]; (split; [exact HL|]).
  - assert (Hx : (0 <= IZR xp)%R) by (apply IZR_le; exact Hxp).
    assert (Hl : (0 <= IZR L)%R) by (apply IZR_le; exact HL).
    destruct H as [H1 H2]. apply IZR_le in H1. apply IZR_lt in H2.
    rewrite !mult_IZR in H1. rewrite !mult_IZR, !plus_IZR in H2.
    apply (sqrt_ge_iff (40 * IZR L) (IZR xp)) in H1; [|lra|exact Hx].
    apply (sqrt_lt_iff (40 * (IZR L + 1)) (IZR xp)) in H2; [|lra|exact Hx].
    lra.
  - assert (Hx : (0 <= IZR xp)%R) by (apply IZR_le; exact Hxp).
    assert (Hl : (0 <= IZR L)%R) by (apply IZR_le; exact HL).
    destruct H as [H1 H2]. split.
    + apply le_IZR. rewrite !mult_IZR.
      apply (sqrt_ge_iff (40 * IZR L) (IZR xp)); [lra|exact Hx|lra].
    + apply lt_IZR. rewrite !mult_IZR, !plus_IZR.
      apply (sqrt_lt_iff (40 * (IZR L + 1)) (IZR xp)); [lra|exact Hx|lra].
Qed.

(** A negative [int] has level 0, and nothing is raised. *)
Lemma calculate_level_negative (xp : Z) :
  xp < 0 -> calculate_level (VInt xp) = Return 0.
Proof.
  intro H. cbn [calculate_level]. unfold calculate_level_int.
  destruct (Z.ltb_spec xp 0); [reflexivity | lia].
Qed.

(** *** Binary64 arithmetic on the operands at hand

    [float(xp)], [math.sqrt] and the product with [0.025] are followed
    through the rounding of [SpecFloat], for [0 < xp < 2^50]: the mantissas
    have 53 bits, and the exponents stay far from both ends of the range. *)

(** The number of binary digits of a mantissa. *)
Lemma digits2_size (p : positive) : digits2_pos p = Pos.size p.
Proof. induction p; simpl; congruence. Qed.

Lemma digits_log2 (p : positive) : Z.pos (digits2_pos p) = Z.log2 (Z.pos p) + 1.
Proof.
  rewrite digits2_size. destruct p; simpl; try reflexivity; lia.
Qed.

(** A positive number between [2^(d-1)] and [2^d] has [d] digits. *)
Lemma digits_unique (p : positive) (d : Z) :
  2 ^ (d - 1) <= Z.pos p < 2 ^ d -> Z.pos (digits2_pos p) = d.
Proof.
  intros [Hlo Hhi]. rewrite digits_log2.
  assert (0 <= d - 1).
  { destruct (Z.le_gt_cases 1 d); [lia|].
    assert (2 ^ d <= 2 ^ 0) by (destruct (Z.le_gt_cases 0 d);
      [apply Z.pow_le_mono_r; lia | rewrite Z.pow_neg_r; simpl; lia]).
    simpl in *. lia. }
  rewrite (Z.log2_unique (Z.pos p) (d - 1)); try lia.
  replace (Z.succ (d - 1)) with d by lia. lia.
Qed.

Lemma fexp_normal (e : Z) : -1021 <= e -> fexp 53 1024 e = e - 53.
Proof. unfold fexp, emin. lia. Qed.

(** The iterator of [SpecFloat] is plain iteration. *)
Lemma iter_pos_nat {A} (f : A -> A) (p : positive) (x : A) :
  SpecFloat.iter_pos f p x = Nat.iter (Pos.to_nat p) f x.
Proof.
  revert x. induction p as [p IH|p IH|]; intro x; cbn [SpecFloat.iter_pos].
  - rewrite !IH, Pos2Nat.inj_xI.
    replace (S (2 * Pos.to_nat p)) with (Pos.to_nat p + (Pos.to_nat p + 1))%nat by lia.
    rewrite !Nat.iter_add. reflexivity.
  - rewrite !IH, Pos2Nat.inj_xO.
    replace (2 * Pos.to_nat p)%nat with (Pos.to_nat p + Pos.to_nat p)%nat by lia.
    now rewrite Nat.iter_add.
  - reflexivity.
Qed.

(** One step of the right shift halves the mantissa and keeps the bit
    shifted out as the round bit. *)
Lemma shr_1_spec (mrs : shr_record) :
  0 <= shr_m mrs ->
  shr_m (shr_1 mrs) = shr_m mrs / 2
  /\ shr_r (shr_1 mrs) = Z.odd (shr_m mrs).
Proof.
  destruct mrs as [m r s]. cbn [shr_m]. intro Hm.
  destruct m as [|[p|p|]|p]; cbn [shr_1 shr_m shr_r]; try lia; split; try reflexivity.
  - rewrite Pos2Z.inj_xI. apply (Z.div_unique _ 2 _ 1); lia.
  - rewrite Pos2Z.inj_xO. apply (Z.div_unique _ 2 _ 0); lia.
Qed.

(** [n] steps divide the mantissa by [2^n]; the round bit, when set, says
    that at least half a unit was dropped. *)
Lemma iter_shr_1 (n : nat) (m : Z) :
  0 <= m ->
  let mrs := Nat.iter n shr_1 (Build_shr_record m false false) in
  shr_m mrs = m / 2 ^ Z.of_nat n
  /\ (shr_r mrs = true -> 2 ^ (Z.of_nat n - 1) <= m mod 2 ^ Z.of_nat n).
Proof.
  intros Hm. induction n as [|n IH]; cbn zeta.
  - change (Nat.iter 0 shr_1 ?x) with x. cbn [shr_m shr_r Z.of_nat].
    split; [now rewrite Z.div_1_r | discriminate].
  - rewrite Nat.iter_succ. cbn zeta in IH. destruct IH as [IHm _].
    set (mrs := Nat.iter n shr_1 (Build_shr_record m false false)) in *.
    assert (Hpos : 0 <= shr_m mrs) by (rewrite IHm; apply Z.div_pos; lia).
    destruct (shr_1_spec mrs Hpos) as [Em Er].
    assert (Hpow : 2 ^ Z.of_nat (S n) = 2 ^ Z.of_nat n * 2)
      by (rewrite Nat2Z.inj_succ, Z.pow_succ_r; lia).
    split.
    + rewrite Em, IHm, Hpow, Z.div_div; lia.
    + rewrite Er, IHm. intro Hodd.
      replace (Z.of_nat (S n) - 1) with (Z.of_nat n) by lia.
      rewrite Hpow.
      pose proof (Z.pow_pos_nonneg 2 (Z.of_nat n) ltac:(lia) ltac:(lia)) as Hp.
      rewrite Z.rem_mul_r by lia.
      rewrite Z.odd_spec in Hodd. destruct Hodd as [a Ha].
      replace ((m / 2 ^ Z.of_nat n) mod 2) with 1
        by (rewrite Ha; apply (Z.mod_unique_pos _ 2 a 1); lia).
      pose proof (Z.mod_pos_bound m (2 ^ Z.of_nat n) Hp).
      lia.
Qed.

(** A mantissa of 53 bits is not shifted. *)
Lemma shr_fexp_53 (m : positive) (e : Z) (l : location) :
  Z.pos (digits2_pos m) = 53 -> -1074 <= e ->
  shr_fexp 53 1024 (Z.pos m) e l = (shr_record_of_loc (Z.pos m) l, e).
Proof.
  intros Hd He. unfold shr_fexp. cbn [Zdigits2]. rewrite Hd.
  replace (fexp 53 1024 (53 + e) - e) with 0 by (unfold fexp, emin; lia).
  reflexivity.
Qed.

Lemma loc_of_shr_record_of_loc (m : Z) (l : location) :
  loc_of_shr_record (shr_record_of_loc m l) = l.
Proof. destruct l as [|[]]; reflexivity. Qed.

Lemma round_nearest_even_bounds (m : Z) (l : location) :
  m <= round_nearest_even m l <= m + 1.
Proof.
  unfold round_nearest_even. destruct l as [|[]]; try lia.
  destruct (Z.even m); lia.
Qed.

(** Rounding a mantissa of 53 bits with a location: the mantissa moves by at
    most one, the exponent stays. *)
Lemma binary_round_aux_53 (m M : positive) (e : Z) (l : location) :
  Z.pos (digits2_pos m) = 53 -> -1074 <= e <= 971 ->
  round_nearest_even (Z.pos m) l = Z.pos M -> Z.pos M < 2 ^ 53 ->
  binary_round_aux 53 1024 false (Z.pos m) e l = S754_finite false M e.
Proof.
  intros Hd He HM Hlt. unfold binary_round_aux.
  rewrite shr_fexp_53 by lia.
  rewrite loc_of_shr_record_of_loc.
  replace (shr_m (shr_record_of_loc (Z.pos m) l)) with (Z.pos m)
    by (destruct l as [|[]]; reflexivity).
  rewrite HM.
  assert (HdM : Z.pos (digits2_pos M) = 53).
  { apply digits_unique.
    pose proof (round_nearest_even_bounds (Z.pos m) l).
    rewrite digits_log2 in Hd.
    pose proof (Z.log2_spec (Z.pos m) ltac:(lia)).
    replace (Z.log2 (Z.pos m)) with 52 in * by lia.
    change (53 - 1) with 52. lia. }
  rewrite shr_fexp_53 by lia. cbn [shr_record_of_loc shr_m].
  destruct (Z.leb_spec e (1024 - 53)); [reflexivity | lia].
Qed.

(** Rounding an exact mantissa of [53 + k] bits: it is divided by [2^k] and
    rounded to [M0], which goes up only when the dropped part is at least a
    half; the result stands for [M0 * 2^(e + k)], renormalised when [M0]
    reaches [2^53]. *)
Lemma binary_round_aux_shift (P : positive) (e : Z) (k : positive) :
  Z.pos (digits2_pos P) = 53 + Z.pos k ->
  -1074 <= e + Z.pos k -> e + Z.pos k + 1 <= 971 ->
  exists (M0 M : positive) (E : Z),
    binary_round_aux 53 1024 false (Z.pos P) e loc_Exact = S754_finite false M E
    /\ Z.pos P / 2 ^ Z.pos k <= Z.pos M0 <= Z.pos P / 2 ^ Z.pos k + 1
    /\ (Z.pos M0 = Z.pos P / 2 ^ Z.pos k + 1 ->
        2 ^ (Z.pos k - 1) <= Z.pos P mod 2 ^ Z.pos k)
    /\ 0 <= E - (e + Z.pos k) <= 1
    /\ Z.pos M0 = Z.pos M * 2 ^ (E - (e + Z.pos k)).
Proof.
  intros Hd Hlo Hhi. unfold binary_round_aux.
  assert (Hshr : shr_fexp 53 1024 (Z.pos P) e loc_Exact
                 = (SpecFloat.iter_pos shr_1 k (Build_shr_record (Z.pos P) false false),
                    e + Z.pos k)).
  { unfold shr_fexp. cbn [Zdigits2]. rewrite Hd.
    replace (fexp 53 1024 (53 + Z.pos k + e) - e) with (Z.pos k)
      by (unfold fexp, emin; lia).
    reflexivity. }
  rewrite Hshr, iter_pos_nat.
  destruct (iter_shr_1 (Pos.to_nat k) (Z.pos P) ltac:(lia)) as [Hm Hr].
  rewrite positive_nat_Z in Hm, Hr.
  set (mrs := Nat.iter (Pos.to_nat k) shr_1 (Build_shr_record (Z.pos P) false false)) in *.
  set (q := Z.pos P / 2 ^ Z.pos k) in *.
  assert (Hq : 2 ^ 52 <= q < 2 ^ 53).
  { rewrite digits_log2 in Hd.
    pose proof (Z.log2_spec (Z.pos P) ltac:(lia)) as Hs.
    replace (Z.log2 (Z.pos P)) with (52 + Z.pos k) in Hs by lia.
    replace (Z.succ (52 + Z.pos k)) with (53 + Z.pos k) in Hs by lia.
    rewrite !Z.pow_add_r in Hs by lia.
    pose proof (Z.pow_pos_nonneg 2 (Z.pos k) ltac:(lia) ltac:(lia)) as Hp.
    unfold q. split.
    - apply Z.div_le_lower_bound; lia.
    - apply Z.div_lt_upper_bound; lia. }
  set (M0 := round_nearest_even (shr_m mrs) (loc_of_shr_record mrs)).
  assert (HM0 : q <= M0 <= q + 1 /\ (M0 = q + 1 -> shr_r mrs = true)).
  { unfold M0. rewrite Hm. destruct mrs as [m0 [] []]; cbn [loc_of_shr_record shr_r];
      unfold round_nearest_even; try destruct (Z.even q); repeat split; try lia;
      try reflexivity. }
  destruct HM0 as [HM0 HM0r].
  destruct M0 as [|M0p|M0p] eqn:EM0; try lia.
  destruct (Z.eq_dec (Z.pos M0p) (2 ^ 53)) as [Hcarry|Hnocarry].
  - (* the mantissa rounds up to 2^53 and is renormalised *)
    exists M0p, (4503599627370496)%positive, (e + Z.pos k + 1).
    assert (M0p = 9007199254740992%positive) as ->
      by (change (2 ^ 53) with 9007199254740992 in Hcarry; lia).
    split.
    { unfold shr_fexp. cbn [Zdigits2 digits2_pos Pos.succ].
      replace (fexp 53 1024 (54 + (e + Z.pos k)) - (e + Z.pos k)) with 1
        by (unfold fexp, emin; lia).
      cbn [shr SpecFloat.iter_pos shr_record_of_loc shr_1 shr_m].
      destruct (Z.leb_spec (e + Z.pos k + 1) (1024 - 53)); [reflexivity | lia]. }
    split; [lia|]. split; [intro; apply Hr, HM0r; lia|].
    split; [lia|].
    replace (e + Z.pos k + 1 - (e + Z.pos k)) with 1 by lia. reflexivity.
  - exists M0p, M0p, (e + Z.pos k).
    split.
    { assert (HdM : Z.pos (digits2_pos M0p) = 53)
        by (apply digits_unique; change (53 - 1) with 52; lia).
      rewrite shr_fexp_53 by lia. cbn [shr_record_of_loc shr_m].
      destruct (Z.leb_spec (e + Z.pos k) (1024 - 53)); [reflexivity | lia]. }
    split; [lia|]. split; [intro; apply Hr, HM0r; lia|].
    split; [lia|].
    replace (e + Z.pos k - (e + Z.pos k)) with 0 by lia. simpl. lia.
Qed.

(** *** The three operations of [calculate_level] *)

(** Shifting a mantissa left. *)
Lemma iter_xO (p d : positive) : Z.pos (Pos.iter xO p d) = Z.pos p * 2 ^ Z.pos d.
Proof.
  induction d as [|d IH] using Pos.peano_ind.
  - cbn [Pos.iter]. lia.
  - rewrite Pos.iter_succ, Pos2Z.inj_xO, IH, Pos2Z.inj_succ, Z.pow_succ_r; lia.
Qed.

(** [float(xp)] is exact for an [xp] of at most 53 bits: the mantissa is [xp]
    shifted up to 53 bits. *)
Lemma of_int_normal (xp n : Z) :
  2 ^ (n - 1) <= xp < 2 ^ n -> 1 <= n <= 53 ->
  exists mx : positive,
    Float.of_int xp = Return (S754_finite false mx (n - 53))
    /\ Z.pos mx = xp * 2 ^ (53 - n)
    /\ Z.pos (digits2_pos mx) = 53.
Proof.
  intros Hxp Hn.
  assert (0 < 2 ^ (n - 1)) by (apply Z.pow_pos_nonneg; lia).
  destruct xp as [|p|p]; try lia.
  pose proof (digits_unique p n Hxp) as Hd.
  assert (Hm : forall mx : positive,
             Z.pos mx = Z.pos p * 2 ^ (53 - n) -> Z.pos (digits2_pos mx) = 53).
  { intros mx E. apply digits_unique. rewrite E. change (53 - 1) with 52.
    assert (E52 : 2 ^ 52 = 2 ^ (n - 1) * 2 ^ (53 - n))
      by (rewrite <- Z.pow_add_r by lia; f_equal; lia).
    assert (E53 : 2 ^ 53 = 2 ^ n * 2 ^ (53 - n))
      by (rewrite <- Z.pow_add_r by lia; f_equal; lia).
    assert (0 < 2 ^ (53 - n)) by (apply Z.pow_pos_nonneg; lia).
    rewrite E52, E53. split.
    - apply Z.mul_le_mono_nonneg_r; lia.
    - apply Z.mul_lt_mono_pos_r; lia. }
  unfold Float.of_int, binary_normalize, binary_round.
  change Float.prec with 53. change Float.emax with 1024.
  rewrite Z.add_0_r, Hd, fexp_normal by lia.
  unfold shl_align. rewrite Z.sub_0_r.
  assert (Hnorm : forall (mx : positive) (e : Z),
             Z.pos mx = Z.pos p * 2 ^ (53 - n) -> -52 <= e <= 0 ->
             binary_round_aux 53 1024 false (Z.pos mx) e loc_Exact
               = S754_finite false mx e).
  { intros mx e E He. pose proof (Hm mx E) as Hd'.
    apply binary_round_aux_53; try lia; try reflexivity.
    rewrite digits_log2 in Hd'.
    pose proof (Z.log2_spec (Z.pos mx) ltac:(lia)) as Hs.
    replace (Z.log2 (Z.pos mx)) with 52 in Hs by lia.
    change (Z.succ 52) with 53 in Hs. lia. }
  destruct (n - 53) as [|d|d] eqn:Ed; try lia.
  - assert (Hp : Z.pos p = Z.pos p * 2 ^ (53 - n))
      by (replace (53 - n) with 0 by lia; lia).
    exists p. rewrite (Hnorm p 0 Hp) by lia. auto.
  - assert (Hp : Z.pos (Pos.iter xO p d) = Z.pos p * 2 ^ (53 - n))
      by (rewrite iter_xO; f_equal; f_equal; lia).
    exists (Pos.iter xO p d). rewrite (Hnorm _ (Z.neg d) Hp) by lia. auto.
Qed.

Lemma digits_53_bounds (m : positive) :
  Z.pos (digits2_pos m) = 53 -> 2 ^ 52 <= Z.pos m < 2 ^ 53.
Proof.
  intro Hd. rewrite digits_log2 in Hd.
  pose proof (Z.log2_spec (Z.pos m) ltac:(lia)) as Hs.
  replace (Z.log2 (Z.pos m)) with 52 in Hs by lia. exact Hs.
Qed.

(** [math.sqrt]: the integer square root [q] of the mantissa shifted to 105
    or 106 bits, moved up by one when the remainder puts the root above
    [q + 1/2]; the result never reaches [2^53]. *)
Lemma sqrt_normal (mx : positive) (ex : Z) :
  Z.pos (digits2_pos mx) = 53 -> -52 <= ex <= 0 ->
  let e' := ex / 2 - 26 in
  let m' := Z.pos mx * 2 ^ (ex - 2 * e') in
  let q := Z.sqrt m' in
  exists q' : positive,
    Float.sqrt (S754_finite false mx ex) = Return (S754_finite false q' e')
    /\ Z.pos q' = (if m' - q * q <=? q then q else q + 1)
    /\ Z.pos q' < 2 ^ 53.
Proof.
  intros Hd Hex e' m' q.
  pose proof (digits_53_bounds mx Hd) as Hmx.
  pose proof (Z.div_mod ex 2 ltac:(lia)) as Hdm.
  pose proof (Z.mod_pos_bound ex 2 ltac:(lia)) as Hmb.
  assert (Hs : ex - 2 * e' = 52 \/ ex - 2 * e' = 53) by (unfold e'; lia).
  assert (Hm' : 2 ^ 104 <= m' < 2 ^ 106
                /\ (ex - 2 * e' = 52 -> m' < 2 ^ 105)
                /\ (ex - 2 * e' = 53 -> m' <= 2 ^ 106 - 2 ^ 53)).
  { unfold m'. destruct Hs as [-> | ->]; lia. }
  destruct Hm' as (Hm' & Hm52 & Hm53).
  pose proof (Z.sqrt_spec m' ltac:(lia)) as Hq. cbv zeta in Hq. fold q in Hq.
  unfold Z.succ in Hq.
  assert (Hq52 : 2 ^ 52 <= q).
  { change (2 ^ 52) with (Z.sqrt (2 ^ 104)). apply Z.sqrt_le_mono. lia. }
  assert (Hq53 : q < 2 ^ 53).
  { apply Z.sqrt_lt_square; [lia | lia |].
    change (2 ^ 53 * 2 ^ 53) with (2 ^ 106). lia. }
  set (r := m' - q * q) in *.
  assert (Hr : 0 <= r <= 2 * q) by (unfold r; lia).
  assert (Hcarry : q + 1 < 2 ^ 53 \/ r <= q).
  { destruct (Z.eq_dec q (2 ^ 53 - 1)) as [Eq|]; [|lia]. right.
    destruct Hs as [Hs|Hs].
    - specialize (Hm52 Hs). subst r. rewrite Eq in *. lia.
    - specialize (Hm53 Hs). subst r. rewrite Eq. lia. }
  set (qv := if r <=? q then q else q + 1).
  assert (Hqv : 2 ^ 52 <= qv < 2 ^ 53).
  { unfold qv. destruct (Z.leb_spec r q); lia. }
  exists (Z.to_pos qv).
  rewrite Z2Pos.id by lia. split; [|split; [reflexivity | lia]].
  unfold Float.sqrt, SFsqrt, SFsqrt_core_binary.
  change Float.prec with 53. change Float.emax with 1024.
  cbn [Zdigits2]. rewrite Hd, !Z.div2_div.
  replace (Z.min (fexp 53 1024 ((53 + ex + 1) / 2)) (ex / 2)) with e'
    by (unfold fexp, emin, e'; Z.div_mod_to_equations; lia).
  assert (Hshift : match ex - 2 * e' with
                   | Z.pos _ => Z.shiftl (Z.pos mx) (ex - 2 * e')
                   | 0 => Z.pos mx
                   | Z.neg _ => 0
                   end = m').
  { unfold m'. destruct Hs as [-> | ->]; rewrite Z.shiftl_mul_pow2; lia. }
  rewrite Hshift.
  pose proof (Z.sqrtrem_spec m' ltac:(lia)) as Hsr.
  pose proof (Z.sqrtrem_sqrt m') as Hfst.
  destruct (Z.sqrtrem m') as [q0 r0]. cbn [fst] in Hfst. fold q in Hfst. subst q0.
  destruct Hsr as [Hsr _].
  assert (r0 = r) by (unfold r; lia). subst r0.
  destruct q as [|qp|qp] eqn:Eq; try lia.
  f_equal. apply binary_round_aux_53.
  - apply digits_unique. change (53 - 1) with 52. lia.
  - unfold e'. lia.
  - rewrite Z2Pos.id by lia. unfold qv.
    destruct (Z.eqb_spec r 0) as [E0|E0].
    + cbn [round_nearest_even]. destruct (Z.leb_spec r (Z.pos qp)); lia.
    + destruct (Z.leb_spec r (Z.pos qp)); reflexivity.
  - rewrite Z2Pos.id by lia. lia.
Qed.

(** The arithmetic at the heart of the matter. [T] is the power of two by
    which the square root is scaled, [q] the integer square root of
    [xp * T^2], [q'] its rounding, [M0] the rounding of the product by the
    mantissa of [0.025] (40 times which is [2^58 + 16]) divided by [k2], and
    [D] the scale of [M0]. Below [2^50] the scale [T] is at least [2^28],
    large enough for [q'] to stay two units under [40 (L + 1) T], and for
    the product to stay under [(L + 1) D] after rounding. *)
Lemma level_bounds (xp L T q q' k2 M0 D : Z) :
  0 <= L -> 1600 * L * L <= xp < 1600 * (L + 1) * (L + 1) -> xp < 2 ^ 50 ->
  2 ^ 28 <= T ->
  0 <= q -> q * q <= xp * T * T < (q + 1) * (q + 1) ->
  q <= q' <= q + 1 -> q' < 2 ^ 53 ->
  k2 = 2 ^ 52 \/ k2 = 2 ^ 53 ->
  (7205759403792794 * q') / k2 <= M0 <= (7205759403792794 * q') / k2 + 1 ->
  (M0 = (7205759403792794 * q') / k2 + 1 ->
   k2 <= 2 * ((7205759403792794 * q') mod k2)) ->
  D * k2 = 2 ^ 58 * T ->
  L * D <= M0 < (L + 1) * D.
Proof.
  intros HL Hxp Hxp50 HT Hq0 Hq Hq' Hq53 Hk HM0 Hup HD.
  set (N := L + 1) in *.
  set (P := 7205759403792794 * q') in *.
  assert (HN : N <= 838861).
  { destruct (Z.le_gt_cases N 838861) as [|Hbig]; [assumption|exfalso].
    assert (838861 * 838861 <= L * L) by (apply Z.mul_le_mono_nonneg; lia).
    change (2 ^ 50) with 1125899906842624 in Hxp50. lia. }
  assert (HNT : 160 * N <= T) by (change (2 ^ 28) with 268435456 in HT; lia).
  set (X := N * T).
  set (Y := L * T).
  assert (HXY : X = Y + T) by (unfold X, Y, N; lia).
  assert (HY0 : 0 <= Y) by (unfold Y; apply Z.mul_nonneg_nonneg; lia).
  (* the square root lies between 40 L T and 40 N T - 3 *)
  assert (Hlow : 40 * Y <= q).
  { destruct (Z.le_gt_cases (40 * Y) q) as [|Hlt]; [assumption|exfalso].
    assert ((q + 1) * (q + 1) <= (40 * Y) * (40 * Y))
      by (apply Z.mul_le_mono_nonneg; lia).
    assert (1600 * L * L * (T * T) <= xp * (T * T))
      by (apply Z.mul_le_mono_nonneg_r; [apply Z.mul_nonneg_nonneg|]; lia).
    unfold Y in *. lia. }
  assert (Hhigh : q <= 40 * X - 3).
  { destruct (Z.le_gt_cases q (40 * X - 3)) as [|Hgt]; [assumption|exfalso].
    assert (0 <= 40 * X - 2) by lia.
    assert ((40 * X - 2) * (40 * X - 2) <= q * q)
      by (apply Z.mul_le_mono_nonneg; lia).
    assert (xp * (T * T) <= (1600 * N * N - 1) * (T * T))
      by (apply Z.mul_le_mono_nonneg_r; [apply Z.mul_nonneg_nonneg|]; lia).
    assert (160 * N * T <= T * T) by (apply Z.mul_le_mono_nonneg_r; lia).
    unfold X in *. lia. }
  assert (Hk2 : 0 < k2 <= 2 ^ 53) by (destruct Hk as [-> | ->]; lia).
  assert (HD0 : 0 <= D).
  { destruct (Z.le_gt_cases 0 D) as [|Hneg]; [assumption|exfalso].
    assert (D * k2 < 0) by (apply Z.mul_neg_pos; lia). lia. }
  pose proof (Z.div_mod P k2 ltac:(lia)) as Hdm.
  pose proof (Z.mod_pos_bound P k2 ltac:(lia)) as Hmb.
  set (Q := P / k2) in *. set (R := P mod k2) in *.
  change (2 ^ 58) with 288230376151711744 in HD.
  change (2 ^ 53) with 9007199254740992 in *.
  (* the product, times 40 *)
  assert (HP : 40 * P = 288230376151711760 * q') by (unfold P; lia).
  assert (HLD : L * (D * k2) = 288230376151711744 * Y) by (rewrite HD; unfold Y; lia).
  assert (HND : N * (D * k2) = 288230376151711744 * X) by (rewrite HD; unfold X; lia).
  split.
  - (* L * D <= Q <= M0 *)
    assert (k2 * (L * D) <= P) by lia.
    assert (L * D <= Q) by (apply Z.div_le_lower_bound; lia).
    lia.
  - assert (Hlt : 2 * P + k2 < 2 * (N * (D * k2))) by lia.
    assert (HM : k2 * M0 < k2 * (N * D)).
    { destruct (Z.eq_dec M0 (Q + 1)) as [E|E].
      - specialize (Hup E). rewrite E. lia.
      - replace M0 with Q by lia. lia. }
    apply Z.mul_lt_mono_pos_l in HM; lia.
Qed.

(** The product with the literal [0.025]: a mantissa of 105 or 106 bits,
    rounded to 53. *)
Lemma mul_lit (q' : positive) (e' : Z) :
  2 ^ 52 <= Z.pos q' < 2 ^ 53 -> -100 <= e' <= 0 ->
  exists (M0 M k : positive) (E : Z),
    Float.mul Float.lit_0_025 (S754_finite false q' e') = S754_finite false M E
    /\ (Z.pos k = 52 \/ Z.pos k = 53)
    /\ (7205759403792794 * Z.pos q') / 2 ^ Z.pos k <= Z.pos M0
         <= (7205759403792794 * Z.pos q') / 2 ^ Z.pos k + 1
    /\ (Z.pos M0 = (7205759403792794 * Z.pos q') / 2 ^ Z.pos k + 1 ->
        2 ^ (Z.pos k - 1) <= (7205759403792794 * Z.pos q') mod 2 ^ Z.pos k)
    /\ 0 <= E - (e' - 58 + Z.pos k) <= 1
    /\ Z.pos M0 = Z.pos M * 2 ^ (E - (e' - 58 + Z.pos k)).
Proof.
  intros Hq He.
  unfold Float.mul, Float.lit_0_025, SFmul. cbn [xorb].
  change Float.prec with 53. change Float.emax with 1024.
  set (P := (7205759403792794 * q')%positive).
  assert (HP : Z.pos P = 7205759403792794 * Z.pos q') by reflexivity.
  assert (Hk : exists k : positive,
             (Z.pos k = 52 \/ Z.pos k = 53) /\ Z.pos (digits2_pos P) = 53 + Z.pos k).
  { change (2 ^ 52) with 4503599627370496 in Hq.
    change (2 ^ 53) with 9007199254740992 in Hq.
    destruct (Z.lt_ge_cases (Z.pos P) (2 ^ 105)) as [Hlt|Hge].
    - exists 52%positive. split; [now left|]. apply digits_unique.
      change (53 + 52 - 1) with 104. change (53 + 52) with 105.
      change (2 ^ 104) with 20282409603651670423947251286016.
      change (2 ^ 105) with 40564819207303340847894502572032 in *. lia.
    - exists 53%positive. split; [now right|]. apply digits_unique.
      change (53 + 53 - 1) with 105. change (53 + 53) with 106.
      change (2 ^ 106) with 81129638414606681695789005144064.
      change (2 ^ 105) with 40564819207303340847894502572032 in *. lia. }
  destruct Hk as (k & Hk & Hd).
  destruct (binary_round_aux_shift P (-58 + e') k Hd) as (M0 & M & E & HE & HM0 & Hup & HdE & HME);
    try (destruct Hk as [-> | ->]; lia).
  exists M0, M, k, E. rewrite <- HP.
  replace (e' - 58 + Z.pos k) with (-58 + e' + Z.pos k) by lia.
  auto 10.
Qed.

(** The three operations in a row, and [math.floor] at the end. *)
Lemma calculate_level_int_exact (xp : Z) :
  1 <= xp < 2 ^ 50 ->
  exists L,
    calculate_level_int xp = Return L
    /\ 0 <= L
    /\ 1600 * L * L <= xp < 1600 * (L + 1) * (L + 1).
Proof.
  intros Hxp.
  (* the exact level *)
  set (L := Z.sqrt (xp / 1600)).
  assert (HL0 : 0 <= L) by apply Z.sqrt_nonneg.
  assert (HL : 1600 * L * L <= xp < 1600 * (L + 1) * (L + 1)).
  { pose proof (Z.sqrt_spec (xp / 1600) ltac:(apply Z.div_pos; lia)) as Hs.
    cbv zeta in Hs. fold L in Hs. unfold Z.succ in Hs.
    pose proof (Z.div_mod xp 1600 ltac:(lia)).
    pose proof (Z.mod_pos_bound xp 1600 ltac:(lia)). lia. }
  exists L. split; [|split; assumption].
  (* float(xp) *)
  set (n := Z.log2 xp + 1).
  pose proof (Z.log2_spec xp ltac:(lia)) as Hlog.
  assert (Hn : 1 <= n <= 50).
  { pose proof (Z.log2_nonneg xp).
    assert (Z.log2 xp < 50) by (apply Z.log2_lt_pow2; lia). unfold n. lia. }
  replace (Z.succ (Z.log2 xp)) with n in Hlog by (unfold n; lia).
  replace (Z.log2 xp) with (n - 1) in Hlog by (unfold n; lia).
  destruct (of_int_normal xp n Hlog ltac:(lia)) as (mx & Hof & Hmx & Hdmx).
  (* math.sqrt *)
  set (ex := n - 53) in *.
  destruct (sqrt_normal mx ex Hdmx ltac:(unfold ex; lia)) as (q' & Hsqrt & Hq' & Hq'53).
  cbv zeta in Hsqrt, Hq'.
  set (e' := ex / 2 - 26) in *.
  set (m' := Z.pos mx * 2 ^ (ex - 2 * e')) in *.
  set (q := Z.sqrt m') in *.
  assert (He' : -52 <= e' <= -28) by (unfold e', ex; Z.div_mod_to_equations; lia).
  set (T := 2 ^ (- e')).
  assert (HT : 2 ^ 28 <= T) by (apply Z.pow_le_mono_r; lia).
  assert (Hm' : m' = xp * T * T).
  { unfold m', T. rewrite Hmx, <- !Z.mul_assoc, <- !Z.pow_add_r by (unfold ex; lia).
    do 2 f_equal. unfold ex. lia. }
  assert (Hm0 : 0 <= m')
    by (rewrite Hm'; apply Z.mul_nonneg_nonneg; [apply Z.mul_nonneg_nonneg|]; lia).
  pose proof (Z.sqrt_spec m' Hm0) as Hq. cbv zeta in Hq. fold q in Hq.
  unfold Z.succ in Hq. rewrite Hm' in Hq.
  assert (Hq0 : 0 <= q) by apply Z.sqrt_nonneg.
  assert (Hqq' : q <= Z.pos q' <= q + 1).
  { rewrite Hq'. destruct (m' - q * q <=? q); lia. }
  assert (Hq'52 : 2 ^ 52 <= Z.pos q').
  { assert (2 ^ 52 <= q); [|lia].
    change (2 ^ 52) with (Z.sqrt (2 ^ 104)). apply Z.sqrt_le_mono.
    pose proof (digits_53_bounds mx Hdmx).
    assert (Hs : 52 <= ex - 2 * e') by (unfold e'; Z.div_mod_to_equations; lia).
    assert (2 ^ 52 <= 2 ^ (ex - 2 * e')) by (apply Z.pow_le_mono_r; lia).
    unfold m'. change (2 ^ 104) with (2 ^ 52 * 2 ^ 52).
    apply Z.mul_le_mono_nonneg; lia. }
  (* 0.025 * ... *)
  destruct (mul_lit q' e' ltac:(lia) ltac:(lia))
    as (M0 & M & k & E & Hmul & Hk & HM0 & Hup & HdE & HME).
  (* math.floor *)
  unfold calculate_level_int.
  destruct (Z.ltb_spec xp 0); [lia|].
  rewrite Hof. cbn [bind]. rewrite Hsqrt. cbn [bind]. rewrite Hmul.
  cbn [Float.floor]. f_equal.
  set (d := E - (e' - 58 + Z.pos k)) in *.
  set (D := 2 ^ (58 - e' - Z.pos k)).
  assert (HD : D * 2 ^ Z.pos k = 2 ^ 58 * T).
  { unfold D, T. rewrite <- (Z.pow_add_r 2 58 (- e')) by lia.
    rewrite <- Z.pow_add_r by (destruct Hk as [Hk | Hk]; rewrite Hk; lia).
    f_equal. lia. }
  assert (Hb : L * D <= Z.pos M0 < (L + 1) * D).
  { apply (level_bounds xp L T q (Z.pos q') (2 ^ Z.pos k) (Z.pos M0) D); try lia.
    - destruct Hk as [-> | ->]; auto.
    - intro Heq. specialize (Hup Heq).
      assert (Epow : 2 ^ Z.pos k = 2 * 2 ^ (Z.pos k - 1))
        by (rewrite <- Z.pow_succ_r by lia; f_equal; lia).
      lia. }
  assert (HE : E < 0) by (destruct Hk as [Hk | Hk]; rewrite Hk in *; lia).
  replace (Z.shiftl (Z.pos M) E) with (Z.pos M / 2 ^ (- E))
    by (rewrite <- Z.shiftl_div_pow2 by lia; f_equal; lia).
  assert (HDd : D = 2 ^ (- E) * 2 ^ d).
  { unfold D, d. rewrite <- Z.pow_add_r by lia. f_equal. lia. }
  assert (0 < 2 ^ d) by (apply Z.pow_pos_nonneg; lia).
  assert (0 < 2 ^ (- E)) by (apply Z.pow_pos_nonneg; lia).
  symmetry. apply (Z.div_unique_pos _ _ L (Z.pos M - L * 2 ^ (- E))); [|lia].
  rewrite HME, HDd in Hb.
  assert (L * 2 ^ (- E) * 2 ^ d <= Z.pos M * 2 ^ d) by lia.
  assert (Z.pos M * 2 ^ d < (L + 1) * 2 ^ (- E) * 2 ^ d) by lia.
  assert (L * 2 ^ (- E) <= Z.pos M) by (apply (Z.mul_le_mono_pos_r _ _ (2 ^ d)); lia).
  assert (Z.pos M < (L + 1) * 2 ^ (- E)) by (apply (Z.mul_lt_mono_pos_r (2 ^ d)); lia).
  lia.
Qed.

(** C9, as the code has it. A negative [int] has level 0. For
    [0 <= xp < 2^50] the double-precision evaluation returns exactly
    [floor(0.025 * sqrt(xp))]; in particular 0 at 0 and 25 at 1,000,000. *)
Theorem calculate_level_exact (xp : Z) :
  (xp < 0 -> calculate_level (VInt xp) = Return 0)
  /\ (0 <= xp < 2 ^ 50 ->
      exists L, calculate_level (VInt xp) = Return L /\ Spec.is_level xp L)
  /\ calculate_level (VInt 0) = Return 0
  /\ calculate_level (VInt 1000000) = Return 25.
Proof.
  split; [apply calculate_level_negative|].
  split; [|split; [reflexivity | vm_compute; reflexivity]].
  intros [H0 H50]. cbn [calculate_level].
  destruct (Z.eq_dec xp 0) as [->|Hnz].
  - exists 0. split; [reflexivity|]. unfold Spec.is_level. lia.
  - destruct (calculate_level_int_exact xp ltac:(lia)) as (L & E & HL0 & HL).
    exists L. split; [exact E|]. unfold Spec.is_level. lia.
Qed.

(** C9 at two concrete inputs: a negative one, and the one million of the
    specification, whose level 25 is the exact floor. *)
Lemma calculate_level_exact_witness :
  calculate_level (VInt (-7)) = Return 0
  /\ exists L, calculate_level (VInt 1000000) = Return L /\ Spec.is_level 1000000 L.
Proof.
  split.
  - apply (proj1 (calculate_level_exact (-7))). reflexivity.
  - apply (proj1 (proj2 (calculate_level_exact 1000000))). split; [discriminate | reflexivity].
Defined.

(** C9 as stated fails in two ways. At [xp = 1600 * 1258292^2 - 1] and at
    [xp = 1600 * 2^42 - 1] the double square root rounds up to a multiple
    of 40 and the level comes out one more than the exact floor; and an
    [int] beyond the range of a double makes [math.sqrt] raise. *)
Lemma calculate_level_not_exact :
  calculate_level (VInt 2533278011622399) = Return 1258292
  /\ Spec.is_level 2533278011622399 1258291
  /\ calculate_level (VInt 7036874417766399) = Return 2097152
  /\ Spec.is_level 7036874417766399 2097151
  /\ ~ Spec.is_level 7036874417766399 2097152
  /\ calculate_level (VInt (2 ^ 1024))
     = Raise (OverflowError (lit "int too large to convert to float")).
Proof.
  split; [vm_compute; reflexivity|].
  split; [unfold Spec.is_level; lia|].
  split; [vm_compute; reflexivity|].
  split; [unfold Spec.is_level; lia|].
  split; [unfold Spec.is_level; lia|].
  vm_compute. reflexivity.
Qed.

(** * Further properties *)

(** ** Decimal digits *)

Lemma of_uint_acc_digits_value (u : Decimal.uint) (acc : positive) :
  N.pos (Pos.of_uint_acc u acc) = digits_value u (N.pos acc).
Proof.
  revert acc. induction u; intro acc; cbn [Pos.of_uint_acc digits_value];
    try reflexivity; rewrite IHu; f_equal.
Qed.

Lemma of_uint_digits_value (u : Decimal.uint) : N.of_uint u = digits_value u 0.
Proof.
  unfold N.of_uint.
  induction u; cbn [Pos.of_uint digits_value]; try reflexivity;
    try (rewrite of_uint_acc_digits_value; reflexivity).
  exact IHu.
Qed.

Lemma uint_str_length (u : Decimal.uint) :
  List.length (Fmt.uint_str u) = Decimal.nb_digits u.
Proof. induction u; cbn [Fmt.uint_str Decimal.nb_digits List.length]; congruence. Qed.

Lemma digits_value_bounds (u : Decimal.uint) (acc : N) :
  (acc * 10 ^ N.of_nat (Decimal.nb_digits u) <= digits_value u acc
   < (acc + 1) * 10 ^ N.of_nat (Decimal.nb_digits u))%N.
Proof.
  revert acc. induction u; intro acc; cbn [digits_value Decimal.nb_digits];
    try (rewrite Nnat.Nat2N.inj_succ, N.pow_succ_r';
         match goal with |- (_ <= digits_value _ ?a < _)%N => specialize (IHu a) end;
         set (p := (10 ^ N.of_nat (Decimal.nb_digits u))%N) in *; nia).
  simpl. lia.
Qed.

Lemma to_uint_head_nonzero (n : N) (l : Decimal.uint) :
  N.to_uint n = Decimal.D0 l -> n = 0%N.
Proof.
  intro E.
  pose proof (DecimalN.Unsigned.to_of (N.to_uint n)) as H.
  rewrite DecimalN.Unsigned.of_to, E, DecimalFacts.unorm_D0 in H.
  destruct l as [| | | | | | | | | |] eqn:El;
    try (assert (Hn : l <> Decimal.Nil) by (subst l; discriminate);
         rewrite <- El in H;
         pose proof (DecimalFacts.nb_digits_unorm l Hn) as Hle;
         rewrite <- H in Hle; cbn [Decimal.nb_digits] in Hle; lia).
  rewrite <- (DecimalN.Unsigned.of_to n), E. reflexivity.
Qed.

Lemma digits_bounds (n : N) :
  (0 < n)%N ->
  (10 ^ N.of_nat (List.length (Fmt.digits n) - 1) <= n
   < 10 ^ N.of_nat (List.length (Fmt.digits n)))%N.
Proof.
  intro Hn. unfold Fmt.digits. rewrite uint_str_length.
  pose proof (DecimalN.Unsigned.of_to n) as Hof. rewrite of_uint_digits_value in Hof.
  pose proof (to_uint_head_nonzero n) as Hhead.
  destruct (N.to_uint n) as [|l|l|l|l|l|l|l|l|l|l];
    try (exfalso; specialize (Hhead l eq_refl); lia);
    cbn [digits_value Decimal.nb_digits] in *;
    try (rewrite Nat.sub_succ, Nat.sub_0_r, Nnat.Nat2N.inj_succ, N.pow_succ_r';
         match type of Hof with digits_value _ ?a = _ => pose proof (digits_value_bounds l a) as Hb end;
         rewrite Hof in Hb;
         set (p := (10 ^ N.of_nat (Decimal.nb_digits l))%N) in *;
         assert (0 < p)%N by (apply N.neq_0_lt_0, N.pow_nonzero; lia);
         nia).
  lia.
Qed.

Lemma digits_length_le (n : N) (k : nat) :
  (1 <= k)%nat ->
  (List.length (Fmt.digits n) <= k)%nat <-> (n < 10 ^ N.of_nat k)%N.
Proof.
  intro Hk. destruct (N.eq_dec n 0) as [->|Hn].
  - cbn. split; intro; [|lia]. apply N.neq_0_lt_0, N.pow_nonzero. lia.
  - pose proof (digits_bounds n ltac:(lia)) as [Hlo Hhi].
    set (m := List.length (Fmt.digits n)) in *.
    split; intro H.
    + eapply N.lt_le_trans; [exact Hhi|]. apply N.pow_le_mono_r; lia.
    + destruct (Nat.le_gt_cases m k) as [|Hgt]; [assumption|exfalso].
      assert (10 ^ N.of_nat k <= 10 ^ N.of_nat (m - 1))%N
        by (apply N.pow_le_mono_r; lia).
      lia.
Qed.

Lemma uint_str_digits (u : Decimal.uint) : Forall is_digit (Fmt.uint_str u).
Proof.
  induction u; cbn [Fmt.uint_str]; constructor; trivial; unfold is_digit; lia.
Qed.

Lemma digits_are_digits (n : N) : Forall is_digit (Fmt.digits n).
Proof. apply uint_str_digits. Qed.

Lemma without_commas_grouped (ds : str) :
  Forall is_digit ds -> without_commas (Spec.grouped ds) = ds.
Proof.
  induction 1 as [|d rest Hd _ IH]; [reflexivity|].
  cbn [Spec.grouped].
  assert (Ed : (d =? Fmt.comma)%N = false)
    by (apply N.eqb_neq; unfold is_digit, Fmt.comma in *; lia).
  destruct ((0 <? List.length rest)%nat && (List.length rest mod 3 =? 0)%nat);
    unfold without_commas in *; cbn [filter]; rewrite Ed; cbn [negb];
    [change ((Fmt.comma =? Fmt.comma)%N) with true; cbn [negb]|]; now rewrite IH.
Qed.

Lemma without_commas_sign (n : Z) (s : str) :
  without_commas (Fmt.sign n ++ s) = Fmt.sign n ++ without_commas s.
Proof. unfold Fmt.sign. destruct (n <? 0); reflexivity. Qed.

(** X1. Taking the commas out of [format(n, ",")] gives [str(n)]: the
    grouping adds commas and changes nothing else. *)
Theorem int_commas_without_commas (n : Z) :
  without_commas (Fmt.int_commas n) = Fmt.str_of_int n.
Proof.
  unfold Fmt.int_commas, Fmt.str_of_int.
  rewrite without_commas_sign, group_grouped, without_commas_grouped; trivial.
  apply digits_are_digits.
Qed.

Lemma uint_str_inj (u v : Decimal.uint) : Fmt.uint_str u = Fmt.uint_str v -> u = v.
Proof.
  revert v. induction u; destruct v; cbn [Fmt.uint_str]; intro H;
    try discriminate H; try reflexivity;
    injection H as H; f_equal; now apply IHu.
Qed.

Lemma digits_inj (n m : N) : Fmt.digits n = Fmt.digits m -> n = m.
Proof. intro H. now apply DecimalN.Unsigned.to_uint_inj, uint_str_inj. Qed.

Lemma digits_head (n : N) :
  exists d rest, Fmt.digits n = d :: rest /\ is_digit d.
Proof.
  pose proof (digits_are_digits n) as H.
  destruct (Fmt.digits n) as [|d rest] eqn:E.
  - exfalso. unfold Fmt.digits in E.
    destruct n as [|p]; [discriminate E|].
    apply (DecimalPos.Unsigned.to_uint_nonnil p).
    cbn [N.to_uint] in E. destruct (Pos.to_uint p); (reflexivity || discriminate E).
  - exists d, rest. split; [reflexivity|]. now inversion H.
Qed.

Lemma str_of_int_inj (n m : Z) : Fmt.str_of_int n = Fmt.str_of_int m -> n = m.
Proof.
  unfold Fmt.str_of_int, Fmt.sign.
  destruct (digits_head (Z.abs_N n)) as (d1 & r1 & E1 & H1).
  destruct (digits_head (Z.abs_N m)) as (d2 & r2 & E2 & H2).
  destruct (Z.ltb_spec n 0) as [Hn|Hn], (Z.ltb_spec m 0) as [Hm|Hm];
    cbn [app]; intro Heq.
  - injection Heq as Heq. apply digits_inj in Heq. lia.
  - rewrite E2 in Heq. injection Heq as Heq _. unfold is_digit, Fmt.minus in *. lia.
  - rewrite E1 in Heq. injection Heq as Heq _. unfold is_digit, Fmt.minus in *. lia.
  - apply digits_inj in Heq. lia.
Qed.

Lemma int_commas_inj (n m : Z) : Fmt.int_commas n = Fmt.int_commas m -> n = m.
Proof.
  intro H. apply str_of_int_inj.
  apply (f_equal without_commas) in H. unfold Fmt.int_commas in H.
  rewrite !without_commas_sign, !group_grouped in H.
  rewrite !without_commas_grouped in H by apply digits_are_digits.
  exact H.
Qed.

(** ** The width of the rendered numbers *)

Lemma div3_step (r : nat) :
  (r / 3 = (r - 1) / 3 + (if (0 <? r) && (r mod 3 =? 0) then 1 else 0))%nat.
Proof.
  pose proof (Nat.div_mod_eq r 3) as E1.
  pose proof (Nat.div_mod_eq (r - 1) 3) as E2.
  pose proof (Nat.mod_upper_bound r 3) as B1.
  pose proof (Nat.mod_upper_bound (r - 1) 3) as B2.
  destruct (Nat.ltb_spec 0 r), (Nat.eqb_spec (r mod 3) 0); cbn [andb]; lia.
Qed.

Lemma grouped_length (ds : str) :
  List.length (Spec.grouped ds)
    = (List.length ds + (List.length ds - 1) / 3)%nat.
Proof.
  induction ds as [|d rest IH]; [reflexivity|].
  cbn [Spec.grouped List.length].
  replace (S (List.length rest) - 1)%nat with (List.length rest) by lia.
  rewrite (div3_step (List.length rest)).
  destruct ((0 <? List.length rest)%nat && (List.length rest mod 3 =? 0)%nat);
    cbn [List.length]; rewrite IH; lia.
Qed.

Lemma grouped_fits (d k : nat) :
  (1 <= k)%nat -> (d + (d - 1) / 3 <= k + (k - 1) / 3)%nat <-> (d <= k)%nat.
Proof.
  intro Hk. split; intro H.
  - destruct (Nat.le_gt_cases d k) as [|Hlt]; [trivial|exfalso].
    pose proof (Nat.Div0.div_le_mono (k - 1) (d - 1) 3). lia.
  - pose proof (Nat.Div0.div_le_mono (d - 1) (k - 1) 3). lia.
Qed.

Lemma int_commas_length (n : Z) :
  0 <= n ->
  Str.len (Fmt.int_commas n)
    = Z.of_nat (List.length (Fmt.digits (Z.abs_N n))
                + (List.length (Fmt.digits (Z.abs_N n)) - 1) / 3).
Proof.
  intro Hn. unfold Fmt.int_commas, Fmt.sign, Str.len.
  destruct (Z.ltb_spec n 0); [lia|].
  cbn [app]. now rewrite group_grouped, grouped_length.
Qed.

Lemma int_commas_fits (n : Z) (k : nat) :
  0 <= n -> (1 <= k)%nat ->
  Str.len (Fmt.int_commas n) <= Z.of_nat (k + (k - 1) / 3) <-> n < 10 ^ Z.of_nat k.
Proof.
  intros Hn Hk. rewrite int_commas_length by trivial.
  pose proof (digits_length_le (Z.abs_N n) k Hk) as Hd.
  assert (Hpow : n < 10 ^ Z.of_nat k <-> (Z.abs_N n < 10 ^ N.of_nat k)%N).
  { rewrite <- (Z.abs_eq n) at 1 by trivial.
    rewrite <- N2Z.inj_abs_N.
    replace (10 ^ Z.of_nat k) with (Z.of_N (10 ^ N.of_nat k))
      by (rewrite N2Z.inj_pow, nat_N_Z; reflexivity).
    split; lia. }
  rewrite Hpow, <- Hd.
  rewrite <- (grouped_fits _ k Hk). lia.
Qed.

(** X3. For an XP that is not negative, [format_xp_only] gives exactly
    twelve characters when the XP is below ten millions, and more from
    there on. *)
Theorem format_xp_only_width (xp : Z) :
  0 <= xp ->
  (Str.len (format_xp_only xp) = 12 <-> xp < 10000000).
Proof.
  intro Hxp. unfold format_xp_only.
  rewrite len_app, rjust_length.
  change (Str.len (lit " XP")) with 3.
  pose proof (int_commas_fits xp 7 Hxp ltac:(lia)) as H.
  change (Z.of_nat (7 + (7 - 1) / 3)) with 9 in H.
  change (10 ^ Z.of_nat 7) with 10000000 in H.
  lia.
Qed.

(** X3 at the total of the docstring. *)
Lemma format_xp_only_width_witness :
  Str.len (format_xp_only 1104152) = 12 <-> 1104152 < 10000000.
Proof. apply (format_xp_only_width 1104152). lia. Defined.

Lemma padding_determined (k1 k2 : nat) (s1 s2 : str) :
  unpadded s1 -> unpadded s2 ->
  repeat Fmt.space k1 ++ s1 = repeat Fmt.space k2 ++ s2 -> s1 = s2.
Proof.
  intros U1 U2. revert k2.
  induction k1 as [|k1 IH]; intros [|k2]; cbn [repeat app]; intro E.
  - exact E.
  - subst s1. now contradiction U1.
  - subst s2. now contradiction U2.
  - injection E as E. now apply (IH k2).
Qed.

Lemma rjust_inj (s1 s2 : str) (width : Z) :
  unpadded s1 -> unpadded s2 -> Fmt.rjust s1 width = Fmt.rjust s2 width -> s1 = s2.
Proof.
  intros U1 U2. unfold Fmt.rjust. rewrite !mul_single. now apply padding_determined.
Qed.

Lemma grouped_head (d : Str.char) (rest : str) :
  exists tail, Spec.grouped (d :: rest) = d :: tail.
Proof. cbn [Spec.grouped]. eexists. reflexivity. Qed.

Lemma int_commas_unpadded (n : Z) : unpadded (Fmt.int_commas n).
Proof.
  unfold Fmt.int_commas, Fmt.sign.
  destruct (n <? 0); [cbn; unfold Fmt.minus, Fmt.space; lia|].
  cbn [app]. rewrite group_grouped.
  destruct (digits_head (Z.abs_N n)) as (d & rest & -> & Hd).
  destruct (grouped_head d rest) as (tail & ->).
  cbn. unfold is_digit, Fmt.space in *. lia.
Qed.

(** X2. [format_xp_only] renders different XP differently: the XP can be
    read back from the text. *)
Theorem format_xp_only_injective (a b : Z) :
  format_xp_only a = format_xp_only b <-> a = b.
Proof.
  split; [|now intros ->].
  unfold format_xp_only. intro H. apply app_inv_tail in H.
  apply int_commas_inj, (rjust_inj _ _ 9); trivial; apply int_commas_unpadded.
Qed.

Lemma str_of_int_length (n : Z) :
  0 <= n -> Str.len (Fmt.str_of_int n) = Z.of_nat (List.length (Fmt.digits (Z.abs_N n))).
Proof.
  intro H. unfold Fmt.str_of_int, Fmt.sign. destruct (Z.ltb_spec n 0); [lia|reflexivity].
Qed.

Lemma str_of_int_fits (n : Z) (k : nat) :
  0 <= n -> (1 <= k)%nat ->
  Str.len (Fmt.str_of_int n) <= Z.of_nat k <-> n < 10 ^ Z.of_nat k.
Proof.
  intros Hn Hk. rewrite str_of_int_length by trivial.
  pose proof (digits_length_le (Z.abs_N n) k Hk) as Hd.
  assert (Hpow : n < 10 ^ Z.of_nat k <-> (Z.abs_N n < 10 ^ N.of_nat k)%N).
  { rewrite <- (Z.abs_eq n) at 1 by trivial.
    rewrite <- N2Z.inj_abs_N.
    replace (10 ^ Z.of_nat k) with (Z.of_N (10 ^ N.of_nat k))
      by (rewrite N2Z.inj_pow, nat_N_Z; reflexivity).
    split; lia. }
  rewrite Hpow, <- Hd. lia.
Qed.

Lemma calculate_level_int_range (xp : Z) :
  0 <= xp < 2 ^ 50 ->
  exists L, calculate_level_int xp = Return L
            /\ 0 <= L /\ 1600 * L * L <= xp < 1600 * (L + 1) * (L + 1).
Proof.
  intros [H0 H50]. destruct (Z.eq_dec xp 0) as [->|Hnz].
  - exists 0. split; [reflexivity | lia].
  - apply calculate_level_int_exact. lia.
Qed.

(** X5. Below [2^50] the level never goes down when the XP goes up. *)
Theorem calculate_level_monotone (a b La Lb : Z) :
  a <= b < 2 ^ 50 ->
  calculate_level (VInt a) = Return La ->
  calculate_level (VInt b) = Return Lb ->
  La <= Lb.
Proof.
  intros [Hab Hb] Ea Eb. cbn [calculate_level] in Ea, Eb.
  destruct (Z.lt_ge_cases a 0) as [Ha|Ha].
  - unfold calculate_level_int in Ea.
    destruct (Z.ltb_spec a 0); [|lia]. injection Ea as <-.
    destruct (Z.lt_ge_cases b 0) as [Hb0|Hb0].
    + unfold calculate_level_int in Eb.
      destruct (Z.ltb_spec b 0); [|lia]. injection Eb as <-. lia.
    + destruct (calculate_level_int_range b ltac:(lia)) as (L & E & HL & _).
      rewrite E in Eb. injection Eb as <-. exact HL.
  - destruct (calculate_level_int_range a ltac:(lia)) as (L1 & E1 & HL1 & B1).
    destruct (calculate_level_int_range b ltac:(lia)) as (L2 & E2 & HL2 & B2).
    rewrite E1 in Ea. rewrite E2 in Eb. injection Ea as <-. injection Eb as <-.
    destruct (Z.le_gt_cases L1 L2) as [|Hgt]; [trivial|exfalso].
    assert ((L2 + 1) * (L2 + 1) <= L1 * L1) by nia.
    lia.
Qed.

(** X5 at one and two millions of XP: levels 25 and 35. *)
Lemma calculate_level_monotone_witness :
  calculate_level (VInt 1000000) = Return 25
  /\ calculate_level (VInt 2000000) = Return 35
  /\ 25 <= 35.
Proof.
  split; [vm_compute; reflexivity|]. split; [vm_compute; reflexivity|].
  apply (calculate_level_monotone 1000000 2000000 25 35).
  - split; [discriminate | reflexivity].
  - vm_compute. reflexivity.
  - vm_compute. reflexivity.
Defined.

(** X4. With the level [calculate_level] gives for it, an XP in
    [0 .. 2^50) is rendered by [format_xp_value] in exactly 22 characters
    when it is below ten millions, and in more from there on. *)
Theorem format_xp_value_width (xp L : Z) :
  0 <= xp < 2 ^ 50 ->
  calculate_level (VInt xp) = Return L ->
  (Str.len (format_xp_value xp L None) = 22 <-> xp < 10000000).
Proof.
  intros Hxp E. cbn [calculate_level] in E.
  destruct (calculate_level_int_range xp Hxp) as (L' & E' & HL & B).
  rewrite E' in E. injection E as <-.
  unfold format_xp_value. rewrite !len_app, !rjust_length.
  change (Str.len (lit "lvl ")) with 4. change (Str.len (lit " (")) with 2.
  change (Str.len (lit " XP)")) with 4.
  pose proof (int_commas_fits xp 7 ltac:(lia) ltac:(lia)) as Hc.
  change (Z.of_nat (7 + (7 - 1) / 3)) with 9 in Hc.
  change (10 ^ Z.of_nat 7) with 10000000 in Hc.
  pose proof (str_of_int_fits L' 3 HL ltac:(lia)) as Hl.
  change (Z.of_nat 3) with 3 in Hl. change (10 ^ 3) with 1000 in Hl.
  split; intro H; [lia|].
  assert (L' < 1000) by nia.
  lia.
Qed.

(** X4 at the total of the docstring, whose level is 26. *)
Lemma format_xp_value_width_witness :
  Str.len (format_xp_value 1104152 26 None) = 22 <-> 1104152 < 10000000.
Proof.
  apply (format_xp_value_width 1104152 26).
  - split; [discriminate | reflexivity].
  - vm_compute. reflexivity.
Defined.

(** ** Construction of the statistics, continued *)

Lemma comprehension_forall2 {A B} (f : A -> result B) (l : list A) (out : list B) :
  comprehension f l = Return out -> Forall2 (fun x y => f x = Return y) l out.
Proof.
  revert out. induction l as [|x rest IH]; cbn [comprehension]; intros out H.
  - injection H as <-. constructor.
  - destruct (f x) as [y|e] eqn:Ex; cbn [bind] in H; [|discriminate].
    destruct (comprehension f rest) as [ys|e]; cbn [bind] in H; [|discriminate].
    injection H as <-. constructor; [exact Ex | now apply IH].
Qed.

Lemma language_from_api_response_inv (name : str) (data : value)
    (lang : LanguageStats.t value) :
  LanguageStats.from_api_response name data = Return lang ->
  LanguageStats.name lang = name
  /\ get data (lit "xps") (VInt 0) = Return (LanguageStats.xp lang)
  /\ get data (lit "new_xps") (VInt 0) = Return (LanguageStats.new_xp lang)
  /\ calculate_level (LanguageStats.xp lang) = Return (LanguageStats.level lang).
Proof.
  unfold LanguageStats.from_api_response.
  destruct (get data (lit "xps") (VInt 0)) as [xp|e]; cbn [bind]; [|discriminate].
  destruct (get data (lit "new_xps") (VInt 0)) as [nx|e]; cbn [bind]; [|discriminate].
  destruct (calculate_level xp) as [lv|e] eqn:El; cbn [bind]; [|discriminate].
  intro H. injection H as <-. cbn. auto.
Qed.

(** X6. Every record [UserStats.from_api_response] returns carries the
    user name it was given, the [total_xp] and [new_xp] of the document (0
    when absent), the level [calculate_level] gives for that total, and one
    language per entry of [languages], in the order of the document, each
    with the level of its own XP. *)
Theorem from_api_response_consistent (username : str) (data : value)
    (stats : UserStats.t value) :
  UserStats.from_api_response username data = Return stats ->
  UserStats.username stats = username
  /\ get data (lit "total_xp") (VInt 0) = Return (UserStats.total_xp stats)
  /\ get data (lit "new_xp") (VInt 0) = Return (UserStats.new_xp stats)
  /\ calculate_level (UserStats.total_xp stats) = Return (UserStats.level stats)
  /\ exists entries,
       get data (lit "languages") (VDict []) = Return (VDict entries)
       /\ map LanguageStats.name (UserStats.languages stats) = map fst entries
       /\ Forall (fun lang => calculate_level (LanguageStats.xp lang)
                              = Return (LanguageStats.level lang))
                 (UserStats.languages stats).
Proof.
  unfold UserStats.from_api_response.
  destruct (get data (lit "total_xp") (VInt 0)) as [xp|e]; cbn [bind]; [|discriminate].
  destruct (get data (lit "new_xp") (VInt 0)) as [nx|e]; cbn [bind]; [|discriminate].
  destruct (calculate_level xp) as [lv|e] eqn:El; cbn [bind]; [|discriminate].
  destruct (get data (lit "languages") (VDict [])) as [ld|e]; cbn [bind]; [|discriminate].
  destruct ld as [| | | | | |entries]; cbn [items bind]; try discriminate.
  destruct (comprehension _ entries) as [ls|e] eqn:Ec; cbn [bind]; [|discriminate].
  intro H. injection H as <-. cbn [UserStats.username UserStats.total_xp
    UserStats.new_xp UserStats.level UserStats.languages].
  repeat split; trivial. exists entries. split; [reflexivity|].
  apply comprehension_forall2 in Ec.
  induction Ec as [|[name ld] lang entries' ls' Hx _ IH]; [split; constructor|].
  apply language_from_api_response_inv in Hx as (Hn & _ & _ & Hl).
  destruct IH as [IH1 IH2]. cbn [map fst]. split.
  - now rewrite Hn, IH1.
  - now constructor.
Qed.

(** X6 at the sample document. *)
Lemma from_api_response_consistent_witness :
  exists stats,
    UserStats.from_api_response (lit "alice") Case.payload = Return stats
    /\ UserStats.username stats = lit "alice"
    /\ calculate_level (UserStats.total_xp stats) = Return (UserStats.level stats).
Proof.
  eexists. split; [vm_compute; reflexivity|].
  refine (let H := from_api_response_consistent (lit "alice") Case.payload _ _ in
          conj (proj1 H) (proj1 (proj2 (proj2 (proj2 H))))).
  vm_compute. reflexivity.
Defined.

Lemma field_ok_value (key : str) (d : list (str * value)) :
  Payload.field_ok key d = true ->
  exists n, match lookup key d with Some v => v | None => VInt 0 end = VInt n
            /\ 0 <= n < 2 ^ 50.
Proof.
  unfold Payload.field_ok. destruct (lookup key d) as [v|].
  - destruct v; try discriminate. cbn [Payload.in_range].
    rewrite andb_true_iff, Z.leb_le, Z.ltb_lt. intros [H0 H1]. now exists n.
  - intros _. exists 0. split; [reflexivity | lia].
Qed.

Lemma calculate_level_in_range (n : Z) :
  0 <= n < 2 ^ 50 ->
  exists L, calculate_level (VInt n) = Return L /\ Spec.is_level n L.
Proof.
  intro H. destruct (calculate_level_int_range n H) as (L & E & HL & B).
  exists L. split; [exact E|]. unfold Spec.is_level. lia.
Qed.

Lemma language_ok_constructed (entry : str * value) :
  Payload.language_ok entry = true ->
  exists lang x,
    LanguageStats.from_api_response (fst entry) (snd entry) = Return lang
    /\ LanguageStats.xp lang = VInt x
    /\ Spec.is_level x (LanguageStats.level lang).
Proof.
  destruct entry as [name ld]. unfold Payload.language_ok. cbn [fst snd].
  destruct ld as [| | | | | |fields]; try discriminate. intro Hok.
  destruct (field_ok_value _ _ Hok) as (x & Ex & Hx).
  destruct (calculate_level_in_range x Hx) as (L & EL & HL).
  unfold LanguageStats.from_api_response, get. rewrite Ex. cbn [bind].
  rewrite EL. cbn [bind]. eexists _, x. split; [reflexivity|]. now split.
Qed.

Lemma languages_constructed (entries : list (str * value)) :
  forallb Payload.language_ok entries = true ->
  exists languages,
    comprehension (fun '(name, lang_data) =>
                     LanguageStats.from_api_response name lang_data) entries
      = Return languages
    /\ Forall (fun lang => exists x, LanguageStats.xp lang = VInt x
                                     /\ Spec.is_level x (LanguageStats.level lang))
              languages.
Proof.
  induction entries as [|[name ld] rest IH]; cbn [forallb comprehension].
  - intros _. exists []. split; [reflexivity | constructor].
  - rewrite andb_true_iff. intros [Hok Hrest].
    destruct (language_ok_constructed _ Hok) as (lang & x & E & Ex & Hx).
    destruct (IH Hrest) as (ls & Els & Hls).
    cbn [fst snd] in E. rewrite E. cbn [bind]. rewrite Els. cbn [bind].
    exists (lang :: ls). split; [reflexivity|]. constructor; [now exists x | exact Hls].
Qed.

(** X7. A document whose total and language XP are [int]s in
    [0 .. 2^50), or absent, is always constructed, and every level stored
    is the exact one. *)
Theorem from_api_response_well_formed (username : str) (data : value) :
  Payload.well_formed data = true ->
  exists stats total,
    UserStats.from_api_response username data = Return stats
    /\ UserStats.total_xp stats = VInt total
    /\ Spec.is_level total (UserStats.level stats)
    /\ Forall (fun lang => exists x, LanguageStats.xp lang = VInt x
                                     /\ Spec.is_level x (LanguageStats.level lang))
              (UserStats.languages stats).
Proof.
  destruct data as [| | | | | |d]; try discriminate.
  cbn [Payload.well_formed]. rewrite andb_true_iff. intros [Htotal Hlangs].
  destruct (field_ok_value _ _ Htotal) as (total & Et & Ht).
  destruct (calculate_level_in_range total Ht) as (L & EL & HL).
  unfold UserStats.from_api_response, get. rewrite Et. cbn [bind].
  rewrite EL. cbn [bind].
  destruct (lookup (lit "languages") d) as [ld|].
  - destruct ld as [| | | | | |entries]; try discriminate Hlangs.
    destruct (languages_constructed entries Hlangs) as (ls & Els & Hls).
    cbn [items bind]. rewrite Els. cbn [bind].
    eexists _, total. split; [reflexivity|]. split; [reflexivity|].
    split; [exact HL | exact Hls].
  - cbn [items bind comprehension].
    eexists _, total. split; [reflexivity|]. split; [reflexivity|].
    split; [exact HL | constructor].
Qed.

(** X7 at the sample document. *)
Lemma from_api_response_well_formed_witness :
  exists stats total,
    UserStats.from_api_response (lit "alice") Case.payload = Return stats
    /\ UserStats.total_xp stats = VInt total
    /\ Spec.is_level total (UserStats.level stats)
    /\ Forall (fun lang => exists x, LanguageStats.xp lang = VInt x
                                     /\ Spec.is_level x (LanguageStats.level lang))
              (UserStats.languages stats).
Proof.
  apply (from_api_response_well_formed (lit "alice") Case.payload).
  reflexivity.
Defined.

(** ** The fetch client, continued *)

Lemma construction_needs_objects (username : str) (data : value)
    (stats : UserStats.t value) :
  UserStats.from_api_response username data = Return stats ->
  exists d entries,
    data = VDict d
    /\ get data (lit "languages") (VDict []) = Return (VDict entries).
Proof.
  unfold UserStats.from_api_response.
  destruct data as [| | | | | |d]; try discriminate.
  cbn [get bind].
  destruct (calculate_level _); cbn [bind]; [|discriminate].
  destruct (match lookup (lit "languages") d with Some v => v | None => VDict [] end)
    as [| | | | | |entries]; try discriminate.
  intros _. now exists d, entries.
Qed.

Section FetchFacts.

Variable settings : Settings.
Variable w : httpx.world.

Lemma transport_error_raises (stats : UserStats.t value) (w' : httpx.world) :
  (forall status_code body,
      httpx.server w (get_codestats_url settings) (httpx.requests w)
        <> httpx.Response status_code body) ->
  CodeStatsClient.get_user_stats_body settings w <> (Return stats, w').
Proof.
  intro Hno.
  unfold CodeStatsClient.get_user_stats_body, io_try, io_bind, httpx.client_get.
  destruct (httpx.server w _ _) as [m|m|m|status_code body] eqn:E;
    try (cbn; discriminate).
  now contradiction (Hno status_code body).
Qed.

(** X15. [get_user_stats] returns exactly when the service answers 2xx
    with a JSON document that the construction accepts; it then returns the
    constructed record, after one request. *)
Theorem get_user_stats_returns_iff (stats : UserStats.t value) (w' : httpx.world) :
  CodeStatsClient.get_user_stats settings w = (Return stats, w')
  <-> exists status_code data,
        httpx.server w (get_codestats_url settings) (httpx.requests w)
          = httpx.Response status_code (Some data)
        /\ httpx.is_success status_code = true
        /\ UserStats.from_api_response (code_stats_username settings) data = Return stats
        /\ w' = httpx.mkWorld (httpx.server w) (S (httpx.requests w)) (httpx.slept w).
Proof.
  rewrite get_user_stats_once. split.
  - intro H.
    destruct (httpx.server w (get_codestats_url settings) (httpx.requests w))
      as [m|m|m|status_code body] eqn:E;
      try (exfalso; revert H; apply transport_error_raises;
           rewrite E; discriminate).
    rewrite (body_on_response settings w status_code body E) in H.
    unfold httpx.raise_for_status, httpx.json in H. cbn [fst snd] in H.
    destruct (httpx.is_success status_code) eqn:Hs; [|cbn in H; discriminate].
    destruct body as [data|]; [|cbn in H; discriminate].
    cbn [bind] in H.
    destruct (get data (lit "total_xp") (VInt 0)) as [x|e] eqn:E1; cbn [bind] in H;
      [|destruct (handler_final (code_stats_username settings) e (httpx.sent w))
          as (e' & He' & _); rewrite He' in H; discriminate].
    destruct (get data (lit "languages") (VDict [])) as [ls|e] eqn:E2; cbn [bind] in H;
      [|destruct (handler_final (code_stats_username settings) e (httpx.sent w))
          as (e' & He' & _); rewrite He' in H; discriminate].
    destruct (py_len ls) as [n|e] eqn:E3; cbn [bind] in H;
      [|destruct (handler_final (code_stats_username settings) e (httpx.sent w))
          as (e' & He' & _); rewrite He' in H; discriminate].
    destruct (UserStats.from_api_response (code_stats_username settings) data)
      as [s|e] eqn:E4;
      [|destruct (handler_final (code_stats_username settings) e (httpx.sent w))
          as (e' & He' & _); rewrite He' in H; discriminate].
    injection H as <- <-. exists status_code, data. repeat split; trivial.
  - intros (status_code & data & E & Hs & Hc & ->).
    rewrite (body_on_response settings w status_code (Some data) E).
    unfold httpx.raise_for_status, httpx.json. cbn [fst snd]. rewrite Hs. cbn [bind].
    destruct (construction_needs_objects _ _ _ Hc) as (d & entries & -> & El).
    rewrite El. cbn [get bind py_len]. rewrite Hc. reflexivity.
Qed.
End FetchFacts.



Section FetchErrors.

Variable settings : Settings.
Variable w : httpx.world.


(** X17. A 2xx answer whose JSON document is not an object: the
    [AttributeError] of [data.get] leaves the call as it is, unwrapped. *)
Theorem get_user_stats_non_object (status_code : Z) (data : value) :
  httpx.server w (get_codestats_url settings) (httpx.requests w)
    = httpx.Response status_code (Some data) ->
  httpx.is_success status_code = true ->
  (forall d, data <> VDict d) ->
  CodeStatsClient.get_user_stats settings w
    = (Raise (AttributeError (lit "'" ++ type_name data
                              ++ lit "' object has no attribute 'get'")),
       httpx.mkWorld (httpx.server w) (S (httpx.requests w)) (httpx.slept w)).
Proof.
  intros Hreply Hs Hd.
  rewrite get_user_stats_once, (body_on_response settings w _ _ Hreply).
  unfold httpx.raise_for_status, httpx.json. cbn [fst snd]. rewrite Hs. cbn [bind].
  destruct data; try reflexivity. now contradiction (Hd d).
Qed.

(** X18. A 2xx answer whose [total_xp] is an [int] too large for a double:
    the [OverflowError] of [math.sqrt] leaves the call as it is, unwrapped. *)
Theorem get_user_stats_overflow (status_code : Z) (d : list (str * value))
    (n : Z) (e : exception) :
  httpx.server w (get_codestats_url settings) (httpx.requests w)
    = httpx.Response status_code (Some (VDict d)) ->
  httpx.is_success status_code = true ->
  lookup (lit "total_xp") d = Some (VInt n) ->
  lookup (lit "languages") d = None ->
  0 <= n ->
  Float.of_int n = Raise e ->
  e = OverflowError (lit "int too large to convert to float")
  /\ CodeStatsClient.get_user_stats settings w
     = (Raise e,
        httpx.mkWorld (httpx.server w) (S (httpx.requests w)) (httpx.slept w)).
Proof.
  intros Hreply Hs Ht Hl Hn He.
  assert (Ee : e = OverflowError (lit "int too large to convert to float")).
  { unfold Float.of_int in He.
    destruct (binary_normalize Float.prec Float.emax n 0 false);
      (discriminate He || now injection He as <-). }
  split; [exact Ee|].
  rewrite get_user_stats_once, (body_on_response settings w _ _ Hreply).
  unfold httpx.raise_for_status, httpx.json. cbn [fst snd]. rewrite Hs.
  cbn [bind get]. rewrite Hl. cbn [py_len bind].
  unfold UserStats.from_api_response, get. rewrite Ht. cbn [bind calculate_level].
  unfold calculate_level_int. destruct (Z.ltb_spec n 0); [lia|].
  rewrite He. cbn [bind]. subst e. reflexivity.
Qed.

(** X19. A 2xx answer whose body is not JSON is reported as a parse
    failure, with the [ValueError] of the decoder as its cause. *)
Theorem get_user_stats_not_json (status_code : Z) :
  httpx.server w (get_codestats_url settings) (httpx.requests w)
    = httpx.Response status_code None ->
  httpx.is_success status_code = true ->
  exists msg,
    CodeStatsClient.get_user_stats settings w
      = (Raise (CodeStatsAPIError
                  (lit "Failed to parse Code::Stats API response for user '"
                   ++ code_stats_username settings ++ lit "': " ++ msg)
                  (ValueError msg)),
         httpx.mkWorld (httpx.server w) (S (httpx.requests w)) (httpx.slept w)).
Proof.
  intros Hreply Hs.
  rewrite get_user_stats_once, (body_on_response settings w _ _ Hreply).
  unfold httpx.raise_for_status, httpx.json. cbn [fst snd]. rewrite Hs.
  cbn [bind]. eexists. reflexivity.
Qed.

End FetchErrors.


(** X17 at a service that answers with a JSON list. *)
Lemma get_user_stats_non_object_witness :
  CodeStatsClient.get_user_stats (Sample.settings LEVEL_XP 10)
      (Sample.always_responds 200 (Some (VList [])))
    = (Raise (AttributeError (lit "'list' object has no attribute 'get'")),
       httpx.mkWorld (httpx.server (Sample.always_responds 200 (Some (VList [])))) 1 []).
Proof.
  apply (get_user_stats_non_object (Sample.settings LEVEL_XP 10)
           (Sample.always_responds 200 (Some (VList []))) 200 (VList []));
    (reflexivity || discriminate).
Defined.

(** X18 at a total of [2^1024]. *)
Lemma get_user_stats_overflow_witness :
  CodeStatsClient.get_user_stats (Sample.settings LEVEL_XP 10)
      (Sample.always_responds 200 (Some Case.huge_total))
    = (Raise (OverflowError (lit "int too large to convert to float")),
       httpx.mkWorld (httpx.server (Sample.always_responds 200 (Some Case.huge_total)))
                     1 []).
Proof.
  apply (get_user_stats_overflow (Sample.settings LEVEL_XP 10)
           (Sample.always_responds 200 (Some Case.huge_total)) 200
           [(lit "total_xp", VInt (2 ^ 1024))] (2 ^ 1024)
           (OverflowError (lit "int too large to convert to float"))).
  - reflexivity.
  - reflexivity.
  - reflexivity.
  - reflexivity.
  - lia.
  - vm_compute. reflexivity.
Defined.

(** X19 at a service that answers 200 without a JSON body. *)
Lemma get_user_stats_not_json_witness :
  exists msg,
    CodeStatsClient.get_user_stats (Sample.settings LEVEL_XP 10)
        (Sample.always_responds 200 None)
      = (Raise (CodeStatsAPIError
                  (lit "Failed to parse Code::Stats API response for user 'alice': "
                   ++ msg)
                  (ValueError msg)),
         httpx.mkWorld (httpx.server (Sample.always_responds 200 None)) 1 []).
Proof.
  apply (get_user_stats_not_json (Sample.settings LEVEL_XP 10)
           (Sample.always_responds 200 None) 200); reflexivity.
Defined.

(** ** The content formatter, continued *)

Lemma filter_perm {A} (f : A -> bool) (l1 l2 : list A) :
  Permutation l1 l2 -> Permutation (filter f l1) (filter f l2).
Proof.
  induction 1 as [|x l1 l2 _ IH|x y l|l1 l2 l3 _ IH1 _ IH2]; cbn [filter].
  - constructor.
  - destruct (f x); [now constructor | exact IH].
  - destruct (f x), (f y); try apply Permutation_refl. apply perm_swap.
  - eapply perm_trans; eassumption.
Qed.

Lemma filter_key_unique {A} (key : A -> Z) (k : Z) (l : list A) :
  NoDup (map key l) ->
  (List.length (filter (fun a => (key a =? k)%Z) l) <= 1)%nat.
Proof.
  induction l as [|x rest IH]; cbn [map filter List.length]; [lia|].
  intro H. inversion H as [|? ? Hnotin Hrest]; subst.
  destruct (Z.eqb_spec (key x) k) as [E|E]; [|now apply IH].
  cbn [List.length].
  destruct (filter (fun a => key a =? k) rest) as [|y ys] eqn:Ef; [cbn; lia|].
  exfalso. apply Hnotin.
  assert (Hy : In y (filter (fun a => key a =? k) rest)) by (rewrite Ef; now left).
  apply filter_In in Hy as [Hin Hk]. apply Z.eqb_eq in Hk.
  rewrite E, <- Hk. now apply in_map.
Qed.

Lemma short_perm_eq {A} (l1 l2 : list A) :
  (List.length l1 <= 1)%nat -> Permutation l1 l2 -> l1 = l2.
Proof.
  destruct l1 as [|a [|b l1]]; cbn [List.length]; intros Hlen Hp.
  - symmetry. now apply Permutation_nil.
  - symmetry. now apply Permutation_length_1_inv.
  - lia.
Qed.

(** With pairwise distinct keys the order of the input does not matter. *)
Lemma sorted_perm_invariant {A} (key : A -> Z) (l1 l2 : list A) :
  Permutation l1 l2 -> NoDup (map key l1) ->
  sorted key true l1 = sorted key true l2.
Proof.
  intros Hp Hnd.
  destruct (sorted_reverse_spec key l1) as (_ & S1 & F1).
  destruct (sorted_reverse_spec key l2) as (_ & S2 & F2).
  apply (descending_determined key); trivial.
  intro k. rewrite F1, F2.
  apply short_perm_eq; [now apply filter_key_unique | now apply filter_perm].
Qed.

Lemma sorted_split {A} (R : A -> A -> Prop) (a b : list A) :
  StronglySorted R (a ++ b) ->
  forall x y, In x a -> In y b -> R x y.
Proof.
  induction a as [|h a IH]; cbn [app]; intros S x y Hx Hy; [contradiction|].
  inversion S as [|? ? S' Hh]; subst.
  destruct Hx as [<-|Hx].
  - rewrite Forall_forall in Hh. apply Hh, in_or_app. now right.
  - now apply IH.
Qed.

Section FormatterMore.

Variable settings : Settings.

(** X9. Outside the recent mode there are as many language lines as the
    count asks for, or as there are languages when those are fewer. *)
Theorem language_lines_count (languages : list (LanguageStats.t Z)) :
  stats_type settings <> RECENT_XP ->
  0 <= top_languages_count settings ->
  List.length (GistFormatter._format_language_lines settings languages)
    = Nat.min (Z.to_nat (top_languages_count settings)) (List.length languages).
Proof.
  intros Hmode Hn.
  rewrite language_lines_by_xp, slice_to_firstn by assumption.
  rewrite length_map, length_firstn.
  now rewrite (Permutation_length (sorted_perm LanguageStats.xp true languages)).
Qed.

(** X10. Outside the recent mode the languages split into those shown
    and those left out, and no language left out has more XP than one that
    is shown. *)
Theorem top_languages_dominate (languages : list (LanguageStats.t Z)) :
  stats_type settings <> RECENT_XP ->
  0 <= top_languages_count settings ->
  exists shown omitted,
    GistFormatter._format_language_lines settings languages
      = map (GistFormatter._format_language_line settings) shown
    /\ Permutation (shown ++ omitted) languages
    /\ forall s o, In s shown -> In o omitted ->
                   LanguageStats.xp o <= LanguageStats.xp s.
Proof.
  intros Hmode Hn.
  set (ranked := sorted LanguageStats.xp true languages).
  set (k := Z.to_nat (top_languages_count settings)).
  exists (firstn k ranked), (skipn k ranked).
  split; [|split].
  - now rewrite language_lines_by_xp, slice_to_firstn.
  - rewrite firstn_skipn. apply sorted_perm.
  - destruct (sorted_reverse_spec LanguageStats.xp languages) as (_ & S & _).
    fold ranked in S. rewrite <- (firstn_skipn k ranked) in S.
    intros s o. apply (sorted_split _ _ _ S).
Qed.

(** X11. When no two languages have the same XP, the language lines do
    not depend on the order the payload lists them in. *)
Theorem language_lines_order_independent (l1 l2 : list (LanguageStats.t Z)) :
  stats_type settings <> RECENT_XP ->
  Permutation l1 l2 ->
  NoDup (map LanguageStats.xp l1) ->
  GistFormatter._format_language_lines settings l1
    = GistFormatter._format_language_lines settings l2.
Proof.
  intros Hmode Hp Hnd.
  rewrite !language_lines_by_xp by assumption.
  now rewrite (sorted_perm_invariant LanguageStats.xp l1 l2 Hp Hnd).
Qed.

(** X12. In the recent mode, with a positive count, the placeholder
    stands exactly when no language has recent XP. *)
Theorem recent_placeholder_iff (languages : list (LanguageStats.t Z)) :
  stats_type settings = RECENT_XP ->
  1 <= top_languages_count settings ->
  GistFormatter._format_language_lines settings languages
    = GistFormatter.NO_RECENT_ACTIVITY
  <-> Forall (fun lang => LanguageStats.new_xp lang <= 0) languages.
Proof.
  intros Hmode Hn.
  rewrite language_lines_recent, slice_to_firstn by (assumption || lia).
  set (active := filter (fun lang => 0 <? LanguageStats.new_xp lang) languages).
  assert (Hact : active = [] <-> Forall (fun lang => LanguageStats.new_xp lang <= 0) languages).
  { unfold active. clear. induction languages as [|x rest IH]; cbn [filter].
    - split; [constructor | reflexivity].
    - destruct (Z.ltb_spec 0 (LanguageStats.new_xp x)) as [Hx|Hx].
      + split; [discriminate|]. intro Hall. inversion Hall. lia.
      + rewrite IH. split; [now constructor | intro Hall; now inversion Hall]. }
  rewrite <- Hact.
  pose proof (sorted_perm LanguageStats.new_xp true active) as Hp.
  destruct (Z.to_nat (top_languages_count settings)) as [|k] eqn:Ek; [lia|].
  destruct (sorted LanguageStats.new_xp true active) as [|c ranked] eqn:Es.
  - cbn [firstn]. split; [|reflexivity].
    intros _. now apply Permutation_nil.
  - cbn [firstn map]. split.
    + intro H. exfalso. injection H as _ Hvalue _.
      rewrite Hmode in Hvalue. unfold format_xp_value in Hvalue.
      destruct (0 <? LanguageStats.new_xp c); discriminate Hvalue.
    + intros ->. apply Permutation_sym, Permutation_nil in Hp. discriminate.
Qed.

End FormatterMore.

(** X9 at three languages and a count of two. *)
Lemma language_lines_count_witness :
  List.length (GistFormatter._format_language_lines (Sample.settings LEVEL_XP 2)
                 [Sample.A; Sample.B; Sample.C]) = 2%nat.
Proof.
  apply (language_lines_count (Sample.settings LEVEL_XP 2) [Sample.A; Sample.B; Sample.C]).
  - discriminate.
  - simpl. lia.
Defined.

(** X10 at three languages and a count of two. *)
Lemma top_languages_dominate_witness :
  exists shown omitted,
    GistFormatter._format_language_lines (Sample.settings XP 2)
        [Sample.A; Sample.B; Sample.C]
      = map (GistFormatter._format_language_line (Sample.settings XP 2)) shown
    /\ Permutation (shown ++ omitted) [Sample.A; Sample.B; Sample.C]
    /\ forall s o, In s shown -> In o omitted ->
                   LanguageStats.xp o <= LanguageStats.xp s.
Proof.
  apply (top_languages_dominate (Sample.settings XP 2)).
  - discriminate.
  - simpl. lia.
Defined.

(** X11 at the three sample languages, listed in two orders. *)
Lemma language_lines_order_independent_witness :
  GistFormatter._format_language_lines (Sample.settings LEVEL_XP 2)
      [Sample.A; Sample.B; Sample.C]
    = GistFormatter._format_language_lines (Sample.settings LEVEL_XP 2)
        [Sample.C; Sample.A; Sample.B].
Proof.
  apply (language_lines_order_independent (Sample.settings LEVEL_XP 2)).
  - discriminate.
  - apply Permutation_sym. apply (Permutation_cons_append [Sample.A; Sample.B] Sample.C).
  - repeat constructor; simpl; intuition discriminate.
Defined.

(** X12 at the sample without recent activity. *)
Lemma recent_placeholder_iff_witness :
  GistFormatter._format_language_lines (Sample.settings RECENT_XP 2)
      [Sample.A; Sample.B; Sample.C]
    = GistFormatter.NO_RECENT_ACTIVITY
  <-> Forall (fun lang => LanguageStats.new_xp lang <= 0) [Sample.A; Sample.B; Sample.C].
Proof.
  apply (recent_placeholder_iff (Sample.settings RECENT_XP 2)).
  - reflexivity.
  - simpl. lia.
Defined.

(** ** The layout of the lines *)

Lemma mul_length (s : str) (n : Z) : Str.len (Str.mul s n) = Str.len s * Z.max n 0.
Proof.
  unfold Str.mul, Str.len.
  replace (Z.max n 0) with (Z.of_nat (Z.to_nat n)) by lia.
  induction (Z.to_nat n) as [|k IH]; cbn [repeat concat]; [cbn; lia|].
  rewrite length_app. lia.
Qed.

(** X8. The length of a rendered line, whatever the separator: the
    label, the value, two spaces, and the separator as many times as there
    are columns left, once at least. *)
Theorem format_length_any_separator (line : FormattedLine.t) (separator : str)
    (width : Z) :
  Str.len (FormattedLine.format line separator width)
    = Str.len (FormattedLine.title line) + Str.len (FormattedLine.value line) + 2
      + Str.len separator
        * Z.max (width - Str.len (FormattedLine.title line)
                 - Str.len (FormattedLine.value line) - 2) 1.
Proof.
  unfold FormattedLine.format. rewrite !len_app, mul_length.
  change (Str.len (lit " ")) with 1. lia.
Qed.

Lemma xp_value_lengths (xp level : Z) :
  0 <= xp < 10000000 -> 0 <= level < 1000 ->
  Str.len (format_xp_only xp) = 12
  /\ Str.len (format_xp_value xp level None) = 22.
Proof.
  intros Hxp Hl.
  pose proof (int_commas_fits xp 7 ltac:(lia) ltac:(lia)) as Hc.
  change (Z.of_nat (7 + (7 - 1) / 3)) with 9 in Hc.
  change (10 ^ Z.of_nat 7) with 10000000 in Hc.
  pose proof (str_of_int_fits level 3 ltac:(lia) ltac:(lia)) as Hs.
  change (Z.of_nat 3) with 3 in Hs. change (10 ^ 3) with 1000 in Hs.
  unfold format_xp_only, format_xp_value. rewrite !len_app, !rjust_length.
  change (Str.len (lit "lvl ")) with 4. change (Str.len (lit " (")) with 2.
  change (Str.len (lit " XP)")) with 4. change (Str.len (lit " XP")) with 3.
  lia.
Qed.

Lemma in_firstn {A} (x : A) (n : nat) (l : list A) : In x (firstn n l) -> In x l.
Proof.
  intro H. rewrite <- (firstn_skipn n l). apply in_or_app. now left.
Qed.

Lemma colon_line_length (line : FormattedLine.t) (width : Z) :
  Str.len (FormattedLine.title line) + Str.len (FormattedLine.value line) + 3 <= width ->
  Str.len (FormattedLine.format line (lit ":") width) = width.
Proof.
  intro H. unfold FormattedLine.format. rewrite !len_app, mul_length.
  change (Str.len (lit " ")) with 1. change (Str.len (lit ":")) with 1. lia.
Qed.

Section Alignment.

Variable settings : Settings.


(** X13. Outside the recent mode, when the numbers and the names fit,
    every rendered line is exactly [max_line_length] long: the values line
    up on the right. *)
Theorem content_lines_aligned (stats : UserStats.t Z) :
  stats_type settings <> RECENT_XP ->
  0 <= top_languages_count settings ->
  33 <= max_line_length settings ->
  0 <= UserStats.total_xp stats < 10000000 ->
  0 <= UserStats.level stats < 1000 ->
  Forall (fits settings) (UserStats.languages stats) ->
  Forall (fun line =>
            Str.len (FormattedLine.format line (lit ":") (max_line_length settings))
              = max_line_length settings)
         (GistFormatter._get_formatted_lines settings stats).
Proof.
  intros Hmode Hn Hw Hxp Hl Hfit.
  unfold GistFormatter._get_formatted_lines. constructor.
  - apply colon_line_length.
    destruct (xp_value_lengths _ _ Hxp Hl) as [H12 H22].
    unfold GistFormatter._format_total_line.
    cbn [FormattedLine.title FormattedLine.value].
    change (Str.len (lit "Total XP")) with 8.
    destruct (stats_type settings); [rewrite H22 | contradiction | rewrite H12]; lia.
  - rewrite language_lines_by_xp, slice_to_firstn by assumption.
    apply Forall_map, Forall_forall. intros lang Hin.
    apply in_firstn in Hin.
    apply (Permutation_in _ (sorted_perm LanguageStats.xp true _)) in Hin.
    rewrite Forall_forall in Hfit. destruct (Hfit lang Hin) as (Hx & Hlv & Hname).
    apply colon_line_length.
    destruct (xp_value_lengths _ _ Hx Hlv) as [H12 H22].
    unfold GistFormatter._format_language_line.
    cbn [FormattedLine.title FormattedLine.value].
    destruct (stats_type settings); [rewrite H22 | contradiction | rewrite H12]; lia.
Qed.

End Alignment.

(** X13 at the sample statistics and a width of 54. *)
Lemma content_lines_aligned_witness :
  Forall (fun line => Str.len (FormattedLine.format line (lit ":") 54) = 54)
         (GistFormatter._get_formatted_lines (Sample.settings LEVEL_XP 2) Sample.stats).
Proof.
  apply (content_lines_aligned (Sample.settings LEVEL_XP 2) Sample.stats).
  - discriminate.
  - simpl. lia.
  - simpl. lia.
  - simpl. lia.
  - simpl. lia.
  - repeat constructor; simpl; lia.
Defined.

Lemma line_feeds_app (a b : str) : line_feeds (a ++ b) = (line_feeds a + line_feeds b)%nat.
Proof. apply count_occ_app. Qed.

Lemma line_feeds_absent (s : str) : ~ In 10%N s -> line_feeds s = 0%nat.
Proof. apply count_occ_not_In. Qed.

Lemma line_feeds_repeat (c : Str.char) (k : nat) :
  c <> 10%N -> line_feeds (repeat c k) = 0%nat.
Proof. intro H. apply count_occ_repeat_neq. congruence. Qed.

Lemma line_feeds_rjust (s : str) (width : Z) :
  line_feeds (Fmt.rjust s width) = line_feeds s.
Proof.
  unfold Fmt.rjust. rewrite mul_single, line_feeds_app, line_feeds_repeat; [reflexivity|].
  discriminate.
Qed.

Lemma grouped_in (c : Str.char) (ds : str) :
  In c (Spec.grouped ds) -> In c ds \/ c = Fmt.comma.
Proof.
  induction ds as [|d rest IH]; cbn [Spec.grouped]; [tauto|].
  destruct ((0 <? List.length rest)%nat && (List.length rest mod 3 =? 0)%nat);
    cbn [In]; intuition.
Qed.

Lemma line_feeds_int_commas (n : Z) : line_feeds (Fmt.int_commas n) = 0%nat.
Proof.
  unfold Fmt.int_commas. rewrite line_feeds_app, group_grouped.
  replace (line_feeds (Fmt.sign n)) with 0%nat
    by (unfold Fmt.sign; destruct (n <? 0); reflexivity).
  apply line_feeds_absent. intro H. apply grouped_in in H as [H|H]; [|discriminate H].
  pose proof (digits_are_digits (Z.abs_N n)) as Hd. rewrite Forall_forall in Hd.
  specialize (Hd _ H). unfold is_digit in Hd. lia.
Qed.

Lemma line_feeds_str_of_int (n : Z) : line_feeds (Fmt.str_of_int n) = 0%nat.
Proof.
  unfold Fmt.str_of_int. rewrite line_feeds_app.
  replace (line_feeds (Fmt.sign n)) with 0%nat
    by (unfold Fmt.sign; destruct (n <? 0); reflexivity).
  apply line_feeds_absent. intro H.
  pose proof (digits_are_digits (Z.abs_N n)) as Hd. rewrite Forall_forall in Hd.
  specialize (Hd _ H). unfold is_digit in Hd. lia.
Qed.

Lemma line_feeds_format_xp_only (xp : Z) : line_feeds (format_xp_only xp) = 0%nat.
Proof.
  unfold format_xp_only.
  now rewrite line_feeds_app, line_feeds_rjust, line_feeds_int_commas.
Qed.

Lemma line_feeds_format_xp_value (xp level : Z) (new_xp : option Z) :
  line_feeds (format_xp_value xp level new_xp) = 0%nat.
Proof.
  assert (Hbase : line_feeds (lit "lvl " ++ Fmt.rjust (Fmt.str_of_int level) 3 ++ lit " ("
                              ++ Fmt.rjust (Fmt.int_commas xp) 9 ++ lit " XP)") = 0%nat).
  { now rewrite !line_feeds_app, !line_feeds_rjust, line_feeds_int_commas,
      line_feeds_str_of_int. }
  unfold format_xp_value. cbv zeta. destruct new_xp as [n|]; [|exact Hbase].
  destruct (0 <? n); [|exact Hbase].
  rewrite line_feeds_app, Hbase.
  now rewrite !line_feeds_app, line_feeds_rjust, line_feeds_int_commas.
Qed.

Lemma line_feeds_join (parts : list str) :
  Forall (fun p => line_feeds p = 0%nat) parts ->
  line_feeds (Str.join Str.newline parts) = (List.length parts - 1)%nat.
Proof.
  induction 1 as [|p rest Hp Hrest IH]; [reflexivity|].
  destruct rest as [|q rest]; [cbn [Str.join List.length]; rewrite Hp; lia|].
  change (Str.join Str.newline (p :: q :: rest))
    with (p ++ Str.newline ++ Str.join Str.newline (q :: rest)).
  rewrite !line_feeds_app, Hp, IH. cbn. lia.
Qed.

Lemma line_feeds_format (line : FormattedLine.t) (width : Z) :
  line_feeds (FormattedLine.format line (lit ":") width)
    = (line_feeds (FormattedLine.title line) + line_feeds (FormattedLine.value line))%nat.
Proof.
  unfold FormattedLine.format. change (lit ":") with [58%N].
  rewrite mul_single, !line_feeds_app, line_feeds_repeat by discriminate.
  change (line_feeds (lit " ")) with 0%nat. lia.
Qed.

Section LineFeeds.

Variable settings : Settings.

Lemma line_feeds_language_line (lang : LanguageStats.t Z) :
  line_feeds (FormattedLine.value (GistFormatter._format_language_line settings lang))
    = 0%nat.
Proof.
  unfold GistFormatter._format_language_line. cbn [FormattedLine.value].
  destruct (stats_type settings);
    (apply line_feeds_format_xp_value || apply line_feeds_format_xp_only).
Qed.

Lemma line_feeds_language_lines (languages : list (LanguageStats.t Z)) :
  Forall (fun lang => line_feeds (LanguageStats.name lang) = 0%nat) languages ->
  Forall (fun line => line_feeds (FormattedLine.title line) = 0%nat
                      /\ line_feeds (FormattedLine.value line) = 0%nat)
         (GistFormatter._format_language_lines settings languages).
Proof.
  intro Hnames.
  assert (Hmap : forall chosen,
             (forall lang, In lang chosen -> In lang languages) ->
             Forall (fun line => line_feeds (FormattedLine.title line) = 0%nat
                                 /\ line_feeds (FormattedLine.value line) = 0%nat)
                    (map (GistFormatter._format_language_line settings) chosen)).
  { intros chosen Hsub. apply Forall_map, Forall_forall. intros lang Hin. split.
    - rewrite Forall_forall in Hnames. exact (Hnames lang (Hsub lang Hin)).
    - apply line_feeds_language_line. }
  assert (Hslice : forall (l : list (LanguageStats.t Z)) n lang,
             In lang (slice_to l n) -> In lang l).
  { intros l n lang. unfold slice_to. destruct (0 <=? n); apply in_firstn. }
  unfold GistFormatter._format_language_lines.
  destruct (stats_type settings).
  - apply Hmap. intros lang Hin. apply Hslice in Hin.
    now apply (Permutation_in _ (sorted_perm LanguageStats.xp true _)) in Hin.
  - destruct (slice_to _ _) as [|c chosen] eqn:Es.
    + repeat constructor.
    + apply Hmap. intros lang Hin. rewrite <- Es in Hin. apply Hslice in Hin.
      apply (Permutation_in _ (sorted_perm LanguageStats.new_xp true _)) in Hin.
      now apply filter_In in Hin.
  - apply Hmap. intros lang Hin. apply Hslice in Hin.
    now apply (Permutation_in _ (sorted_perm LanguageStats.xp true _)) in Hin.
Qed.

(** X14. The content has one line for the total and one for each language
    line: it holds as many line feeds as there are language lines, as long
    as no language name holds one. *)
Theorem format_content_line_feeds (stats : UserStats.t Z) :
  Forall (fun lang => ~ In 10%N (LanguageStats.name lang)) (UserStats.languages stats) ->
  line_feeds (GistFormatter.format_content settings stats)
    = List.length (GistFormatter._format_language_lines settings
                     (UserStats.languages stats)).
Proof.
  intro Hnames.
  unfold GistFormatter.format_content, GistFormatter._get_formatted_lines.
  rewrite line_feeds_join.
  - cbn [map List.length]. rewrite length_map. lia.
  - cbn [map]. constructor.
    + rewrite line_feeds_format.
      replace (line_feeds (FormattedLine.value
                             (GistFormatter._format_total_line settings stats)))
        with 0%nat; [reflexivity|].
      unfold GistFormatter._format_total_line. cbn [FormattedLine.value].
      symmetry. destruct (stats_type settings);
        (apply line_feeds_format_xp_value || apply line_feeds_format_xp_only).
    + apply Forall_map.
      eapply Forall_impl; [|apply line_feeds_language_lines].
      * intros line [Ht Hv]. rewrite line_feeds_format. lia.
      * eapply Forall_impl; [|exact Hnames].
        intros lang. apply line_feeds_absent.
Qed.

End LineFeeds.

(** X14 at the sample statistics and a count of two. *)
Lemma format_content_line_feeds_witness :
  line_feeds (GistFormatter.format_content (Sample.settings LEVEL_XP 2) Sample.stats)
    = 2%nat.
Proof.
  apply (format_content_line_feeds (Sample.settings LEVEL_XP 2) Sample.stats).
  repeat constructor; simpl; intuition discriminate.
Defined.

(** ** The update client, continued *)

(** The two ways [update_gist] ends before it compares anything. *)
Ltac fetch_fails Hget :=
  unfold GistUpdater.update_gist, io_bind, io_try, github.get_gist;
  rewrite Hget; cbn [io_raise].

Ltac has_no_files Hget Hfiles :=
  unfold GistUpdater.update_gist, io_bind, io_try, github.get_gist;
  rewrite Hget, Hfiles; cbn [io_raise].

Ltac nothing_sent :=
  exists []; cbn [snd List.length]; rewrite app_nil_r;
  split; [reflexivity|]; split; [lia | constructor].

Section UpdaterErrors.

Variable settings : Settings.
Variables title content : str.

(** X21. A gist that cannot be fetched: the failure is raised as
    [GitHubAPIError] with the cause kept, and nothing is sent. *)
Theorem update_gist_fetch_failure (r : github.remote) (e : exception) :
  github.get_gist_fault r = Some e ->
  GistUpdater.update_gist settings title content r
    = (Raise (GitHubAPIError
                (lit "Failed to fetch gist " ++ gist_id settings ++ lit ": "
                 ++ exception_str e) (Some e)), r).
Proof.
  intro H. fetch_fails H. reflexivity.
Qed.

(** X22. A gist without files: [GitHubAPIError] without a cause, and
    nothing is sent. *)
Theorem update_gist_no_files (r : github.remote) :
  github.get_gist_fault r = None ->
  github.gist_files r = [] ->
  GistUpdater.update_gist settings title content r
    = (Raise (GitHubAPIError (lit "Gist " ++ gist_id settings ++ lit " has no files")
                             None), r).
Proof.
  intros Hget Hfiles. has_no_files Hget Hfiles. reflexivity.
Qed.

(** X23. An edit the store refuses: the failure is raised as
    [GitHubAPIError] with the cause kept; the one edit was sent and is not
    sent again. *)
Theorem update_gist_edit_failure (r : github.remote) (old_title current : str)
    (rest : github.files) (e : exception) :
  github.get_gist_fault r = None ->
  github.gist_files r = (old_title, current) :: rest ->
  ~ (current = content /\ old_title = title) ->
  github.edit_fault r = Some e ->
  exists r',
    GistUpdater.update_gist settings title content r
      = (Raise (GitHubAPIError
                  (lit "Failed to update gist " ++ gist_id settings ++ lit ": "
                   ++ exception_str e) (Some e)), r')
    /\ github.gist_files r' = github.gist_files r
    /\ github.edits r'
       = github.edits r ++ [github.mkEdit old_title content title].
Proof.
  intros Hget Hfiles Hdiff Hfault.
  rewrite (update_gist_cases settings title content r old_title current rest Hget Hfiles).
  destruct (Str.eqb current content && Str.eqb old_title title) eqn:Esame.
  { apply same_section_eqb in Esame. contradiction. }
  cbv zeta. rewrite Hfault. eexists. split; [reflexivity|]. split; reflexivity.
Qed.

(** X24. What a call sends, whatever the store: at most one edit, and that
    one names the first file of the gist and gives it the new title and
    content. *)
Theorem update_gist_at_most_one_edit (r : github.remote) :
  exists sent,
    github.edits (snd (GistUpdater.update_gist settings title content r))
      = github.edits r ++ sent
    /\ (List.length sent <= 1)%nat
    /\ Forall (fun q => github.edit_content q = content
                        /\ github.edit_new_name q = title
                        /\ exists current rest,
                             github.gist_files r
                               = (github.edit_file q, current) :: rest)
              sent.
Proof.
  destruct (github.get_gist_fault r) as [e|] eqn:Hget.
  { fetch_fails Hget. nothing_sent. }
  destruct (github.gist_files r) as [|[old_title current] rest] eqn:Hfiles.
  { has_no_files Hget Hfiles. nothing_sent. }
  rewrite (update_gist_cases settings title content r old_title current rest Hget Hfiles).
  destruct (Str.eqb current content && Str.eqb old_title title); [nothing_sent|].
  cbv zeta. exists [github.mkEdit old_title content title].
  destruct (github.edit_fault r); cbn [snd github.edits List.length];
    (split; [reflexivity|]; split; [lia|]; constructor; [|constructor];
     cbn; repeat split; now exists current, rest).
Qed.


(** X26. The returned flag tells what was done: [False] exactly when the
    store was left as it was, [True] exactly when an edit was sent. *)
Theorem update_gist_flag (r r' : github.remote) (b : bool) :
  GistUpdater.update_gist settings title content r = (Return b, r') ->
  (b = false <-> r' = r)
  /\ (b = true <-> exists q, github.edits r' = github.edits r ++ [q]).
Proof.
  assert (Hne : forall q, github.edits r <> github.edits r ++ [q]).
  { intros q E. apply (f_equal (@List.length _)) in E.
    rewrite length_app in E. cbn in E. lia. }
  destruct (github.get_gist_fault r) as [e0|] eqn:Hget.
  { fetch_fails Hget. discriminate. }
  destruct (github.gist_files r) as [|[old_title current] rest] eqn:Hfiles.
  { has_no_files Hget Hfiles. discriminate. }
  rewrite (update_gist_cases settings title content r old_title current rest Hget Hfiles).
  destruct (Str.eqb current content && Str.eqb old_title title).
  - intro H. injection H as <- <-. split; split; trivial; try discriminate.
    intros [q E]. now contradiction (Hne q).
  - cbv zeta. destruct (github.edit_fault r); [discriminate|].
    intro H. injection H as <- <-. split; split; trivial; try discriminate.
    + intro E. apply (f_equal github.edits) in E. cbn in E.
      symmetry in E. now contradiction (Hne _ E).
    + intros _. eexists. reflexivity.
Qed.

End UpdaterErrors.

(** X21 at a store that answers 404. *)
Lemma update_gist_fetch_failure_witness :
  GistUpdater.update_gist (Sample.settings LEVEL_XP 10) (lit "title") (lit "new")
      Case.unreachable_store
    = (Raise (GitHubAPIError (lit "Failed to fetch gist 0123abcd: 404 Not Found")
                             (Some (Exception (lit "404 Not Found")))),
       Case.unreachable_store).
Proof.
  apply (update_gist_fetch_failure (Sample.settings LEVEL_XP 10) (lit "title") (lit "new")
           Case.unreachable_store (Exception (lit "404 Not Found"))).
  reflexivity.
Defined.

(** X22 at an empty gist. *)
Lemma update_gist_no_files_witness :
  GistUpdater.update_gist (Sample.settings LEVEL_XP 10) (lit "title") (lit "new")
      (Sample.store [])
    = (Raise (GitHubAPIError (lit "Gist 0123abcd has no files") None), Sample.store []).
Proof.
  apply (update_gist_no_files (Sample.settings LEVEL_XP 10) (lit "title") (lit "new")
           (Sample.store [])); reflexivity.
Defined.

(** X23 at a store that answers 403 to the edit. *)
Lemma update_gist_edit_failure_witness :
  exists r',
    GistUpdater.update_gist (Sample.settings LEVEL_XP 10) (lit "title") (lit "new")
        Case.read_only_store
      = (Raise (GitHubAPIError (lit "Failed to update gist 0123abcd: 403 Forbidden")
                               (Some (Exception (lit "403 Forbidden")))), r')
    /\ github.gist_files r' = [(lit "stats.txt", lit "old")]
    /\ github.edits r' = [github.mkEdit (lit "stats.txt") (lit "new") (lit "title")].
Proof.
  apply (update_gist_edit_failure (Sample.settings LEVEL_XP 10) (lit "title") (lit "new")
           Case.read_only_store (lit "stats.txt") (lit "old") []
           (Exception (lit "403 Forbidden"))).
  - reflexivity.
  - reflexivity.
  - intros [H _]. discriminate H.
  - reflexivity.
Defined.


(** X26 at the store whose first file is out of date. *)
Lemma update_gist_flag_witness :
  (true = false <->
   snd (GistUpdater.update_gist (Sample.settings LEVEL_XP 10) (lit "title") (lit "new")
          Sample.stale_store) = Sample.stale_store)
  /\ (true = true <->
      exists q,
        github.edits
          (snd (GistUpdater.update_gist (Sample.settings LEVEL_XP 10) (lit "title")
                  (lit "new") Sample.stale_store))
        = github.edits Sample.stale_store ++ [q]).
Proof.
  apply (update_gist_flag (Sample.settings LEVEL_XP 10) (lit "title") (lit "new")).
  reflexivity.
Defined.
